(** * Feed reconciliation of the social-feed client

    A shallow embedding of the state logic of [src/pages/Dashboard.jsx],
    [src/pages/Profile.jsx] and [src/components/PostCard.jsx]: the React
    state of a screen is a record, every handler is a function from state
    to state, and an [await] splits a handler into the part that runs
    before the request and the part that runs when it settles. *)

From Stdlib Require Import List Bool ZArith NArith Lia String Ascii.
Import ListNotations.

Set Implicit Arguments.

(** ** JavaScript values *)

(** A string is its sequence of UTF-16 code units; [length] counts them, as
    the [length] property does. *)
Definition jsstr := list N.

Definition js (s : string) : jsstr :=
  map N_of_ascii (list_ascii_of_string s).

(** The scalars that JSON carries.  Numbers are restricted to integers. *)
Inductive prim : Type :=
| PUndefined
| PNull
| PBool (b : bool)
| PNum (n : Z)
| PStr (s : jsstr).

Definition jsstr_eqb (a b : jsstr) : bool :=
  if list_eq_dec N.eq_dec a b then true else false.

(** [a === b] on scalars. *)
Definition strict_eq (a b : prim) : bool :=
  match a, b with
  | PUndefined, PUndefined => true
  | PNull, PNull => true
  | PBool x, PBool y => Bool.eqb x y
  | PNum x, PNum y => Z.eqb x y
  | PStr x, PStr y => jsstr_eqb x y
  | _, _ => false
  end.

(** ToBoolean on scalars: [undefined], [null], [false], [0] and the empty
    string are falsy. *)
Definition truthy (a : prim) : bool :=
  match a with
  | PUndefined | PNull => false
  | PBool b => b
  | PNum n => negb (Z.eqb n 0)
  | PStr s => match s with [] => false | _ => true end
  end.

(** ** Posts *)

Record User : Type := mkUser {
  uid : prim;
  name : prim;
  avatar : prim
}.

(** A post object.  An [_id] the object lacks reads as [undefined]; [user]
    and [content] are [None] when the property is missing or [null].  The
    media fields ([imageUrl], [videoUrl], [createdAt]) are only rendered. *)
Record Post : Type := mkPost {
  _id : prim;
  user : option User;
  content : option jsstr
}.

(** [post.user?.uid] *)
Definition user_uid (p : Post) : prim :=
  match user p with
  | Some u => uid u
  | None => PUndefined
  end.

(** What a socket listener receives: a scalar or an object. *)
Inductive payload : Type :=
| Prim (v : prim)
| Obj (o : Post).

(** A handler either finishes or lets a [TypeError] escape. *)
Inductive outcome (A : Type) : Type :=
| Done (a : A)
| TypeError.
Arguments TypeError {A}.

(** Truthiness of a payload: every object is truthy. *)
Definition payload_truthy (d : payload) : bool :=
  match d with
  | Prim v => truthy v
  | Obj _ => true
  end.

(** [d._id]: reading a property of [undefined] or [null] throws, of another
    scalar gives [undefined]. *)
Definition get_id (d : payload) : outcome prim :=
  match d with
  | Prim PUndefined | Prim PNull => TypeError
  | Prim _ => Done PUndefined
  | Obj o => Done (_id o)
  end.

(** [d?._id] *)
Definition get_id_opt (d : payload) : prim :=
  match d with
  | Prim _ => PUndefined
  | Obj o => _id o
  end.

(** [p._id === x] where [x] may be an object: an object arriving in an
    event is never identical to a scalar. *)
Definition id_is (x : payload) (p : Post) : bool :=
  match x with
  | Prim v => strict_eq (_id p) v
  | Obj _ => false
  end.

Definition ids (l : list Post) : list prim := map _id l.

(** ** The updater functions passed to [setPosts] *)

Module Reconcile.

(** [prev.some((p) => p._id === post._id) ? prev : [post, ...prev]] *)
Definition created (post : Post) (prev : list Post) : list Post :=
  if existsb (fun p => strict_eq (_id p) (_id post)) prev
  then prev
  else post :: prev.

(** [prev.map((p) => (p._id === updatedPost._id ? updatedPost : p))] *)
Definition updated (updatedPost : Post) (prev : list Post) : list Post :=
  map (fun p => if strict_eq (_id p) (_id updatedPost) then updatedPost else p)
      prev.

(** [prev.filter((p) => p._id !== postId)] *)
Definition deleted (postId : payload) (prev : list Post) : list Post :=
  filter (fun p => negb (id_is postId p)) prev.

(** The page-advance merge of [fetchPosts]:
    [existingIds = new Set(prev.map((p) => p._id))],
    [newPosts.filter((p) => !existingIds.has(p._id))], appended. *)
Definition mergePage (newPosts prev : list Post) : list Post :=
  let existingIds := ids prev in
  let uniqueNewPosts :=
    filter (fun p => negb (existsb (strict_eq (_id p)) existingIds)) newPosts in
  prev ++ uniqueNewPosts.

End Reconcile.

(** [a || b] on scalars. *)
Definition or_else (a b : prim) : prim := if truthy a then a else b.

(** ** HTTP failures as axios reports them *)

(** [err.response]: the status and [data?.message] of an error response. *)
Record http_response : Type := mkResponse {
  status : prim;
  data_message : prim
}.

(** A rejected request: [response] is [None] for a network error or a
    timeout, where only [err.message] is set. *)
Record http_error : Type := mkError {
  response : option http_response;
  message : prim
}.

(** [err.response?.status] *)
Definition error_status (err : http_error) : prim :=
  match response err with
  | Some r => status r
  | None => PUndefined
  end.

(** [err.response?.data?.message] *)
Definition error_data_message (err : http_error) : prim :=
  match response err with
  | Some r => data_message r
  | None => PUndefined
  end.

(** [err.response?.status === 401 || err.response?.status === 403] *)
Definition is_auth_error (err : http_error) : bool :=
  strict_eq (error_status err) (PNum 401) || strict_eq (error_status err) (PNum 403).

(** [res.data.posts || []] *)
Definition posts_or_empty (res_posts : option (list Post)) : list Post :=
  match res_posts with
  | Some l => l
  | None => []
  end.

(** What a screen leaves pending with [setTimeout]. *)
Inductive task : Type :=
| RedirectLogin   (* window.location.href = "/login" *)
| RetryFetch.     (* setPage(1); setHasMore(true); fetchPosts(1, false) *)

(** ** The feed screen *)

Module Dashboard.

(** A GET [/posts?page=..&limit=10] with its bearer header. *)
Record request : Type := mkRequest {
  req_page : Z;
  req_limit : Z;
  req_bearer : option jsstr
}.

(** The component state ([useState]), its refs ([useRef]) and the part of
    the browser it touches: the [authToken] entry of local storage, the
    pending timers, the requests sent, and the closure of the call of
    [fetchPosts] that is waiting for its response. *)
Record state : Type := mkState {
  posts : list Post;
  page : Z;
  loading : bool;
  hasMore : bool;
  initialLoad : bool;
  error : prim;
  retryCount : Z;
  fetchingRef : bool;
  isMountedRef : bool;
  inflight : option (Z * bool);
  authToken : option jsstr;
  timers : list (Z * task);
  requests : list request
}.

Definition setPosts (f : list Post -> list Post) (s : state) : state :=
  mkState (f (posts s)) (page s) (loading s) (hasMore s) (initialLoad s)
    (error s) (retryCount s) (fetchingRef s) (isMountedRef s) (inflight s)
    (authToken s) (timers s) (requests s).
Definition setPage (f : Z -> Z) (s : state) : state :=
  mkState (posts s) (f (page s)) (loading s) (hasMore s) (initialLoad s)
    (error s) (retryCount s) (fetchingRef s) (isMountedRef s) (inflight s)
    (authToken s) (timers s) (requests s).
Definition setLoading (b : bool) (s : state) : state :=
  mkState (posts s) (page s) b (hasMore s) (initialLoad s)
    (error s) (retryCount s) (fetchingRef s) (isMountedRef s) (inflight s)
    (authToken s) (timers s) (requests s).
Definition setHasMore (b : bool) (s : state) : state :=
  mkState (posts s) (page s) (loading s) b (initialLoad s)
    (error s) (retryCount s) (fetchingRef s) (isMountedRef s) (inflight s)
    (authToken s) (timers s) (requests s).
Definition setInitialLoad (b : bool) (s : state) : state :=
  mkState (posts s) (page s) (loading s) (hasMore s) b
    (error s) (retryCount s) (fetchingRef s) (isMountedRef s) (inflight s)
    (authToken s) (timers s) (requests s).
Definition setError (e : prim) (s : state) : state :=
  mkState (posts s) (page s) (loading s) (hasMore s) (initialLoad s)
    e (retryCount s) (fetchingRef s) (isMountedRef s) (inflight s)
    (authToken s) (timers s) (requests s).
Definition setRetryCount (f : Z -> Z) (s : state) : state :=
  mkState (posts s) (page s) (loading s) (hasMore s) (initialLoad s)
    (error s) (f (retryCount s)) (fetchingRef s) (isMountedRef s) (inflight s)
    (authToken s) (timers s) (requests s).
Definition setFetchingRef (b : bool) (s : state) : state :=
  mkState (posts s) (page s) (loading s) (hasMore s) (initialLoad s)
    (error s) (retryCount s) b (isMountedRef s) (inflight s)
    (authToken s) (timers s) (requests s).
Definition setIsMountedRef (b : bool) (s : state) : state :=
  mkState (posts s) (page s) (loading s) (hasMore s) (initialLoad s)
    (error s) (retryCount s) (fetchingRef s) b (inflight s)
    (authToken s) (timers s) (requests s).
Definition setInflight (c : option (Z * bool)) (s : state) : state :=
  mkState (posts s) (page s) (loading s) (hasMore s) (initialLoad s)
    (error s) (retryCount s) (fetchingRef s) (isMountedRef s) c
    (authToken s) (timers s) (requests s).
(** [localStorage.removeItem("authToken")] *)
Definition removeAuthToken (s : state) : state :=
  mkState (posts s) (page s) (loading s) (hasMore s) (initialLoad s)
    (error s) (retryCount s) (fetchingRef s) (isMountedRef s) (inflight s)
    None (timers s) (requests s).
(** [setTimeout(t, delay)] *)
Definition setTimeout (t : task) (delay : Z) (s : state) : state :=
  mkState (posts s) (page s) (loading s) (hasMore s) (initialLoad s)
    (error s) (retryCount s) (fetchingRef s) (isMountedRef s) (inflight s)
    (authToken s) ((delay, t) :: timers s) (requests s).
(** [axios.get] *)
Definition send (r : request) (s : state) : state :=
  mkState (posts s) (page s) (loading s) (hasMore s) (initialLoad s)
    (error s) (retryCount s) (fetchingRef s) (isMountedRef s) (inflight s)
    (authToken s) (timers s) (r :: requests s).

(** The [useState] and [useRef] initial values, for a browser that holds
    [token]. *)
Definition init (token : option jsstr) : state :=
  mkState [] 1 false true true PNull 0 false true None token [] [].

(** *** [fetchPosts] *)

(** Up to the [await]: the guard on [fetchingRef], the three
    assignments, and the request.  The request records the stored token
    as read; the header is sent for a non-empty one only
    ([token ? {...} : {}]), so a recorded empty string stands for a
    request without the header, as [None] does. *)
Definition fetchPosts (pageNum : Z) (shouldAppend : bool) (s : state) : state :=
  if fetchingRef s then s
  else
    let s := setFetchingRef true s in
    let s := setLoading true s in
    let s := setError PNull s in
    let s := send (mkRequest pageNum 10 (authToken s)) s in
    setInflight (Some (pageNum, shouldAppend)) s.

(** The [finally] block. *)
Definition fetchPosts_finally (s : state) : state :=
  if isMountedRef s
  then setFetchingRef false (setLoading false s)
  else s.

(** The rest of the [try] block, once the response is there;
    [res_posts] is [res.data.posts], [None] when it is missing. *)
Definition fetchPosts_resolved (res_posts : option (list Post)) (s : state)
  : state :=
  match inflight s with
  | None => s
  | Some (pageNum, shouldAppend) =>
      let s := setInflight None s in
      if negb (isMountedRef s) then fetchPosts_finally s
      else
        let newPosts := posts_or_empty res_posts in
        let s :=
          if shouldAppend && (1 <? pageNum)%Z
          then setPosts (Reconcile.mergePage newPosts) s
          else setPosts (fun _ => newPosts) s in
        let s := setHasMore (10 <=? Z.of_nat (List.length newPosts))%Z s in
        let s := setInitialLoad false s in
        let s := setRetryCount (fun _ => 0%Z) s in
        fetchPosts_finally s
  end.

(** The [catch] block, once the request has failed. *)
Definition fetchPosts_rejected (err : http_error) (s : state) : state :=
  match inflight s with
  | None => s
  | Some _ =>
      let s := setInflight None s in
      if negb (isMountedRef s) then fetchPosts_finally s
      else
        let errorMessage :=
          or_else (or_else (error_data_message err) (message err))
                  (PStr (js "Failed to load posts")) in
        let s := setError errorMessage s in
        let s := setHasMore false s in
        let s :=
          if is_auth_error err
          then setTimeout RedirectLogin 2000 (removeAuthToken s)
          else s in
        fetchPosts_finally s
  end.

(** *** Retry *)

(** [Math.min(1000 * Math.pow(2, retryCount), 10000)] *)
Definition retry_delay (s : state) : Z :=
  Z.min (1000 * 2 ^ retryCount s) 10000.

Definition handleRetry (s : state) : state :=
  let delay := retry_delay s in
  let s := setRetryCount (fun prev => prev + 1)%Z s in
  setTimeout RetryFetch delay s.

(** The callback of the retry timer. *)
Definition retry_fire (s : state) : state :=
  fetchPosts 1 false (setHasMore true (setPage (fun _ => 1%Z) s)).

(** *** Infinite scroll *)

(** [lastPostRef.current] is set when the list renders a last post.
    The cards are lazy: while they are suspended on a first visit the ref
    is still [null] when the observer effect runs, so the model has an
    observer in states where the code has none yet, never the reverse. *)
Definition lastPostRef (s : state) : bool :=
  match posts s with [] => false | _ => true end.

(** The observer effect runs after every change of [loading], [hasMore],
    [initialLoad] or [posts.length]: its cleanup disconnects the previous
    observer, and a new one exists only past the early return.  Unmounting
    disconnects it for good. *)
Definition observing (s : state) : bool :=
  isMountedRef s
  && negb (loading s || negb (hasMore s) || initialLoad s || negb (lastPostRef s)).

(** The effect on [page]: [if (page > 1) fetchPosts(page, true)]. *)
Definition page_effect (s : state) : state :=
  if (1 <? page s)%Z then fetchPosts (page s) true s else s.

(** The observer callback for an entry with the given [isIntersecting]. *)
Definition intersect (isIntersecting : bool) (s : state) : state :=
  if observing s
  then
    if isIntersecting && hasMore s && negb (loading s) && negb (fetchingRef s)
    then page_effect (setPage (fun prev => prev + 1)%Z s)
    else s
  else s.

(** *** Unmounting *)

(** The cleanup of the last effect; the listeners below are taken off the
    socket by the cleanup that runs with it. *)
Definition unmount (s : state) : state := setIsMountedRef false s.

(** *** Socket listeners *)

(** Each listener wraps its body in [try]/[catch]; [guarded] is that
    wrapper: an exception in the body is logged and the state stays. *)
Definition guarded (body : outcome state) (s : state) : state :=
  match body with
  | Done s' => s'
  | TypeError => s
  end.

(** The body of the [try] block.  Past the guard the payload is an object:
    a scalar has no [_id]. *)
Definition handlePostCreated_body (post : payload) (s : state)
  : outcome state :=
  if negb (payload_truthy post) then Done s
  else
    match get_id post with
    | TypeError => TypeError
    | Done i =>
        if negb (truthy i) then Done s
        else
          match post with
          | Obj o => Done (setPosts (Reconcile.created o) s)
          | Prim _ => Done s
          end
    end.

Definition handlePostCreated (post : payload) (s : state) : outcome state :=
  Done (guarded (handlePostCreated_body post s) s).

Definition handlePostUpdated_body (updatedPost : payload) (s : state)
  : outcome state :=
  if negb (payload_truthy updatedPost) then Done s
  else
    match get_id updatedPost with
    | TypeError => TypeError
    | Done i =>
        if negb (truthy i) then Done s
        else
          match updatedPost with
          | Obj o => Done (setPosts (Reconcile.updated o) s)
          | Prim _ => Done s
          end
    end.

Definition handlePostUpdated (updatedPost : payload) (s : state)
  : outcome state :=
  Done (guarded (handlePostUpdated_body updatedPost s) s).

(** [data?._id || data] *)
Definition deleted_postId (data : payload) : payload :=
  if truthy (get_id_opt data) then Prim (get_id_opt data) else data.

Definition handlePostDeleted_body (data : payload) (s : state)
  : outcome state :=
  let postId := deleted_postId data in
  if negb (payload_truthy postId) then Done s
  else Done (setPosts (Reconcile.deleted postId) s).

Definition handlePostDeleted (data : payload) (s : state) : outcome state :=
  Done (guarded (handlePostDeleted_body data s) s).

(** *** What is rendered *)

Record feed_view : Type := mkFeed {
  shown : list Post;
  empty_state : bool;
  paging_spinner : bool;
  skeletons : bool;
  caught_up : bool;
  inline_retry : bool;
  inline_retry_disabled : bool
}.

Inductive view : Type :=
| ErrorScreen (msg : prim) (retry_disabled : bool)
| Feed (f : feed_view).

Definition is_empty (l : list Post) : bool :=
  match l with [] => true | _ => false end.

Definition render (s : state) : view :=
  if truthy (error s) && is_empty (posts s) && negb (loading s)
  then ErrorScreen (error s) (loading s)
  else
    Feed (mkFeed
      (posts s)
      (is_empty (posts s) && negb (loading s) && negb (initialLoad s)
         && negb (truthy (error s)))
      (loading s && negb (is_empty (posts s)))
      (loading s && is_empty (posts s))
      (negb (hasMore s) && negb (is_empty (posts s)) && negb (loading s))
      (truthy (error s) && negb (is_empty (posts s)))
      (loading s)).

End Dashboard.

(** ** The profile screen *)

Module Profile.

(** [resUser.data.user]; its [uid] is the string put into the query
    [/posts?userId=]. *)
Record ProfileUser : Type := mkProfileUser {
  p_uid : jsstr;
  p_displayName : prim;
  p_email : prim;
  p_avatar : prim
}.

(** The request [fetchProfile] is waiting for. *)
Inductive awaited : Type :=
| AwaitUser    (* GET /users/me *)
| AwaitPosts.  (* GET /posts?userId= *)

Record state : Type := mkState {
  user : option ProfileUser;
  posts : list Post;
  loading : bool;
  error : prim;
  isMounted : bool;
  awaiting : option awaited;
  authToken : option jsstr;
  timers : list (Z * task)
}.

Definition setUser (u : option ProfileUser) (s : state) : state :=
  mkState u (posts s) (loading s) (error s) (isMounted s) (awaiting s)
    (authToken s) (timers s).
Definition setPosts (f : list Post -> list Post) (s : state) : state :=
  mkState (user s) (f (posts s)) (loading s) (error s) (isMounted s)
    (awaiting s) (authToken s) (timers s).
Definition setLoading (b : bool) (s : state) : state :=
  mkState (user s) (posts s) b (error s) (isMounted s) (awaiting s)
    (authToken s) (timers s).
Definition setError (e : prim) (s : state) : state :=
  mkState (user s) (posts s) (loading s) e (isMounted s) (awaiting s)
    (authToken s) (timers s).
Definition setAwaiting (a : option awaited) (s : state) : state :=
  mkState (user s) (posts s) (loading s) (error s) (isMounted s) a
    (authToken s) (timers s).
Definition removeAuthToken (s : state) : state :=
  mkState (user s) (posts s) (loading s) (error s) (isMounted s)
    (awaiting s) None (timers s).
Definition setTimeout (t : task) (delay : Z) (s : state) : state :=
  mkState (user s) (posts s) (loading s) (error s) (isMounted s)
    (awaiting s) (authToken s) ((delay, t) :: timers s).

Definition init (token : option jsstr) : state :=
  mkState None [] true PNull true None token [].

(** *** [fetchProfile] *)

Definition fetchProfile_finally (s : state) : state :=
  if isMounted s then setLoading false s else s.

(** The [catch] block followed by [finally]. *)
Definition fetchProfile_catch (err : http_error) (s : state) : state :=
  let s := setAwaiting None s in
  if negb (isMounted s) then fetchProfile_finally s
  else
    let errorMessage :=
      or_else (or_else (error_data_message err) (message err))
              (PStr (js "Failed to load profile")) in
    let s := setError errorMessage s in
    let s :=
      if is_auth_error err
      then setTimeout RedirectLogin 2000 (removeAuthToken s)
      else s in
    fetchProfile_finally s.

(** [!token] for the stored string. *)
Definition no_token (t : option jsstr) : bool :=
  match t with
  | Some (_ :: _) => false
  | _ => true
  end.

(** Up to the first [await]. *)
Definition fetchProfile (s : state) : state :=
  let s := setLoading true s in
  let s := setError PNull s in
  if no_token (authToken s)
  then fetchProfile_catch
         (mkError None (PStr (js "No authentication token found"))) s
  else setAwaiting (Some AwaitUser) s.

(** [/users/me] answered with [resUser.data.user]. *)
Definition fetchProfile_user (currentUser : option ProfileUser) (s : state)
  : state :=
  match awaiting s with
  | Some AwaitUser =>
      if negb (isMounted s) then fetchProfile_finally (setAwaiting None s)
      else
        match currentUser with
        | None =>
            fetchProfile_catch
              (mkError None (PStr (js "User data not found"))) s
        | Some u => setAwaiting (Some AwaitPosts) (setUser (Some u) s)
        end
  | _ => s
  end.

(** [/posts?userId=] answered with [resPosts.data.posts]. *)
Definition fetchProfile_posts (res_posts : option (list Post)) (s : state)
  : state :=
  match awaiting s with
  | Some AwaitPosts =>
      let s := setAwaiting None s in
      if negb (isMounted s) then fetchProfile_finally s
      else
        let userPosts := posts_or_empty res_posts in
        fetchProfile_finally (setPosts (fun _ => userPosts) s)
  | _ => s
  end.

(** Either request failed. *)
Definition fetchProfile_rejected (err : http_error) (s : state) : state :=
  match awaiting s with
  | Some _ => fetchProfile_catch err s
  | None => s
  end.

(** *** Socket listeners

    They are registered once [user] is set and close over it; nothing
    catches what they throw. *)

(** [d.user?.uid] *)
Definition get_user_uid (d : payload) : outcome prim :=
  match d with
  | Prim PUndefined | Prim PNull => TypeError
  | Prim _ => Done PUndefined
  | Obj o => Done (user_uid o)
  end.

Definition handlePostCreated (u : ProfileUser) (post : payload) (s : state)
  : outcome state :=
  match get_user_uid post with
  | TypeError => TypeError
  | Done w =>
      if strict_eq w (PStr (p_uid u))
      then
        match post with
        | Obj o => Done (setPosts (Reconcile.created o) s)
        | Prim _ => Done s
        end
      else Done s
  end.

Definition handlePostUpdated (u : ProfileUser) (updatedPost : payload)
  (s : state) : outcome state :=
  match get_user_uid updatedPost with
  | TypeError => TypeError
  | Done w =>
      if strict_eq w (PStr (p_uid u))
      then
        match updatedPost with
        | Obj o => Done (setPosts (Reconcile.updated o) s)
        | Prim _ => Done s
        end
      else Done s
  end.

(** The parameter is the pattern [{ _id }]. *)
Definition handlePostDeleted (data : payload) (s : state) : outcome state :=
  match get_id data with
  | TypeError => TypeError
  | Done i => Done (setPosts (Reconcile.deleted (Prim i)) s)
  end.

End Profile.

(** ** Push events *)

Inductive push : Type :=
| PostCreated (d : payload)
| PostUpdated (d : payload)
| PostDeleted (d : payload).

(** The feed screen's listener for an event. *)
Definition feed_listener (e : push) (s : Dashboard.state)
  : outcome Dashboard.state :=
  match e with
  | PostCreated d => Dashboard.handlePostCreated d s
  | PostUpdated d => Dashboard.handlePostUpdated d s
  | PostDeleted d => Dashboard.handlePostDeleted d s
  end.

(** The profile screen's listener for an event. *)
Definition profile_listener (u : Profile.ProfileUser) (e : push)
  (s : Profile.state) : outcome Profile.state :=
  match e with
  | PostCreated d => Profile.handlePostCreated u d s
  | PostUpdated d => Profile.handlePostUpdated u d s
  | PostDeleted d => Profile.handlePostDeleted d s
  end.

(** Delivery of events in order to the feed screen. *)
Fixpoint feed_deliver (es : list push) (s : Dashboard.state) : Dashboard.state :=
  match es with
  | [] => s
  | e :: es' => feed_deliver es' (Dashboard.guarded (feed_listener e s) s)
  end.

(** Delivery in order to the profile screen; an exception that escapes a
    listener leaves the state as it was. *)
Fixpoint profile_deliver (u : Profile.ProfileUser) (es : list push)
  (s : Profile.state) : Profile.state :=
  match es with
  | [] => s
  | e :: es' =>
      profile_deliver u es'
        (match profile_listener u e s with Done s' => s' | TypeError => s end)
  end.

(** ** The post card *)

Module PostCard.

(** WhiteSpace and LineTerminator code units, the ones [trim] strips. *)
Definition is_space (c : N) : bool :=
  ((c =? 9) || (c =? 10) || (c =? 11) || (c =? 12) || (c =? 13) || (c =? 32)
   || (c =? 160) || (c =? 5760) || ((8192 <=? c) && (c <=? 8202))
   || (c =? 8232) || (c =? 8233) || (c =? 8239) || (c =? 8287)
   || (c =? 12288) || (c =? 65279))%N.

Fixpoint trimStart (s : jsstr) : jsstr :=
  match s with
  | [] => []
  | c :: s' => if is_space c then trimStart s' else s
  end.

Definition trimEnd (s : jsstr) : jsstr := rev (trimStart (rev s)).

Definition trim (s : jsstr) : jsstr := trimEnd (trimStart s).

(** What the card does to the outside, latest first. *)
Inductive effect : Type :=
| Alert (msg : prim)
| Put (id : prim) (userId : prim) (body_content : jsstr) (bearer : jsstr)
| OnPostUpdated (data : payload).

(** The [post] prop, the component state, [auth.currentUser] (its [uid],
    [None] when nobody is signed in), the stored token and the effects so
    far. *)
Record state : Type := mkState {
  post : Post;
  isEditing : bool;
  editContent : jsstr;
  isSaving : bool;
  currentUser : option prim;
  authToken : option jsstr;
  awaitingPut : bool;
  effects : list effect
}.

Definition setIsEditing (b : bool) (s : state) : state :=
  mkState (post s) b (editContent s) (isSaving s) (currentUser s)
    (authToken s) (awaitingPut s) (effects s).
Definition setEditContent (c : jsstr) (s : state) : state :=
  mkState (post s) (isEditing s) c (isSaving s) (currentUser s)
    (authToken s) (awaitingPut s) (effects s).
Definition setIsSaving (b : bool) (s : state) : state :=
  mkState (post s) (isEditing s) (editContent s) b (currentUser s)
    (authToken s) (awaitingPut s) (effects s).
(** Whether the PUT of [handleEdit] is awaited. *)
Definition setAwaited (b : bool) (s : state) : state :=
  mkState (post s) (isEditing s) (editContent s) (isSaving s) (currentUser s)
    (authToken s) b (effects s).
Definition emit (e : effect) (s : state) : state :=
  mkState (post s) (isEditing s) (editContent s) (isSaving s) (currentUser s)
    (authToken s) (awaitingPut s) (e :: effects s).

(** [post.content || ""] *)
Definition content_or_empty (p : Post) : jsstr :=
  match content p with
  | Some c => c
  | None => []
  end.

(** [x === post.content] for a string [x]. *)
Definition is_content (x : jsstr) (p : Post) : bool :=
  match content p with
  | Some c => jsstr_eqb x c
  | None => false
  end.

Definition is_empty_str (x : jsstr) : bool :=
  match x with [] => true | _ => false end.

(** The [catch] and [finally] of [handleEdit]. *)
Definition handleEdit_catch (err : http_error) (s : state) : state :=
  let errorMessage :=
    or_else (or_else (error_data_message err) (message err))
            (PStr (js "Failed to update post")) in
  setIsSaving false (emit (Alert errorMessage) s).

(** [handleEdit] up to its [await]. *)
Definition handleEdit (s : state) : state :=
  let trimmedContent := trim (editContent s) in
  if is_empty_str trimmedContent || is_content trimmedContent (post s)
  then setEditContent (content_or_empty (post s)) (setIsEditing false s)
  else if (5000 <? Z.of_nat (List.length trimmedContent))%Z
  then emit (Alert (PStr (js "Post content is too long (max 5000 characters)"))) s
  else
    let s := setIsSaving true s in
    match authToken s with
    | Some ((_ :: _) as token) =>
        match currentUser s with
        | None =>
            handleEdit_catch
              (mkError None
                 (PStr (js "Cannot read properties of null (reading 'uid')"))) s
        | Some u =>
            setAwaited true (emit (Put (_id (post s)) u trimmedContent token) s)
        end
    | _ =>
        handleEdit_catch
          (mkError None (PStr (js "Authentication required"))) s
    end.


Definition handleEdit_rejected (err : http_error) (s : state) : state :=
  if awaitingPut s then handleEdit_catch err (setAwaited false s) else s.

(** The [disabled] attribute of the Save button. *)
Definition save_disabled (s : state) : bool :=
  isSaving s || is_empty_str (trim (editContent s))
  || is_content (editContent s) (post s).

Definition save_click (s : state) : state :=
  if save_disabled s then s else handleEdit s.

Definition is_put (e : effect) : bool :=
  match e with Put _ _ _ _ => true | _ => false end.

(** The PUT requests among the effects. *)
Definition puts (s : state) : list effect := filter is_put (effects s).

(** The calls of [onPostUpdated] among the effects. *)
Definition is_update (e : effect) : bool :=
  match e with OnPostUpdated _ => true | _ => false end.

Definition updates (s : state) : list effect := filter is_update (effects s).

End PostCard.

(** ** Notions the properties are stated with *)

(** How many entries of a list carry the identifier [i]. *)
Definition occurrences (i : prim) (l : list Post) : nat :=
  List.length (filter (fun p => strict_eq (_id p) i) l).

(** A payload that is [null] or [undefined], or an object without [_id]. *)
Definition malformed (d : payload) : bool :=
  match d with
  | Prim PUndefined | Prim PNull => true
  | Prim _ => false
  | Obj o => strict_eq (_id o) PUndefined
  end.

Definition push_payload (e : push) : payload :=
  match e with
  | PostCreated d | PostUpdated d | PostDeleted d => d
  end.

(** What can reach a mounted feed screen between two responses: a push
    event or a report of the visibility observer. *)
Inductive input : Type :=
| Push (e : push)
| Visibility (isIntersecting : bool).

Definition feed_step (i : input) (s : Dashboard.state) : Dashboard.state :=
  match i with
  | Push e => Dashboard.guarded (feed_listener e s) s
  | Visibility b => Dashboard.intersect b s
  end.

Fixpoint feed_run (ins : list input) (s : Dashboard.state) : Dashboard.state :=
  match ins with
  | [] => s
  | i :: ins' => feed_run ins' (feed_step i s)
  end.

(** ** The callbacks the screens hand to their post cards *)

(** [handlePostUpdated] and [handlePostDeleted] of Dashboard.jsx, the ones
    outside the socket effect.  The first gets [res.data] of the PUT,
    [None] when that is [null] or [undefined]; nothing checks it.  The call
    only queues the updater and returns; the updater runs when React
    renders.  For [None] it reads [_id] of nothing at the first entry of
    the list: the render throws, no error boundary is there, and
    React takes the whole tree down, which runs the cleanups of the
    screen. *)
Module DashboardCard.

Definition handlePostUpdated (updatedPost : option Post) (s : Dashboard.state)
  : Dashboard.state :=
  match updatedPost with
  | Some o => Dashboard.setPosts (Reconcile.updated o) s
  | None =>
      match Dashboard.posts s with
      | [] => s
      | _ :: _ => Dashboard.unmount s
      end
  end.

Definition handlePostDeleted (postId : prim) (s : Dashboard.state)
  : Dashboard.state :=
  Dashboard.setPosts (Reconcile.deleted (Prim postId)) s.

End DashboardCard.

(** The same two callbacks of Profile.jsx. *)
Module ProfileCard.

(** The cleanup of [fetchProfile]'s effect: [isMounted = false]. *)
Definition unmount (s : Profile.state) : Profile.state :=
  Profile.mkState (Profile.user s) (Profile.posts s) (Profile.loading s)
    (Profile.error s) false (Profile.awaiting s) (Profile.authToken s)
    (Profile.timers s).

Definition handlePostUpdated (updated : option Post) (s : Profile.state)
  : Profile.state :=
  match updated with
  | Some o => Profile.setPosts (Reconcile.updated o) s
  | None =>
      match Profile.posts s with
      | [] => s
      | _ :: _ => unmount s
      end
  end.

Definition handlePostDeleted (id : prim) (s : Profile.state) : Profile.state :=
  Profile.setPosts (Reconcile.deleted (Prim id)) s.

End ProfileCard.

(** ** The feed screen from mount to unmount *)

Module Feed.

(** Everything that can happen to the screen once it is mounted. *)
Inductive event : Type :=
| Socket (e : push)
| Observer (isIntersecting : bool)
| Response (res_posts : option (list Post))
| Failure (err : http_error)
| RetryClick
| RetryTimer
| CardUpdated (data : option Post)
| CardDeleted (postId : prim)
| Unmount.

Definition is_retry (t : Z * task) : bool :=
  match snd t with RetryFetch => true | RedirectLogin => false end.

(** Takes the first retry timer out of a list. *)
Fixpoint take_retry (l : list (Z * task)) : option (list (Z * task)) :=
  match l with
  | [] => None
  | t :: l' =>
      if is_retry t then Some l'
      else option_map (cons t) (take_retry l')
  end.

(** Takes out the retry timer that was set first; [timers] has the latest
    in front. *)
Definition take_oldest_retry (l : list (Z * task)) : option (list (Z * task)) :=
  option_map (@rev (Z * task)) (take_retry (rev l)).

Definition setTimers (l : list (Z * task)) (s : Dashboard.state)
  : Dashboard.state :=
  Dashboard.mkState (Dashboard.posts s) (Dashboard.page s) (Dashboard.loading s)
    (Dashboard.hasMore s) (Dashboard.initialLoad s) (Dashboard.error s)
    (Dashboard.retryCount s) (Dashboard.fetchingRef s)
    (Dashboard.isMountedRef s) (Dashboard.inflight s) (Dashboard.authToken s)
    l (Dashboard.requests s).

(** [fetchPosts] called for a component that is gone: the state setters do
    nothing, the ref and the request are real. *)
Definition fetchPosts_detached (pageNum : Z) (shouldAppend : bool)
  (s : Dashboard.state) : Dashboard.state :=
  if Dashboard.fetchingRef s then s
  else
    let s := Dashboard.setFetchingRef true s in
    let s :=
      Dashboard.send (Dashboard.mkRequest pageNum 10 (Dashboard.authToken s)) s in
    Dashboard.setInflight (Some (pageNum, shouldAppend)) s.

(** The two Retry buttons exist when [error] is set and are disabled
    while [loading]. *)
Definition retry_clickable (s : Dashboard.state) : bool :=
  Dashboard.isMountedRef s && truthy (Dashboard.error s)
  && negb (Dashboard.loading s).

Definition step (e : event) (s : Dashboard.state) : Dashboard.state :=
  match e with
  | Socket p =>
      if Dashboard.isMountedRef s
      then Dashboard.guarded (feed_listener p s) s
      else s
  | Observer b => Dashboard.intersect b s
  | Response r => Dashboard.fetchPosts_resolved r s
  | Failure err => Dashboard.fetchPosts_rejected err s
  | RetryClick => if retry_clickable s then Dashboard.handleRetry s else s
  | RetryTimer =>
      match take_oldest_retry (Dashboard.timers s) with
      | None => s
      | Some l =>
          let s := setTimers l s in
          if Dashboard.isMountedRef s
          then Dashboard.retry_fire s
          else fetchPosts_detached 1 false s
      end
  | CardUpdated d =>
      if Dashboard.isMountedRef s
      then DashboardCard.handlePostUpdated d s
      else s
  | CardDeleted i =>
      if Dashboard.isMountedRef s
      then DashboardCard.handlePostDeleted i s
      else s
  | Unmount => Dashboard.unmount s
  end.

Fixpoint run (es : list event) (s : Dashboard.state) : Dashboard.state :=
  match es with
  | [] => s
  | e :: es' => run es' (step e s)
  end.

(** The screen right after mounting: the effect that asks for page 1 has
    run. *)
Definition mounted (token : option jsstr) : Dashboard.state :=
  Dashboard.fetchPosts 1 false (Dashboard.init token).

(** What holds in every state the screen gets into. *)
Definition consistent (s : Dashboard.state) : Prop :=
  (Dashboard.inflight s <> None -> Dashboard.fetchingRef s = true)
  /\ (1 <= Dashboard.page s)%Z
  /\ (0 <= Dashboard.retryCount s)%Z
  /\ (Dashboard.isMountedRef s = true ->
      Dashboard.loading s = Dashboard.fetchingRef s
      /\ (Dashboard.fetchingRef s = true -> Dashboard.inflight s <> None)
      /\ (truthy (Dashboard.error s) = true ->
          Dashboard.loading s = false /\ Dashboard.hasMore s = false)).

End Feed.

(** ** Deleting from the post card *)

(** The owner menu and [handleDelete] of PostCard.jsx. *)
Module CardMenu.

Inductive effect : Type :=
| Alert (msg : prim)
| Delete (id : prim) (userId : prim) (bearer : jsstr)
| OnPostDeleted (id : prim).

Record state : Type := mkState {
  post : Post;
  isDeleting : bool;
  showMenu : bool;
  currentUser : option prim;
  authToken : option jsstr;
  awaitingDelete : bool;
  effects : list effect
}.

Definition setIsDeleting (b : bool) (s : state) : state :=
  mkState (post s) b (showMenu s) (currentUser s) (authToken s)
    (awaitingDelete s) (effects s).
Definition setAwaited (b : bool) (s : state) : state :=
  mkState (post s) (isDeleting s) (showMenu s) (currentUser s) (authToken s)
    b (effects s).
Definition emit (e : effect) (s : state) : state :=
  mkState (post s) (isDeleting s) (showMenu s) (currentUser s) (authToken s)
    (awaitingDelete s) (e :: effects s).

(** [currentUser?.uid] *)
Definition currentUser_uid (s : state) : prim :=
  match currentUser s with
  | Some u => u
  | None => PUndefined
  end.

(** [currentUser?.uid === post.user?.uid] *)
Definition isOwner (s : state) : bool :=
  strict_eq (currentUser_uid s) (user_uid (post s)).

(** The menu button is rendered for [isOwner && !isDeleting]; the Delete
    entry is inside the open menu. *)
Definition delete_offered (s : state) : bool :=
  isOwner s && negb (isDeleting s) && showMenu s.

Definition handleDelete_catch (err : http_error) (s : state) : state :=
  let errorMessage :=
    or_else (or_else (error_data_message err) (message err))
            (PStr (js "Failed to delete post")) in
  setIsDeleting false (emit (Alert errorMessage) s).

(** [handleDelete] up to its [await]; [confirmed] is what
    [window.confirm] answers. *)
Definition handleDelete (confirmed : bool) (s : state) : state :=
  if negb confirmed then s
  else
    let s := setIsDeleting true s in
    match authToken s with
    | Some ((_ :: _) as token) =>
        match currentUser s with
        | None =>
            handleDelete_catch
              (mkError None
                 (PStr (js "Cannot read properties of null (reading 'uid')"))) s
        | Some u => setAwaited true (emit (Delete (_id (post s)) u token) s)
        end
    | _ =>
        handleDelete_catch
          (mkError None (PStr (js "Authentication required"))) s
    end.

(** The DELETE answered; the card is always given [onPostDeleted]. *)
Definition handleDelete_resolved (s : state) : state :=
  if awaitingDelete s
  then emit (OnPostDeleted (_id (post s))) (setAwaited false s)
  else s.

Definition handleDelete_rejected (err : http_error) (s : state) : state :=
  if awaitingDelete s then handleDelete_catch err (setAwaited false s) else s.

Definition delete_click (confirmed : bool) (s : state) : state :=
  if delete_offered s then handleDelete confirmed s else s.

Definition is_delete (e : effect) : bool :=
  match e with Delete _ _ _ => true | _ => false end.

Definition deletes (s : state) : list effect := filter is_delete (effects s).

Definition is_callback (e : effect) : bool :=
  match e with OnPostDeleted _ => true | _ => false end.

Definition callbacks (s : state) : list effect := filter is_callback (effects s).

End CardMenu.

(** ** The post form *)

Module PostForm.

(** A chosen file; only its MIME type is read. *)
Record File : Type := mkFile {
  file_type : jsstr
}.

Inductive resource : Type :=
| Image
| Video.

(** [s.startsWith(prefix)] *)
Fixpoint startsWith (s prefix : jsstr) : bool :=
  match prefix with
  | [] => true
  | c :: prefix' =>
      match s with
      | [] => false
      | d :: s' => N.eqb d c && startsWith s' prefix'
      end
  end.

(** [file.type.startsWith("video/") ? "video" : "image"] *)
Definition resourceType (f : File) : resource :=
  if startsWith (file_type f) (js "video/") then Video else Image.

Definition resource_name (r : resource) : jsstr :=
  match r with
  | Image => js "image"
  | Video => js "video"
  end.

(** What [uploadFile] returns when it does not return [null]. *)
Record media : Type := mkMedia {
  media_url : prim;
  media_type : resource
}.

(** The body of the POST. *)
Record postData : Type := mkPostData {
  userId : prim;
  pd_content : jsstr;
  mediaType : jsstr;
  imageUrl : prim;
  videoUrl : prim
}.

Inductive effect : Type :=
| Alert (msg : jsstr)
| Upload (r : resource) (f : File)
| PostRequest (body : postData) (token : option jsstr)
| OnPostCreated.

(** The form state, [auth.currentUser] (its [uid]), the stored token,
    whether the parent passed [onPostCreated], and the effects, latest
    first. *)
Record state : Type := mkState {
  content : jsstr;
  file : option File;
  preview : jsstr;
  uploading : bool;
  currentUser : option prim;
  authToken : option jsstr;
  onPostCreated : bool;
  effects : list effect
}.

Definition setContent (c : jsstr) (s : state) : state :=
  mkState c (file s) (preview s) (uploading s) (currentUser s) (authToken s)
    (onPostCreated s) (effects s).
Definition setFile (f : option File) (s : state) : state :=
  mkState (content s) f (preview s) (uploading s) (currentUser s)
    (authToken s) (onPostCreated s) (effects s).
Definition setPreview (p : jsstr) (s : state) : state :=
  mkState (content s) (file s) p (uploading s) (currentUser s) (authToken s)
    (onPostCreated s) (effects s).
Definition setUploading (b : bool) (s : state) : state :=
  mkState (content s) (file s) (preview s) b (currentUser s) (authToken s)
    (onPostCreated s) (effects s).
Definition emit (e : effect) (s : state) : state :=
  mkState (content s) (file s) (preview s) (uploading s) (currentUser s)
    (authToken s) (onPostCreated s) (e :: effects s).

Definition blank (c : jsstr) : bool :=
  match PostCard.trim c with [] => true | _ => false end.

(** [handleSubmit] from the check of the input to the [await] of the
    POST; [uploadedMedia] is what the upload gave, [None] for [null]. *)
Definition submit (uploadedMedia : option media) (s : state) : state :=
  match uploadedMedia, blank (content s) with
  | None, true => emit (Alert (js "Please add text or upload media")) s
  | _, _ =>
      match currentUser s with
      | None => emit (Alert (js "Please log in first.")) s
      | Some u =>
          let postData :=
            mkPostData u (PostCard.trim (content s))
              (match uploadedMedia with
               | Some m => resource_name (media_type m)
               | None => js "text"
               end)
              (match uploadedMedia with
               | Some (mkMedia url Image) => url
               | _ => PNull
               end)
              (match uploadedMedia with
               | Some (mkMedia url Video) => url
               | _ => PNull
               end) in
          emit (PostRequest postData (authToken s)) s
      end
  end.

(** [handleSubmit] up to its first [await]: the upload when a file is
    chosen, the POST otherwise. *)
Definition handleSubmit (s : state) : state :=
  match file s with
  | Some f => emit (Upload (resourceType f) f) (setUploading true s)
  | None => submit None s
  end.

(** The upload answered with [data.secure_url], and [handleSubmit] goes
    on. *)
Definition upload_resolved (f : File) (secure_url : prim) (s : state) : state :=
  submit (Some (mkMedia secure_url (resourceType f))) (setUploading false s).

(** The upload failed, and [handleSubmit] goes on with [null]. *)
Definition upload_rejected (s : state) : state :=
  submit None
    (setUploading false (emit (Alert (js "Upload failed. Please try again.")) s)).

(** The POST answered. *)
Definition post_resolved (s : state) : state :=
  let s := setPreview [] (setFile None (setContent [] s)) in
  if onPostCreated s then emit OnPostCreated s else s.

Definition post_rejected (s : state) : state :=
  emit (Alert (js "Failed to create post. Please try again.")) s.

(** The [disabled] attribute of the submit button. *)
Definition submit_disabled (s : state) : bool :=
  uploading s
  || (blank (content s) && match file s with None => true | Some _ => false end).

Definition submit_click (s : state) : state :=
  if submit_disabled s then s else handleSubmit s.

Definition is_post (e : effect) : bool :=
  match e with PostRequest _ _ => true | _ => false end.

Definition posts_sent (s : state) : list effect := filter is_post (effects s).

End PostForm.

(** ** Where the servers are *)

(** The three places that read [import.meta.env.VITE_API_URL]; the
    variable is a string or absent. *)
Module Env.

Definition fallback : jsstr := js "https://demo-server-0dwf.onrender.com".

(** [`${v}`] *)
Definition interpolate (v : option jsstr) : jsstr :=
  match v with
  | Some s => s
  | None => js "undefined"
  end.

Definition as_prim (v : option jsstr) : prim :=
  match v with
  | Some s => PStr s
  | None => PUndefined
  end.

(** [baseURL] of the axios instance:
    [`${VITE_API_URL}/api` || "https://demo-server-0dwf.onrender.com/api"] *)
Definition axios_baseURL (VITE_API_URL : option jsstr) : prim :=
  or_else (PStr (interpolate VITE_API_URL ++ js "/api"))
          (PStr (fallback ++ js "/api")).

(** The address [initializeSocket] of Dashboard.jsx connects to. *)
Definition dashboard_socket (VITE_API_URL : option jsstr) : prim :=
  or_else (as_prim VITE_API_URL) (PStr fallback).

(** The address [initializeSocket] of Profile.jsx connects to, [None]
    when it returns [null]. *)
Definition profile_socket (VITE_API_URL : option jsstr) : option prim :=
  if truthy (as_prim VITE_API_URL) then Some (as_prim VITE_API_URL) else None.

End Env.

(** ** What the profile screen renders *)

Module ProfileView.

Inductive view : Type :=
| Loading
| ErrorView (msg : prim)
| NoUser
| Main (u : Profile.ProfileUser) (shown : list Post).

Definition render (s : Profile.state) : view :=
  if Profile.loading s then Loading
  else if truthy (Profile.error s) then ErrorView (Profile.error s)
  else
    match Profile.user s with
    | None => NoUser
    | Some u => Main u (Profile.posts s)
    end.

(** The socket effect registers the listeners once [user] is set, and
    only when [initializeSocket] gives a socket. *)
Definition listening (VITE_API_URL : option jsstr) (s : Profile.state) : bool :=
  match Profile.user s, Env.profile_socket VITE_API_URL with
  | Some _, Some _ => Profile.isMounted s
  | _, _ => false
  end.

End ProfileView.

(** ** Sample states *)

(** Sample data: the posts of the spec's scenario, written by [u1], and a
    post of somebody else. *)
Definition post_of (i author text : string) : Post :=
  mkPost (PStr (js i))
         (Some (mkUser (PStr (js author)) PUndefined PUndefined))
         (Some (js text)).

Definition postA : Post := post_of "A" "u1" "a".
Definition postB : Post := post_of "B" "u1" "b".
Definition postC : Post := post_of "C" "u1" "c".
Definition postD : Post := post_of "D" "u1" "d".
Definition postA' : Post := post_of "A" "u1" "a, edited".
Definition postX : Post := post_of "X" "u2" "x".

Definition user1 : Profile.ProfileUser :=
  Profile.mkProfileUser (js "u1") PUndefined PUndefined PUndefined.

(** A first page of ten posts. *)
Definition page1 : list Post :=
  [ post_of "P0" "u1" "p0"; post_of "P1" "u1" "p1"; post_of "P2" "u1" "p2";
    post_of "P3" "u1" "p3"; post_of "P4" "u2" "p4"; post_of "P5" "u1" "p5";
    post_of "P6" "u2" "p6"; post_of "P7" "u1" "p7"; post_of "P8" "u1" "p8";
    post_of "P9" "u1" "p9" ].

Definition postP3 : Post := post_of "P3" "u1" "p3".

(** The feed screen after it has mounted and loaded [l] as its first page. *)
Definition feed_with (l : list Post) : Dashboard.state :=
  Dashboard.fetchPosts_resolved (Some l)
    (Dashboard.fetchPosts 1 false (Dashboard.init (Some (js "token")))).

(** The feed screen that shows [l] and has asked for page 2 because the
    last post came into view. *)
Definition feed_awaiting_page2 (l : list Post) : Dashboard.state :=
  Dashboard.intersect true (feed_with l).

(** The profile screen of [user1] after it has loaded [l]. *)
Definition profile_with (l : list Post) : Profile.state :=
  Profile.fetchProfile_posts (Some l)
    (Profile.fetchProfile_user (Some user1)
       (Profile.fetchProfile (Profile.init (Some (js "token"))))).

(** A post object by [u1] that lacks [_id]. *)
Definition post_without_id : Post :=
  mkPost PUndefined (Some (mkUser (PStr (js "u1")) PUndefined PUndefined))
         (Some (js "no id")).

(** A card whose signed-in owner has typed ["  hello  "] over ["old"]. *)
Definition editing_card : PostCard.state :=
  PostCard.mkState (post_of "A" "u1" "old") true (js "  hello  ") false
    (Some (PStr (js "u1"))) (Some (js "token")) false [].

(** The same card with only blanks typed, and with 5001 letters typed. *)
Definition blank_card : PostCard.state :=
  PostCard.setEditContent (js "   ") editing_card.

Definition long_card : PostCard.state :=
  PostCard.setEditContent (repeat 97%N (Z.to_nat 5001)) editing_card.

(** ** Strict equality and lists of posts *)

Lemma strict_eq_true_iff : forall a b, strict_eq a b = true <-> a = b.
Proof.
  intros a b; destruct a, b; simpl; split; intros H;
    try discriminate; try reflexivity.
  - apply Bool.eqb_prop in H; congruence.
  - inversion H; apply Bool.eqb_reflx.
  - apply Z.eqb_eq in H; congruence.
  - inversion H; apply Z.eqb_refl.
  - unfold jsstr_eqb in H; destruct (list_eq_dec N.eq_dec s s0);
      [congruence | discriminate].
  - inversion H; unfold jsstr_eqb;
      destruct (list_eq_dec N.eq_dec s0 s0); [reflexivity | congruence].
Qed.

Section Lists.

Implicit Types (l prev : list Post) (o p : Post) (i : prim).

Lemma strict_eq_refl : forall i, strict_eq i i = true.
Proof. intros i; apply strict_eq_true_iff; reflexivity. Qed.

Lemma strict_eq_false_iff : forall a b, strict_eq a b = false <-> a <> b.
Proof.
  intros a b; destruct (strict_eq a b) eqn:E.
  - apply strict_eq_true_iff in E; split; [discriminate | congruence].
  - split; [|reflexivity]; intros _ H; apply strict_eq_true_iff in H; congruence.
Qed.

Lemma some_id_iff : forall i prev,
  existsb (fun p => strict_eq (_id p) i) prev = true <-> In i (ids prev).
Proof.
  intros i prev; unfold ids; rewrite existsb_exists, in_map_iff; split.
  - intros [p [Hp E]]; apply strict_eq_true_iff in E; eauto.
  - intros [p [E Hp]]; exists p; split; [assumption|].
    apply strict_eq_true_iff; assumption.
Qed.

Lemma has_id_iff : forall i (xs : list prim),
  existsb (strict_eq i) xs = true <-> In i xs.
Proof.
  intros i xs; rewrite existsb_exists; split.
  - intros [x [Hx E]]; apply strict_eq_true_iff in E; congruence.
  - intros H; exists i; split; [assumption | apply strict_eq_refl].
Qed.

Lemma created_present : forall o prev,
  In (_id o) (ids prev) -> Reconcile.created o prev = prev.
Proof.
  intros o prev H; unfold Reconcile.created.
  apply some_id_iff in H; rewrite H; reflexivity.
Qed.

Lemma created_absent : forall o prev,
  ~ In (_id o) (ids prev) -> Reconcile.created o prev = o :: prev.
Proof.
  intros o prev H; unfold Reconcile.created.
  destruct (existsb _ prev) eqn:E; [|reflexivity].
  apply some_id_iff in E; contradiction.
Qed.

Lemma created_NoDup : forall o prev,
  NoDup (ids prev) -> NoDup (ids (Reconcile.created o prev)).
Proof.
  intros o prev H; unfold Reconcile.created.
  destruct (existsb _ prev) eqn:E; [assumption|].
  simpl; constructor; [|assumption].
  intros Hin; apply some_id_iff in Hin; congruence.
Qed.

Lemma created_keeps : forall o prev i,
  In i (ids prev) -> In i (ids (Reconcile.created o prev)).
Proof.
  intros o prev i H; unfold Reconcile.created.
  destruct (existsb _ prev); [assumption | right; assumption].
Qed.

Lemma created_has : forall o prev, In (_id o) (ids (Reconcile.created o prev)).
Proof.
  intros o prev; unfold Reconcile.created.
  destruct (existsb _ prev) eqn:E.
  - apply some_id_iff; assumption.
  - left; reflexivity.
Qed.

Lemma updated_ids : forall o prev, ids (Reconcile.updated o prev) = ids prev.
Proof.
  intros o prev; unfold Reconcile.updated, ids; rewrite map_map.
  apply map_ext; intros p.
  destruct (strict_eq (_id p) (_id o)) eqn:E; [|reflexivity].
  apply strict_eq_true_iff in E; congruence.
Qed.

Lemma updated_absent : forall o prev,
  ~ In (_id o) (ids prev) -> Reconcile.updated o prev = prev.
Proof.
  intros o prev; unfold Reconcile.updated; induction prev as [|p prev IH];
    intros H; simpl; [reflexivity|].
  destruct (strict_eq (_id p) (_id o)) eqn:E.
  - apply strict_eq_true_iff in E; exfalso; apply H; left; assumption.
  - f_equal; apply IH; intros Hin; apply H; right; assumption.
Qed.

Lemma filter_ids_NoDup : forall (f : Post -> bool) l,
  NoDup (ids l) -> NoDup (ids (filter f l)).
Proof.
  intros f l; induction l as [|p l IH]; simpl; intros H; [constructor|].
  inversion H as [|? ? Hn Hl]; subst.
  destruct (f p); simpl; [constructor|]; auto.
  intros Hin; apply Hn; unfold ids in *; apply in_map_iff in Hin.
  destruct Hin as [q [E Hq]]; apply filter_In in Hq.
  apply in_map_iff; exists q; tauto.
Qed.

Lemma deleted_NoDup : forall x prev,
  NoDup (ids prev) -> NoDup (ids (Reconcile.deleted x prev)).
Proof. intros x prev; apply filter_ids_NoDup. Qed.

Lemma occurrences_zero : forall i l, ~ In i (ids l) -> occurrences i l = 0.
Proof.
  intros i l; unfold occurrences; induction l as [|p l IH]; simpl; intros H;
    [reflexivity|].
  destruct (strict_eq (_id p) i) eqn:E.
  - apply strict_eq_true_iff in E; exfalso; apply H; left; assumption.
  - apply IH; intros Hin; apply H; right; assumption.
Qed.

Lemma occurrences_one : forall i l,
  NoDup (ids l) -> In i (ids l) -> occurrences i l = 1.
Proof.
  intros i l; unfold occurrences; induction l as [|p l IH]; simpl;
    intros Hnd Hin; [contradiction|].
  inversion Hnd as [|? ? Hn Hl]; subst.
  destruct (strict_eq (_id p) i) eqn:E.
  - apply strict_eq_true_iff in E; subst i; simpl; f_equal.
    apply (@occurrences_zero (_id p) l Hn).
  - apply strict_eq_false_iff in E; destruct Hin as [H|H]; [congruence|].
    apply IH; assumption.
Qed.

Lemma occurrences_app : forall i l l',
  occurrences i (l ++ l') = occurrences i l + occurrences i l'.
Proof.
  intros i l l'; unfold occurrences; rewrite filter_app, length_app; reflexivity.
Qed.

End Lists.

(** ** Push [created] *)

Section Created.

Variable u : Profile.ProfileUser.

Lemma feed_setPosts_same : forall f s,
  f (Dashboard.posts s) = Dashboard.posts s -> Dashboard.setPosts f s = s.
Proof.
  intros f [] H; unfold Dashboard.setPosts; simpl in *; rewrite H; reflexivity.
Qed.

Lemma profile_setPosts_same : forall f t,
  f (Profile.posts t) = Profile.posts t -> Profile.setPosts f t = t.
Proof.
  intros f [] H; unfold Profile.setPosts; simpl in *; rewrite H; reflexivity.
Qed.

Lemma feed_created_wf : forall o s,
  truthy (_id o) = true ->
  Dashboard.handlePostCreated (Obj o) s
  = Done (Dashboard.setPosts (Reconcile.created o) s).
Proof.
  intros o s H; unfold Dashboard.handlePostCreated,
    Dashboard.handlePostCreated_body; simpl; rewrite H; reflexivity.
Qed.

(** Whatever the payload, the feed listener keeps the list or applies
    [created] to it. *)
Lemma feed_created_posts : forall d s,
  let s' := Dashboard.guarded (Dashboard.handlePostCreated d s) s in
  Dashboard.posts s' = Dashboard.posts s
  \/ exists o, d = Obj o
       /\ Dashboard.posts s' = Reconcile.created o (Dashboard.posts s).
Proof.
  intros d s; unfold Dashboard.handlePostCreated,
    Dashboard.handlePostCreated_body.
  destruct d as [v|o]; simpl.
  - left; destruct v; simpl; try reflexivity;
      destruct (negb _); reflexivity.
  - destruct (truthy (_id o)); simpl; [right; exists o; auto | left; reflexivity].
Qed.

Lemma profile_created_own : forall o t,
  user_uid o = PStr (Profile.p_uid u) ->
  Profile.handlePostCreated u (Obj o) t
  = Done (Profile.setPosts (Reconcile.created o) t).
Proof.
  intros o t H; unfold Profile.handlePostCreated; simpl.
  rewrite H, strict_eq_refl; reflexivity.
Qed.

Lemma profile_created_other : forall o t,
  user_uid o <> PStr (Profile.p_uid u) ->
  Profile.handlePostCreated u (Obj o) t = Done t.
Proof.
  intros o t H; unfold Profile.handlePostCreated; simpl.
  apply strict_eq_false_iff in H; rewrite H; reflexivity.
Qed.

Lemma profile_created_posts : forall d t,
  let t' := match Profile.handlePostCreated u d t with
            | Done x => x
            | TypeError => t
            end in
  Profile.posts t' = Profile.posts t
  \/ exists o, d = Obj o /\ user_uid o = PStr (Profile.p_uid u)
       /\ Profile.posts t' = Reconcile.created o (Profile.posts t).
Proof.
  intros d t; unfold Profile.handlePostCreated.
  destruct d as [v|o]; simpl.
  - left; destruct v; reflexivity.
  - destruct (strict_eq (user_uid o) (PStr (Profile.p_uid u))) eqn:E;
      [|left; reflexivity].
    apply strict_eq_true_iff in E; right; exists o; auto.
Qed.

Lemma feed_deliver_created : forall d ds s,
  feed_deliver (map PostCreated (d :: ds)) s
  = feed_deliver (map PostCreated ds)
      (Dashboard.guarded (Dashboard.handlePostCreated d s) s).
Proof. reflexivity. Qed.

Lemma profile_deliver_created : forall d ds t,
  profile_deliver u (map PostCreated (d :: ds)) t
  = profile_deliver u (map PostCreated ds)
      (match Profile.handlePostCreated u d t with
       | Done x => x
       | TypeError => t
       end).
Proof. reflexivity. Qed.

Lemma feed_created_seq_NoDup : forall ds s,
  NoDup (ids (Dashboard.posts s)) ->
  NoDup (ids (Dashboard.posts (feed_deliver (map PostCreated ds) s))).
Proof.
  induction ds as [|d ds IH]; intros s H; [assumption|].
  rewrite feed_deliver_created; apply IH.
  destruct (feed_created_posts d s) as [E|[o [_ E]]];
    rewrite E; [assumption | apply created_NoDup; assumption].
Qed.

Lemma feed_created_seq_keeps : forall ds s i,
  In i (ids (Dashboard.posts s)) ->
  In i (ids (Dashboard.posts (feed_deliver (map PostCreated ds) s))).
Proof.
  induction ds as [|d ds IH]; intros s i H; [assumption|].
  rewrite feed_deliver_created; apply IH.
  destruct (feed_created_posts d s) as [E|[o [_ E]]];
    rewrite E; [assumption | apply created_keeps; assumption].
Qed.

Lemma feed_created_seq_has : forall ds s o,
  In (Obj o) ds -> truthy (_id o) = true ->
  In (_id o) (ids (Dashboard.posts (feed_deliver (map PostCreated ds) s))).
Proof.
  induction ds as [|d ds IH]; intros s o Hin Ht; [contradiction|].
  rewrite feed_deliver_created.
  destruct Hin as [->|Hin]; [|apply IH; assumption].
  apply feed_created_seq_keeps.
  rewrite (feed_created_wf o s Ht); simpl; apply created_has.
Qed.

Lemma profile_created_seq_NoDup : forall ds t,
  NoDup (ids (Profile.posts t)) ->
  NoDup (ids (Profile.posts (profile_deliver u (map PostCreated ds) t))).
Proof.
  induction ds as [|d ds IH]; intros t H; [assumption|].
  rewrite profile_deliver_created; apply IH.
  destruct (profile_created_posts d t) as [E|[o [_ [_ E]]]];
    rewrite E; [assumption | apply created_NoDup; assumption].
Qed.

Lemma profile_created_seq_keeps : forall ds t i,
  In i (ids (Profile.posts t)) ->
  In i (ids (Profile.posts (profile_deliver u (map PostCreated ds) t))).
Proof.
  induction ds as [|d ds IH]; intros t i H; [assumption|].
  rewrite profile_deliver_created; apply IH.
  destruct (profile_created_posts d t) as [E|[o [_ [_ E]]]];
    rewrite E; [assumption | apply created_keeps; assumption].
Qed.

Lemma profile_created_seq_has : forall ds t o,
  In (Obj o) ds -> user_uid o = PStr (Profile.p_uid u) ->
  In (_id o) (ids (Profile.posts (profile_deliver u (map PostCreated ds) t))).
Proof.
  induction ds as [|d ds IH]; intros t o Hin Hu; [contradiction|].
  rewrite profile_deliver_created.
  destruct Hin as [->|Hin]; [|apply IH; assumption].
  apply profile_created_seq_keeps.
  rewrite (profile_created_own o t Hu); simpl; apply created_has.
Qed.

End Created.

Lemma feed_setPosts_ext : forall f g s,
  f (Dashboard.posts s) = g (Dashboard.posts s) ->
  Dashboard.setPosts f s = Dashboard.setPosts g s.
Proof. intros f g s H; unfold Dashboard.setPosts; rewrite H; reflexivity. Qed.

Lemma profile_setPosts_ext : forall f g t,
  f (Profile.posts t) = g (Profile.posts t) ->
  Profile.setPosts f t = Profile.setPosts g t.
Proof. intros f g t H; unfold Profile.setPosts; rewrite H; reflexivity. Qed.

(** C1, as stated, fails on the profile screen: a created post whose
    identifier is absent is not prepended when somebody else wrote it. *)
Lemma created_not_prepended_on_profile :
  ~ (forall (u : Profile.ProfileUser) (t : Profile.state) (o : Post),
       ~ In (_id o) (ids (Profile.posts t)) ->
       Profile.handlePostCreated u (Obj o) t
       = Done (Profile.setPosts (cons o) t)).
Proof.
  intros H.
  specialize (H user1 (profile_with [postA]) postX).
  assert (Hn : ~ In (_id postX) (ids (Profile.posts (profile_with [postA])))).
  { simpl; intros [E|[]]; vm_compute in E; discriminate. }
  specialize (H Hn); vm_compute in H; discriminate.
Qed.

(** C1 (amended).  A [created] event for a post whose identifier is already
    in the list leaves the list unchanged, on the feed and on the profile
    screen.  When the identifier is absent, the feed screen prepends the
    post if it carries an identifier, and the profile screen prepends it
    if its author is the profile's user and leaves the list unchanged
    otherwise.  Starting from a list with distinct identifiers, any sequence
    of [created] events, with any repetition, ends in a list with distinct
    identifiers in which every pushed identifier occurs exactly once on the
    feed screen, and every pushed post of the profile's user occurs exactly
    once on the profile screen. *)
Theorem created_dedups_and_prepends :
  forall (u : Profile.ProfileUser) (s : Dashboard.state) (t : Profile.state)
         (o : Post) (ds : list payload),
    (In (_id o) (ids (Dashboard.posts s)) ->
     Dashboard.handlePostCreated (Obj o) s = Done s)
    /\ (~ In (_id o) (ids (Dashboard.posts s)) -> truthy (_id o) = true ->
        Dashboard.handlePostCreated (Obj o) s
        = Done (Dashboard.setPosts (cons o) s))
    /\ (In (_id o) (ids (Profile.posts t)) ->
        Profile.handlePostCreated u (Obj o) t = Done t)
    /\ (~ In (_id o) (ids (Profile.posts t)) ->
        user_uid o = PStr (Profile.p_uid u) ->
        Profile.handlePostCreated u (Obj o) t
        = Done (Profile.setPosts (cons o) t))
    /\ (user_uid o <> PStr (Profile.p_uid u) ->
        Profile.handlePostCreated u (Obj o) t = Done t)
    /\ (NoDup (ids (Dashboard.posts s)) ->
        let s' := feed_deliver (map PostCreated ds) s in
        NoDup (ids (Dashboard.posts s'))
        /\ (In (Obj o) ds -> truthy (_id o) = true ->
            occurrences (_id o) (Dashboard.posts s') = 1))
    /\ (NoDup (ids (Profile.posts t)) ->
        let t' := profile_deliver u (map PostCreated ds) t in
        NoDup (ids (Profile.posts t'))
        /\ (In (Obj o) ds -> user_uid o = PStr (Profile.p_uid u) ->
            occurrences (_id o) (Profile.posts t') = 1)).
Proof.
  intros u s t o ds; repeat split.
  - intros Hin; destruct (truthy (_id o)) eqn:Ht.
    + rewrite (feed_created_wf o s Ht); f_equal.
      apply feed_setPosts_same, created_present; assumption.
    + unfold Dashboard.handlePostCreated, Dashboard.handlePostCreated_body.
      simpl; rewrite Ht; reflexivity.
  - intros Hn Ht; rewrite (feed_created_wf o s Ht); f_equal.
    apply feed_setPosts_ext, created_absent; assumption.
  - intros Hin.
    destruct (strict_eq (user_uid o) (PStr (Profile.p_uid u))) eqn:E.
    + apply strict_eq_true_iff in E; rewrite (profile_created_own u o t E).
      f_equal; apply profile_setPosts_same, created_present; assumption.
    + apply strict_eq_false_iff in E; apply profile_created_other; assumption.
  - intros Hn Hu; rewrite (profile_created_own u o t Hu); f_equal.
    apply profile_setPosts_ext, created_absent; assumption.
  - apply profile_created_other.
  - apply feed_created_seq_NoDup; assumption.
  - intros Hin Ht; apply occurrences_one.
    + apply feed_created_seq_NoDup; assumption.
    + apply feed_created_seq_has; assumption.
  - apply profile_created_seq_NoDup; assumption.
  - intros Hin Hu; apply occurrences_one.
    + apply profile_created_seq_NoDup; assumption.
    + apply profile_created_seq_has; assumption.
Qed.

(** The spec's scenario on both screens: D pushed onto [A,B,C] goes to
    the head, A pushed again changes nothing, X by another user stays out
    of the profile, and D pushed twice is there once. *)
Lemma created_dedups_and_prepends_witness :
  let s := feed_with [postA; postB; postC] in
  let t := profile_with [postA; postB; postC] in
  let ds := [Obj postD; Obj postD; Prim PNull] in
  (In (_id postA) (ids (Dashboard.posts s))
   /\ Dashboard.handlePostCreated (Obj postA) s = Done s
   /\ Profile.handlePostCreated user1 (Obj postA) t = Done t)
  /\ (~ In (_id postD) (ids (Dashboard.posts s))
      /\ truthy (_id postD) = true
      /\ user_uid postD = PStr (Profile.p_uid user1)
      /\ Dashboard.handlePostCreated (Obj postD) s
         = Done (Dashboard.setPosts (cons postD) s)
      /\ Profile.handlePostCreated user1 (Obj postD) t
         = Done (Profile.setPosts (cons postD) t))
  /\ (user_uid postX <> PStr (Profile.p_uid user1)
      /\ Profile.handlePostCreated user1 (Obj postX) t = Done t)
  /\ (NoDup (ids (Dashboard.posts s))
      /\ In (Obj postD) ds
      /\ occurrences (_id postD)
           (Dashboard.posts (feed_deliver (map PostCreated ds) s)) = 1
      /\ occurrences (_id postD)
           (Profile.posts (profile_deliver user1 (map PostCreated ds) t)) = 1).
Proof.
  intros s t ds.
  assert (HinA : In (_id postA) (ids (Dashboard.posts s)))
    by (vm_compute; tauto).
  assert (HinA' : In (_id postA) (ids (Profile.posts t)))
    by (vm_compute; tauto).
  assert (HnD : ~ In (_id postD) (ids (Dashboard.posts s))).
  { vm_compute; intros H.
    repeat (destruct H as [H|H]; [discriminate|]); contradiction. }
  assert (HnD' : ~ In (_id postD) (ids (Profile.posts t))).
  { vm_compute; intros H.
    repeat (destruct H as [H|H]; [discriminate|]); contradiction. }
  assert (Hnd : NoDup (ids (Dashboard.posts s))).
  { vm_compute; repeat constructor; simpl; intros H;
      repeat (destruct H as [H|H]; [discriminate|]); contradiction. }
  assert (Hnd' : NoDup (ids (Profile.posts t))).
  { vm_compute; repeat constructor; simpl; intros H;
      repeat (destruct H as [H|H]; [discriminate|]); contradiction. }
  assert (Hin : In (Obj postD) ds) by (left; reflexivity).
  assert (Ht : truthy (_id postD) = true) by reflexivity.
  assert (Hu : user_uid postD = PStr (Profile.p_uid user1)) by reflexivity.
  assert (Hx : user_uid postX <> PStr (Profile.p_uid user1))
    by (vm_compute; discriminate).
  destruct (created_dedups_and_prepends user1 s t postA ds)
    as (HA & _ & HA' & _).
  destruct (created_dedups_and_prepends user1 s t postX ds)
    as (_ & _ & _ & _ & HX & _).
  destruct (created_dedups_and_prepends user1 s t postD ds)
    as (_ & HD & _ & HD' & _ & Hfeed & Hprofile).
  destruct (Hfeed Hnd) as [_ Hf]; destruct (Hprofile Hnd') as [_ Hp].
  exact (conj (conj HinA (conj (HA HinA) (HA' HinA')))
          (conj (conj HnD (conj Ht (conj Hu (conj (HD HnD Ht) (HD' HnD' Hu)))))
             (conj (conj Hx (HX Hx))
                (conj Hnd (conj Hin (conj (Hf Hin Ht) (Hp Hin Hu))))))).
Defined.

(** ** Push [updated] *)

Lemma feed_updated_wf : forall o s,
  truthy (_id o) = true ->
  Dashboard.handlePostUpdated (Obj o) s
  = Done (Dashboard.setPosts (Reconcile.updated o) s).
Proof.
  intros o s H; unfold Dashboard.handlePostUpdated,
    Dashboard.handlePostUpdated_body; simpl; rewrite H; reflexivity.
Qed.

Lemma updated_nth : forall o prev n p,
  nth_error prev n = Some p ->
  (_id p = _id o /\ nth_error (Reconcile.updated o prev) n = Some o)
  \/ (_id p <> _id o /\ nth_error (Reconcile.updated o prev) n = Some p).
Proof.
  intros o prev n p H; unfold Reconcile.updated.
  rewrite nth_error_map, H; simpl.
  destruct (strict_eq (_id p) (_id o)) eqn:E.
  - apply strict_eq_true_iff in E; left; auto.
  - apply strict_eq_false_iff in E; right; auto.
Qed.

Lemma ids_nth : forall l n p,
  nth_error l n = Some p -> nth_error (ids l) n = Some (_id p).
Proof.
  intros l n p H; unfold ids; rewrite nth_error_map, H; reflexivity.
Qed.

(** C7.  For an [updated] event that carries an identifier, the feed
    listener returns with a state whose list has the same length and the
    same identifiers at the same positions as before, in which every
    entry with the event's identifier has become the updated post and
    every other entry is what it was; in a list with distinct identifiers
    that is one entry at most.  Nothing but the list changes.  When no
    entry has the identifier the state is unchanged. *)
Theorem updated_replaces_in_place :
  forall (s : Dashboard.state) (o : Post),
    truthy (_id o) = true ->
    exists s' : Dashboard.state,
      Dashboard.handlePostUpdated (Obj o) s = Done s'
      /\ List.length (Dashboard.posts s') = List.length (Dashboard.posts s)
      /\ ids (Dashboard.posts s') = ids (Dashboard.posts s)
      /\ (forall n p, nth_error (Dashboard.posts s) n = Some p ->
            (_id p = _id o /\ nth_error (Dashboard.posts s') n = Some o)
            \/ (_id p <> _id o /\ nth_error (Dashboard.posts s') n = Some p))
      /\ (NoDup (ids (Dashboard.posts s)) ->
          forall n m p q,
            nth_error (Dashboard.posts s) n = Some p ->
            nth_error (Dashboard.posts s) m = Some q ->
            _id p = _id o -> _id q = _id o -> n = m)
      /\ s' = Dashboard.setPosts (fun _ => Dashboard.posts s') s
      /\ (~ In (_id o) (ids (Dashboard.posts s)) -> s' = s).
Proof.
  intros s o Ht; exists (Dashboard.setPosts (Reconcile.updated o) s).
  split; [apply feed_updated_wf; assumption|].
  split; [simpl; unfold Reconcile.updated; apply length_map|].
  split; [simpl; apply updated_ids|].
  split; [intros n p; simpl; apply updated_nth|].
  split.
  - intros Hnd n m p q Hn Hm Hp Hq.
    apply ids_nth in Hn; apply ids_nth in Hm.
    apply (proj1 (NoDup_nth_error (ids (Dashboard.posts s))) Hnd).
    + apply nth_error_Some; congruence.
    + congruence.
  - split; [reflexivity|].
    intros Hn; apply feed_setPosts_same, updated_absent; assumption.
Qed.

(** The spec's scenario: [D,A,C] becomes [D,A',C]; an update of X, which
    is not listed, changes nothing. *)
Lemma updated_replaces_in_place_witness :
  let s := feed_with [postD; postA; postC] in
  truthy (_id postA') = true
  /\ (exists s',
        Dashboard.handlePostUpdated (Obj postA') s = Done s'
        /\ Dashboard.posts s' = [postD; postA'; postC])
  /\ truthy (_id postX) = true
  /\ ~ In (_id postX) (ids (Dashboard.posts s))
  /\ Dashboard.handlePostUpdated (Obj postX) s = Done s.
Proof.
  intros s.
  assert (HA : truthy (_id postA') = true) by reflexivity.
  assert (HX : truthy (_id postX) = true) by reflexivity.
  assert (Hn : ~ In (_id postX) (ids (Dashboard.posts s))).
  { vm_compute; intros H.
    repeat (destruct H as [H|H]; [discriminate|]); contradiction. }
  destruct (updated_replaces_in_place s postA' HA)
    as (s1 & E1 & Hlen & _ & Hnth & _).
  destruct (updated_replaces_in_place s postX HX)
    as (s2 & E2 & _ & _ & _ & _ & _ & Hsame).
  refine (conj HA (conj _ (conj HX (conj Hn _)))).
  - exists s1; split; [exact E1|].
    assert (H0 : nth_error (Dashboard.posts s) 0 = Some postD)
      by (vm_compute; reflexivity).
    assert (H1 : nth_error (Dashboard.posts s) 1 = Some postA)
      by (vm_compute; reflexivity).
    assert (H2 : nth_error (Dashboard.posts s) 2 = Some postC)
      by (vm_compute; reflexivity).
    assert (Hl : List.length (Dashboard.posts s) = 3)
      by (vm_compute; reflexivity).
    rewrite Hl in Hlen.
    destruct (Hnth 0 postD H0) as [[E _]|[_ N0]];
      [vm_compute in E; discriminate|].
    destruct (Hnth 1 postA H1) as [[_ N1]|[E _]];
      [|exfalso; apply E; reflexivity].
    destruct (Hnth 2 postC H2) as [[E _]|[_ N2]];
      [vm_compute in E; discriminate|].
    destruct (Dashboard.posts s1) as [|a [|b [|c [|]]]];
      simpl in Hlen; try discriminate.
    simpl in N0, N1, N2; congruence.
  - rewrite E2, (Hsame Hn); reflexivity.
Defined.

(** ** Push [deleted] *)

Lemma deleted_absent : forall i prev,
  ~ In i (ids prev) -> Reconcile.deleted (Prim i) prev = prev.
Proof.
  intros i prev; unfold Reconcile.deleted; induction prev as [|p prev IH];
    intros H; simpl; [reflexivity|].
  destruct (strict_eq (_id p) i) eqn:E; simpl.
  - apply strict_eq_true_iff in E; exfalso; apply H; left; assumption.
  - f_equal; apply IH; intros Hin; apply H; right; assumption.
Qed.

Lemma deleted_removes : forall i prev, ~ In i (ids (Reconcile.deleted (Prim i) prev)).
Proof.
  intros i prev H; unfold ids, Reconcile.deleted in H.
  apply in_map_iff in H; destruct H as [p [E Hp]].
  apply filter_In in Hp; destruct Hp as [_ Hp]; simpl in Hp.
  subst i; rewrite strict_eq_refl in Hp; discriminate.
Qed.

Lemma deleted_keeps_others : forall i prev p,
  In p prev -> _id p <> i -> In p (Reconcile.deleted (Prim i) prev).
Proof.
  intros i prev p Hin Hne; unfold Reconcile.deleted; apply filter_In.
  split; [assumption|]; simpl.
  apply strict_eq_false_iff in Hne; rewrite Hne; reflexivity.
Qed.

Lemma deleted_object_noop : forall o prev, Reconcile.deleted (Obj o) prev = prev.
Proof.
  intros o prev; unfold Reconcile.deleted; induction prev as [|p prev IH];
    simpl; [reflexivity | f_equal; assumption].
Qed.

(** On the feed screen the identifier may come bare or inside an object. *)
Lemma feed_deleted_wf : forall d i s,
  truthy i = true ->
  d = Prim i \/ (exists o, d = Obj o /\ _id o = i) ->
  Dashboard.handlePostDeleted d s
  = Done (Dashboard.setPosts (Reconcile.deleted (Prim i)) s).
Proof.
  intros d i s Ht [->|[o [-> <-]]];
    unfold Dashboard.handlePostDeleted, Dashboard.handlePostDeleted_body,
      Dashboard.deleted_postId; simpl; rewrite ?Ht; simpl; rewrite ?Ht;
    reflexivity.
Qed.

(** On the profile screen it is read from an object. *)
Lemma profile_deleted_object : forall o t,
  Profile.handlePostDeleted (Obj o) t
  = Done (Profile.setPosts (Reconcile.deleted (Prim (_id o))) t).
Proof. reflexivity. Qed.

(** C8, where the code departs from it.  The profile listener takes the
    identifier out of an object: for an event that carries the bare
    identifier of a listed post it removes nothing, where the feed
    listener removes the post. *)
Theorem profile_deleted_ignores_bare_identifier :
  In (_id postA) (ids (Profile.posts (profile_with [postA; postB])))
  /\ Profile.handlePostDeleted (Prim (_id postA)) (profile_with [postA; postB])
     = Done (profile_with [postA; postB])
  /\ Dashboard.handlePostDeleted (Prim (_id postA)) (feed_with [postA; postB])
     = Done (feed_with [postB])
  /\ Profile.handlePostDeleted (Obj postA) (profile_with [postA; postB])
     = Done (profile_with [postB]).
Proof.
  split; [left; reflexivity|].
  split; [vm_compute; reflexivity|].
  split; vm_compute; reflexivity.
Qed.

(** The scenario of the spec, on the feed screen: [A,B,C], then D pushed
    twice, B deleted and A edited, gives [D,A',C]. *)
Example feed_scenario :
  Dashboard.posts
    (feed_deliver
       [PostCreated (Obj postD); PostCreated (Obj postD);
        PostDeleted (Prim (_id postB)); PostUpdated (Obj postA')]
       (feed_with [postA; postB; postC]))
  = [postD; postA'; postC].
Proof. vm_compute; reflexivity. Qed.

(** ** Malformed payloads *)

Lemma filter_all : forall (l : list Post), filter (fun _ => true) l = l.
Proof. induction l as [|p l IH]; simpl; [reflexivity | f_equal; assumption]. Qed.

(** The feed listeners drop a malformed payload. *)
Lemma feed_listeners_drop_malformed : forall e s,
  malformed (push_payload e) = true -> feed_listener e s = Done s.
Proof.
  intros e s H; destruct e as [d|d|d]; simpl in H; simpl;
    destruct d as [v|o]; simpl in H.
  1,3: destruct v; try discriminate; reflexivity.
  1,2: apply strict_eq_true_iff in H;
       unfold Dashboard.handlePostCreated, Dashboard.handlePostCreated_body,
         Dashboard.handlePostUpdated, Dashboard.handlePostUpdated_body;
       simpl; rewrite H; reflexivity.
  - destruct v; try discriminate; reflexivity.
  - apply strict_eq_true_iff in H.
    unfold Dashboard.handlePostDeleted, Dashboard.handlePostDeleted_body,
      Dashboard.deleted_postId; simpl; rewrite H; simpl.
    f_equal; apply feed_setPosts_same, deleted_object_noop.
Qed.

(** C5, where the code departs from it.  The profile listeners have no
    check of the payload: [null] and [undefined] make them throw, and a
    created post without identifier is put into the list. *)
Theorem profile_listeners_throw_on_null :
  forall (u : Profile.ProfileUser) (t : Profile.state),
    Profile.handlePostCreated u (Prim PNull) t = TypeError
    /\ Profile.handlePostCreated u (Prim PUndefined) t = TypeError
    /\ Profile.handlePostUpdated u (Prim PNull) t = TypeError
    /\ Profile.handlePostUpdated u (Prim PUndefined) t = TypeError
    /\ Profile.handlePostDeleted (Prim PNull) t = TypeError
    /\ Profile.handlePostDeleted (Prim PUndefined) t = TypeError
    /\ malformed (Obj post_without_id) = true
    /\ Profile.handlePostCreated user1 (Obj post_without_id) (profile_with [postA])
       = Done (profile_with [post_without_id; postA]).
Proof.
  intros u t; do 7 (split; [reflexivity|]).
  vm_compute; reflexivity.
Qed.

(** ** Push events leave everything but the list alone *)

Lemma feed_setPosts_setPosts : forall f g s,
  Dashboard.setPosts f (Dashboard.setPosts g s)
  = Dashboard.setPosts (fun l => f (g l)) s.
Proof. reflexivity. Qed.

Lemma feed_setPosts_const : forall s,
  s = Dashboard.setPosts (fun _ => Dashboard.posts s) s.
Proof. intros []; reflexivity. Qed.

(** What a feed listener does to the list. *)
Lemma feed_listener_posts : forall e s,
  exists l,
    Dashboard.guarded (feed_listener e s) s = Dashboard.setPosts (fun _ => l) s
    /\ (l = Dashboard.posts s
        \/ (exists o, l = Reconcile.created o (Dashboard.posts s))
        \/ (exists o, l = Reconcile.updated o (Dashboard.posts s))
        \/ (exists x, l = Reconcile.deleted x (Dashboard.posts s))).
Proof.
  intros e s.
  assert (Hsame : exists l,
             s = Dashboard.setPosts (fun _ => l) s
             /\ (l = Dashboard.posts s
                 \/ (exists o, l = Reconcile.created o (Dashboard.posts s))
                 \/ (exists o, l = Reconcile.updated o (Dashboard.posts s))
                 \/ (exists x, l = Reconcile.deleted x (Dashboard.posts s)))).
  { exists (Dashboard.posts s); split; [apply feed_setPosts_const | auto]. }
  destruct e as [d|d|d]; simpl.
  - unfold Dashboard.handlePostCreated_body.
    destruct (negb (payload_truthy d)); [exact Hsame|].
    destruct (get_id d) as [i|]; [|exact Hsame].
    destruct (negb (truthy i)); [exact Hsame|].
    destruct d as [v|o]; [exact Hsame|]; simpl.
    exists (Reconcile.created o (Dashboard.posts s)); split; [reflexivity|].
    right; left; exists o; reflexivity.
  - unfold Dashboard.handlePostUpdated_body.
    destruct (negb (payload_truthy d)); [exact Hsame|].
    destruct (get_id d) as [i|]; [|exact Hsame].
    destruct (negb (truthy i)); [exact Hsame|].
    destruct d as [v|o]; [exact Hsame|]; simpl.
    exists (Reconcile.updated o (Dashboard.posts s)); split; [reflexivity|].
    right; right; left; exists o; reflexivity.
  - unfold Dashboard.handlePostDeleted_body.
    destruct (negb (payload_truthy (Dashboard.deleted_postId d)));
      [exact Hsame|]; simpl.
    exists (Reconcile.deleted (Dashboard.deleted_postId d) (Dashboard.posts s)).
    split; [reflexivity|].
    right; right; right; exists (Dashboard.deleted_postId d); reflexivity.
Qed.

Lemma feed_deliver_frame : forall es s,
  feed_deliver es s
  = Dashboard.setPosts (fun _ => Dashboard.posts (feed_deliver es s)) s.
Proof.
  induction es as [|e es IH]; intros s; simpl; [apply feed_setPosts_const|].
  destruct (feed_listener_posts e s) as [l [E _]].
  rewrite IH, E at 1; reflexivity.
Qed.

Lemma feed_deliver_NoDup : forall es s,
  NoDup (ids (Dashboard.posts s)) ->
  NoDup (ids (Dashboard.posts (feed_deliver es s))).
Proof.
  induction es as [|e es IH]; intros s H; simpl; [assumption|].
  apply IH; destruct (feed_listener_posts e s) as [l [E Hl]]; rewrite E; simpl.
  destruct Hl as [->|[[o ->]|[[o ->]|[x ->]]]].
  - assumption.
  - apply created_NoDup; assumption.
  - rewrite updated_ids; assumption.
  - apply deleted_NoDup; assumption.
Qed.

(** ** Page advance *)

Lemma NoDup_append : forall (l l' : list prim),
  NoDup l -> NoDup l' -> (forall x, In x l -> ~ In x l') -> NoDup (l ++ l').
Proof.
  induction l as [|a l IH]; intros l' Hl Hl' Hd; simpl; [assumption|].
  inversion Hl as [|? ? Hn Hl0]; subst; constructor.
  - rewrite in_app_iff; intros [H|H]; [contradiction|].
    apply (Hd a); [left; reflexivity | assumption].
  - apply IH; try assumption; intros x Hx; apply Hd; right; assumption.
Qed.

(** The posts that [mergePage] appends to [prev]. *)
Lemma mergePage_appended : forall newPosts prev p,
  In p (filter (fun p => negb (existsb (strict_eq (_id p)) (ids prev))) newPosts)
  <-> In p newPosts /\ ~ In (_id p) (ids prev).
Proof.
  intros newPosts prev p; rewrite filter_In, negb_true_iff.
  split; intros [H1 H2]; split; try assumption.
  - intros Hin; apply has_id_iff in Hin; congruence.
  - destruct (existsb _ _) eqn:E; [|reflexivity].
    apply has_id_iff in E; contradiction.
Qed.

Lemma mergePage_occurrences : forall newPosts prev i,
  In i (ids prev) ->
  occurrences i (Reconcile.mergePage newPosts prev) = occurrences i prev.
Proof.
  intros newPosts prev i Hin; unfold Reconcile.mergePage.
  rewrite occurrences_app, (@occurrences_zero i (filter _ newPosts)); [lia|].
  unfold ids; rewrite in_map_iff; intros [p [E Hp]].
  apply mergePage_appended in Hp; destruct Hp as [_ Hp].
  subst i; contradiction.
Qed.

Lemma mergePage_NoDup : forall newPosts prev,
  NoDup (ids prev) -> NoDup (ids newPosts) ->
  NoDup (ids (Reconcile.mergePage newPosts prev)).
Proof.
  intros newPosts prev Hp Hn; unfold Reconcile.mergePage, ids at 1.
  rewrite map_app; apply NoDup_append.
  - assumption.
  - apply filter_ids_NoDup; assumption.
  - intros x Hx Hin; apply in_map_iff in Hin; destruct Hin as [p [E Hin]].
    apply mergePage_appended in Hin; destruct Hin as [_ Hin].
    subst x; contradiction.
Qed.

(** A page advance that starts on a mounted screen with no fetch in
    flight, lets push events in, and then gets its response. *)
Lemma page_advance_posts : forall s pageNum res_posts es,
  Dashboard.fetchingRef s = false ->
  Dashboard.isMountedRef s = true ->
  (1 < pageNum)%Z ->
  let s2 := feed_deliver es (Dashboard.fetchPosts pageNum true s) in
  Dashboard.posts (Dashboard.fetchPosts_resolved res_posts s2)
  = Reconcile.mergePage (posts_or_empty res_posts) (Dashboard.posts s2).
Proof.
  intros s pageNum res_posts es Hf Hm Hp s2; subst s2.
  rewrite feed_deliver_frame.
  set (l := Dashboard.posts (feed_deliver es _)).
  unfold Dashboard.fetchPosts; rewrite Hf.
  unfold Dashboard.fetchPosts_resolved; simpl; rewrite Hm; simpl.
  apply Z.ltb_lt in Hp; rewrite Hp; simpl.
  unfold Dashboard.fetchPosts_finally; simpl; rewrite Hm; reflexivity.
Qed.

(** C2, as stated, fails: a post deleted by a push event while the page
    is in flight comes back when the page contains it. *)
Lemma page_advance_resurrects_deleted :
  ~ (forall (s : Dashboard.state) (pageNum : Z) (newPosts : list Post)
            (es : list push) (i : prim),
       Dashboard.fetchingRef s = false ->
       Dashboard.isMountedRef s = true ->
       (1 < pageNum)%Z ->
       In i (ids (Dashboard.posts s)) ->
       let s2 := feed_deliver es (Dashboard.fetchPosts pageNum true s) in
       ~ In i (ids (Dashboard.posts s2)) ->
       ~ In i (ids (Dashboard.posts
                      (Dashboard.fetchPosts_resolved (Some newPosts) s2)))).
Proof.
  intros H.
  apply (H (Dashboard.setPage (fun prev => prev + 1)%Z (feed_with page1)) 2%Z
           [postP3; postB] [PostDeleted (Prim (_id postP3))] (_id postP3)).
  - vm_compute; reflexivity.
  - vm_compute; reflexivity.
  - reflexivity.
  - vm_compute; tauto.
  - vm_compute; intros H'.
    repeat (destruct H' as [H'|H']; [discriminate|]); contradiction.
  - vm_compute; tauto.
Qed.

(** C2 (amended).  The page-advance merge runs on the list as it is when
    the response is applied, after whatever push events arrived since the
    request: it appends, in page order, exactly the fetched posts whose
    identifier is not in that list.  So an identifier in the list at that
    moment, pushed in the meantime or not, gets no second entry, and a
    page with distinct identifiers keeps the identifiers of the list
    distinct through every interleaving of push events.  Nothing is
    promised for a post that a push event deleted while the page was in
    flight. *)
Theorem page_advance_merges_at_apply_time :
  forall (s : Dashboard.state) (pageNum : Z) (res_posts : option (list Post))
         (es : list push),
    Dashboard.fetchingRef s = false ->
    Dashboard.isMountedRef s = true ->
    (1 < pageNum)%Z ->
    let s2 := feed_deliver es (Dashboard.fetchPosts pageNum true s) in
    let s3 := Dashboard.fetchPosts_resolved res_posts s2 in
    exists appended : list Post,
      Dashboard.posts s3 = Dashboard.posts s2 ++ appended
      /\ appended
         = filter (fun p => negb (existsb (strict_eq (_id p))
                                    (ids (Dashboard.posts s2))))
                  (posts_or_empty res_posts)
      /\ (forall p, In p appended <->
                    In p (posts_or_empty res_posts)
                    /\ ~ In (_id p) (ids (Dashboard.posts s2)))
      /\ (forall i, In i (ids (Dashboard.posts s2)) ->
                    occurrences i (Dashboard.posts s3)
                    = occurrences i (Dashboard.posts s2))
      /\ (NoDup (ids (Dashboard.posts s)) ->
          NoDup (ids (posts_or_empty res_posts)) ->
          NoDup (ids (Dashboard.posts s3))).
Proof.
  intros s pageNum res_posts es Hf Hm Hp s2 s3.
  assert (E : Dashboard.posts s3
              = Reconcile.mergePage (posts_or_empty res_posts)
                  (Dashboard.posts s2))
    by (apply page_advance_posts; assumption).
  eexists; split; [exact E|].
  split; [reflexivity|].
  split; [intros p; apply mergePage_appended|].
  split.
  - intros i Hi; rewrite E; apply mergePage_occurrences; assumption.
  - intros Hs Hn; rewrite E; apply mergePage_NoDup; [|assumption].
    apply feed_deliver_NoDup.
    unfold Dashboard.fetchPosts; rewrite Hf; simpl; assumption.
Qed.

(** Page 2 arrives after D was pushed and P3 deleted: D is not added a
    second time. *)
Lemma page_advance_merges_at_apply_time_witness :
  let s := Dashboard.setPage (fun prev => prev + 1)%Z (feed_with page1) in
  let es := [PostCreated (Obj postD); PostDeleted (Prim (_id postP3))] in
  Dashboard.fetchingRef s = false
  /\ Dashboard.isMountedRef s = true
  /\ (1 < 2)%Z
  /\ occurrences (_id postD)
       (Dashboard.posts
          (Dashboard.fetchPosts_resolved (Some [postD; postC])
             (feed_deliver es (Dashboard.fetchPosts 2 true s))))
     = 1.
Proof.
  intros s es.
  assert (Hf : Dashboard.fetchingRef s = false) by (vm_compute; reflexivity).
  assert (Hm : Dashboard.isMountedRef s = true) by (vm_compute; reflexivity).
  assert (Hp : (1 < 2)%Z) by reflexivity.
  destruct (page_advance_merges_at_apply_time s (Some [postD; postC]) es
              Hf Hm Hp) as (appended & _ & _ & _ & Hocc & _).
  refine (conj Hf (conj Hm (conj Hp _))).
  rewrite Hocc; [vm_compute; reflexivity | vm_compute; tauto].
Defined.

(** ** The end of the feed *)

Lemma intersect_no_more : forall b s,
  Dashboard.hasMore s = false -> Dashboard.intersect b s = s.
Proof.
  intros b s H; unfold Dashboard.intersect, Dashboard.observing.
  rewrite H; simpl; rewrite orb_true_r, andb_false_r; reflexivity.
Qed.

Lemma feed_step_no_more : forall i s,
  Dashboard.hasMore s = false ->
  exists l, feed_step i s = Dashboard.setPosts (fun _ => l) s.
Proof.
  intros [e|b] s H; simpl.
  - destruct (feed_listener_posts e s) as [l [E _]]; eauto.
  - rewrite (intersect_no_more b s H).
    exists (Dashboard.posts s); apply feed_setPosts_const.
Qed.

Lemma feed_run_no_more : forall ins s,
  Dashboard.hasMore s = false ->
  exists l, feed_run ins s = Dashboard.setPosts (fun _ => l) s.
Proof.
  induction ins as [|i ins IH]; intros s H; simpl.
  - exists (Dashboard.posts s); apply feed_setPosts_const.
  - destruct (feed_step_no_more i s H) as [l E]; rewrite E.
    destruct (IH (Dashboard.setPosts (fun _ => l) s) H) as [l' E'].
    rewrite E'; exists l'; reflexivity.
Qed.

(** C3.  When a mounted feed screen gets a page of fewer than 10 posts,
    [hasMore] becomes false and the visibility observer is gone; through
    any later push events and visibility reports the flag stays false,
    the page number stays what it was and no request is sent. *)
Theorem short_page_ends_feed :
  forall (s : Dashboard.state) (c : Z * bool) (res_posts : option (list Post))
         (ins : list input),
    Dashboard.isMountedRef s = true ->
    Dashboard.inflight s = Some c ->
    List.length (posts_or_empty res_posts) < 10 ->
    let s1 := Dashboard.fetchPosts_resolved res_posts s in
    let s2 := feed_run ins s1 in
    Dashboard.hasMore s1 = false
    /\ Dashboard.observing s1 = false
    /\ Dashboard.hasMore s2 = false
    /\ Dashboard.page s2 = Dashboard.page s1
    /\ Dashboard.requests s2 = Dashboard.requests s1
    /\ Dashboard.inflight s2 = None
    /\ (forall b, Dashboard.intersect b s2 = s2).
Proof.
  intros s [pageNum shouldAppend] res_posts ins Hm Hi Hlen s1 s2.
  assert (H1 : Dashboard.hasMore s1 = false).
  { subst s1; unfold Dashboard.fetchPosts_resolved; rewrite Hi; simpl.
    rewrite Hm; simpl.
    assert (Hz : (10 <=? Z.of_nat (List.length (posts_or_empty res_posts)))%Z
                 = false) by (apply Z.leb_gt; lia).
    unfold Dashboard.fetchPosts_finally.
    destruct (shouldAppend && (1 <? pageNum)%Z); simpl; rewrite Hm; simpl;
      exact Hz. }
  assert (H0 : Dashboard.inflight s1 = None).
  { subst s1; unfold Dashboard.fetchPosts_resolved; rewrite Hi; simpl.
    rewrite Hm; simpl; unfold Dashboard.fetchPosts_finally.
    destruct (shouldAppend && (1 <? pageNum)%Z); simpl; rewrite Hm; reflexivity. }
  destruct (feed_run_no_more ins s1 H1) as [l E].
  assert (H2 : Dashboard.hasMore s2 = false) by (subst s2; rewrite E; exact H1).
  split; [exact H1|].
  split; [unfold Dashboard.observing; rewrite H1; simpl;
          rewrite orb_true_r, andb_false_r; reflexivity|].
  split; [exact H2|].
  split; [subst s2; rewrite E; reflexivity|].
  split; [subst s2; rewrite E; reflexivity|].
  split; [subst s2; rewrite E; exact H0|].
  intros b; apply intersect_no_more; exact H2.
Qed.

(** The last post scrolls into view and page 2 is asked for; it comes
    back with one post; the last post is in view again and a post is
    pushed: no page 3. *)
Lemma short_page_ends_feed_witness :
  let s := feed_awaiting_page2 page1 in
  Dashboard.isMountedRef s = true
  /\ Dashboard.inflight s = Some (2%Z, true)
  /\ List.length (posts_or_empty (Some [postC])) < 10
  /\ Dashboard.page
       (feed_run [Visibility true; Push (PostCreated (Obj postD)); Visibility true]
          (Dashboard.fetchPosts_resolved (Some [postC]) s)) = 2%Z.
Proof.
  intros s.
  assert (Hm : Dashboard.isMountedRef s = true) by (vm_compute; reflexivity).
  assert (Hi : Dashboard.inflight s = Some (2%Z, true))
    by (vm_compute; reflexivity).
  assert (Hlen : List.length (posts_or_empty (Some [postC])) < 10)
    by (simpl; lia).
  destruct (short_page_ends_feed s (Some [postC])
              [Visibility true; Push (PostCreated (Obj postD)); Visibility true]
              Hm Hi Hlen) as (_ & _ & _ & Hpage & _).
  refine (conj Hm (conj Hi (conj Hlen _))).
  rewrite Hpage; vm_compute; reflexivity.
Defined.

(** ** A fetch that fails *)

Lemma or_else_truthy : forall a b, truthy b = true -> truthy (or_else a b) = true.
Proof.
  intros a b H; unfold or_else; destruct (truthy a) eqn:E; assumption.
Qed.

Lemma fetchPosts_rejected_posts : forall err s,
  Dashboard.posts (Dashboard.fetchPosts_rejected err s) = Dashboard.posts s.
Proof.
  intros err s; unfold Dashboard.fetchPosts_rejected.
  destruct (Dashboard.inflight s); [|reflexivity]; simpl.
  unfold Dashboard.fetchPosts_finally.
  destruct (Dashboard.isMountedRef s) eqn:Hm; simpl.
  - destruct (is_auth_error err); simpl; rewrite Hm; reflexivity.
  - rewrite Hm; reflexivity.
Qed.

(** The state a mounted screen is left in by a failed fetch. *)
Lemma fetchPosts_rejected_mounted : forall err s c,
  Dashboard.isMountedRef s = true ->
  Dashboard.inflight s = Some c ->
  let msg := or_else (or_else (error_data_message err) (message err))
                     (PStr (js "Failed to load posts")) in
  let s1 := Dashboard.setHasMore false
              (Dashboard.setError msg (Dashboard.setInflight None s)) in
  Dashboard.fetchPosts_rejected err s
  = Dashboard.setFetchingRef false
      (Dashboard.setLoading false
         (if is_auth_error err
          then Dashboard.setTimeout RedirectLogin 2000
                 (Dashboard.removeAuthToken s1)
          else s1)).
Proof.
  intros err s c Hm Hi msg s1; unfold Dashboard.fetchPosts_rejected.
  rewrite Hi; simpl; rewrite Hm; simpl; unfold Dashboard.fetchPosts_finally.
  destruct (is_auth_error err); simpl; rewrite Hm; reflexivity.
Qed.



(** A response that reaches a screen after it was unmounted changes
    nothing but the bookkeeping of the pending request. *)
Lemma torn_down_screen_applies_nothing : forall s res_posts err,
  Dashboard.fetchPosts_resolved res_posts (Dashboard.unmount s)
  = Dashboard.fetchPosts_rejected err (Dashboard.unmount s)
  /\ (Dashboard.fetchPosts_resolved res_posts (Dashboard.unmount s)
      = Dashboard.unmount s
      \/ Dashboard.fetchPosts_resolved res_posts (Dashboard.unmount s)
         = Dashboard.setInflight None (Dashboard.unmount s)).
Proof.
  intros s res_posts err.
  unfold Dashboard.fetchPosts_resolved, Dashboard.fetchPosts_rejected; simpl.
  destruct (Dashboard.inflight s) as [[pageNum shouldAppend]|]; simpl; auto.
Qed.

(** ** Forced logout *)





(** ** Push events and the initial load *)

(** C6, as stated, fails: the listeners are registered when the screen
    mounts, and a post pushed while the first page is loading is put into
    the list. *)
Lemma push_applied_before_initial_load :
  ~ (forall (s : Dashboard.state) (e : push),
       Dashboard.initialLoad s = true ->
       Dashboard.posts (Dashboard.guarded (feed_listener e s) s)
       = Dashboard.posts s).
Proof.
  intros H.
  set (s := Dashboard.fetchPosts 1 false (Dashboard.init (Some (js "token")))).
  assert (Hl : Dashboard.initialLoad s = true) by (vm_compute; reflexivity).
  specialize (H s (PostCreated (Obj postA)) Hl).
  vm_compute in H; discriminate.
Qed.

(** C6 (amended).  A push event that carries an identifier is applied to
    the list in every state of the feed screen, before the initial load
    completes as well as after it: the listener's result does not depend
    on [initialLoad] or [loading].  A successful initial load then
    replaces the list with the page it got. *)
Theorem push_applied_in_every_state :
  forall (s : Dashboard.state) (o : Post) (i : prim),
    truthy (_id o) = true ->
    truthy i = true ->
    feed_listener (PostCreated (Obj o)) s
    = Done (Dashboard.setPosts (Reconcile.created o) s)
    /\ feed_listener (PostUpdated (Obj o)) s
       = Done (Dashboard.setPosts (Reconcile.updated o) s)
    /\ feed_listener (PostDeleted (Obj o)) s
       = Done (Dashboard.setPosts (Reconcile.deleted (Prim (_id o))) s)
    /\ feed_listener (PostDeleted (Prim i)) s
       = Done (Dashboard.setPosts (Reconcile.deleted (Prim i)) s)
    /\ (forall res_posts,
          Dashboard.isMountedRef s = true ->
          Dashboard.inflight s = Some (1%Z, false) ->
          Dashboard.posts (Dashboard.fetchPosts_resolved res_posts s)
          = posts_or_empty res_posts).
Proof.
  intros s o i Ho Hi.
  split; [apply feed_created_wf; assumption|].
  split; [apply feed_updated_wf; assumption|].
  split; [apply feed_deleted_wf; [assumption | right; exists o; auto]|].
  split; [apply feed_deleted_wf; [assumption | left; reflexivity]|].
  intros res_posts Hm Hf; unfold Dashboard.fetchPosts_resolved.
  rewrite Hf; simpl; rewrite Hm; simpl.
  unfold Dashboard.fetchPosts_finally; simpl; rewrite Hm; reflexivity.
Qed.

(** A post pushed while the first page is loading is in the list, and is
    gone once the page arrives without it. *)
Lemma push_applied_in_every_state_witness :
  let s := Dashboard.fetchPosts 1 false (Dashboard.init (Some (js "token"))) in
  truthy (_id postD) = true
  /\ Dashboard.initialLoad s = true
  /\ Dashboard.posts (feed_deliver [PostCreated (Obj postD)] s) = [postD]
  /\ Dashboard.posts
       (Dashboard.fetchPosts_resolved (Some [postA; postB])
          (feed_deliver [PostCreated (Obj postD)] s)) = [postA; postB].
Proof.
  intros s.
  destruct (push_applied_in_every_state s postD (_id postD) eq_refl eq_refl)
    as (Hc & _).
  destruct (push_applied_in_every_state
              (feed_deliver [PostCreated (Obj postD)] s) postD (_id postD)
              eq_refl eq_refl) as (_ & _ & _ & _ & Hload).
  assert (Hl : Dashboard.initialLoad s = true) by (vm_compute; reflexivity).
  refine (conj eq_refl (conj Hl (conj _ _))).
  - change (feed_deliver [PostCreated (Obj postD)] s)
      with (Dashboard.guarded (feed_listener (PostCreated (Obj postD)) s) s).
    rewrite Hc; vm_compute; reflexivity.
  - apply (Hload (Some [postA; postB])); vm_compute; reflexivity.
Defined.

(** ** Editing a post *)

Lemma jsstr_eqb_iff : forall a b, jsstr_eqb a b = true <-> a = b.
Proof.
  intros a b; unfold jsstr_eqb; destruct (list_eq_dec N.eq_dec a b);
    split; congruence.
Qed.

Lemma is_content_iff : forall x p,
  PostCard.is_content x p = true <-> content p = Some x.
Proof.
  intros x p; unfold PostCard.is_content; destruct (content p) as [c|].
  - rewrite jsstr_eqb_iff; split; congruence.
  - split; discriminate.
Qed.

Lemma is_empty_str_iff : forall x, PostCard.is_empty_str x = true <-> x = [].
Proof. intros [|c x]; simpl; split; congruence. Qed.

(** The three ways [handleEdit] goes before it waits for the server. *)
Lemma handleEdit_cases : forall s,
  let t := PostCard.trim (PostCard.editContent s) in
  let s' := PostCard.handleEdit s in
  ((t = [] \/ content (PostCard.post s) = Some t)
   /\ s' = PostCard.setEditContent (PostCard.content_or_empty (PostCard.post s))
             (PostCard.setIsEditing false s))
  \/ (t <> [] /\ content (PostCard.post s) <> Some t
      /\ (5000 < Z.of_nat (List.length t))%Z
      /\ s' = PostCard.emit
                (PostCard.Alert
                   (PStr (js "Post content is too long (max 5000 characters)")))
                s)
  \/ (t <> [] /\ content (PostCard.post s) <> Some t
      /\ (Z.of_nat (List.length t) <= 5000)%Z
      /\ ((exists msg,
             s' = PostCard.setIsSaving false
                    (PostCard.emit (PostCard.Alert msg)
                       (PostCard.setIsSaving true s)))
          \/ (exists u token,
                PostCard.currentUser s = Some u
                /\ PostCard.authToken s = Some token
                /\ s' = PostCard.setAwaited true
                          (PostCard.emit
                             (PostCard.Put (_id (PostCard.post s)) u t token)
                             (PostCard.setIsSaving true s))))).
Proof.
  intros s t s'; subst s'; unfold PostCard.handleEdit; fold t.
  destruct (PostCard.is_empty_str t) eqn:He; simpl.
  { left; apply is_empty_str_iff in He; auto. }
  destruct (PostCard.is_content t (PostCard.post s)) eqn:Hc; simpl.
  { left; apply is_content_iff in Hc; auto. }
  assert (Hne : t <> []).
  { intros H; apply is_empty_str_iff in H; congruence. }
  assert (Hnc : content (PostCard.post s) <> Some t).
  { intros H; apply is_content_iff in H; congruence. }
  destruct (5000 <? Z.of_nat (List.length t))%Z eqn:Hl.
  { right; left; apply Z.ltb_lt in Hl; auto. }
  right; right; apply Z.ltb_ge in Hl.
  split; [assumption|]. split; [assumption|]. split; [assumption|].
  destruct (PostCard.authToken s) as [[|c token]|] eqn:Htok.
  - left; eexists; reflexivity.
  - destruct (PostCard.currentUser s) as [u|] eqn:Hu.
    + right; exists u, (c :: token); auto.
    + left; eexists; reflexivity.
  - left; eexists; reflexivity.
Qed.

(** C10.  [handleEdit] never changes the post and never calls
    [onPostUpdated] before the server has answered.  With trimmed content
    that is empty or equal to the post's content it only closes the
    editor; with trimmed content of more than 5000 code units it sends no
    request.  When it does send a PUT, and so when a click on Save does,
    the trimmed content is non-empty, differs from the post's content, has
    at most 5000 code units, and is the body of that one request. *)
Theorem edit_sends_only_valid_content :
  forall (s : PostCard.state),
    let t := PostCard.trim (PostCard.editContent s) in
    let s' := PostCard.handleEdit s in
    PostCard.post s' = PostCard.post s
    /\ PostCard.updates s' = PostCard.updates s
    /\ (t = [] \/ content (PostCard.post s) = Some t ->
        PostCard.effects s' = PostCard.effects s
        /\ PostCard.isEditing s' = false
        /\ PostCard.awaitingPut s' = PostCard.awaitingPut s)
    /\ ((5000 < Z.of_nat (List.length t))%Z ->
        PostCard.puts s' = PostCard.puts s
        /\ PostCard.awaitingPut s' = PostCard.awaitingPut s)
    /\ (PostCard.puts s' <> PostCard.puts s ->
        t <> [] /\ content (PostCard.post s) <> Some t
        /\ (Z.of_nat (List.length t) <= 5000)%Z
        /\ exists u token,
             PostCard.effects s'
             = PostCard.Put (_id (PostCard.post s)) u t token
               :: PostCard.effects s)
    /\ (PostCard.puts (PostCard.save_click s) <> PostCard.puts s ->
        t <> [] /\ content (PostCard.post s) <> Some t
        /\ (Z.of_nat (List.length t) <= 5000)%Z).
Proof.
  intros s t s'.
  assert (Hmain :
    PostCard.post s' = PostCard.post s
    /\ PostCard.updates s' = PostCard.updates s
    /\ (t = [] \/ content (PostCard.post s) = Some t ->
        PostCard.effects s' = PostCard.effects s
        /\ PostCard.isEditing s' = false
        /\ PostCard.awaitingPut s' = PostCard.awaitingPut s)
    /\ ((5000 < Z.of_nat (List.length t))%Z ->
        PostCard.puts s' = PostCard.puts s
        /\ PostCard.awaitingPut s' = PostCard.awaitingPut s)
    /\ (PostCard.puts s' <> PostCard.puts s ->
        t <> [] /\ content (PostCard.post s) <> Some t
        /\ (Z.of_nat (List.length t) <= 5000)%Z
        /\ exists u token,
             PostCard.effects s'
             = PostCard.Put (_id (PostCard.post s)) u t token
               :: PostCard.effects s)).
  { destruct (handleEdit_cases s)
      as [[Hc E]|[(Hne & Hnc & Hl & E)|(Hne & Hnc & Hl & [[msg E]|E])]];
      fold t in Hc || fold t in Hne, Hnc, Hl; fold s' in E.
    - rewrite E; simpl.
      split; [reflexivity|]. split; [reflexivity|]. split; [auto|].
      split; [auto|]. intros Hp; exfalso; apply Hp; reflexivity.
    - rewrite E; simpl.
      split; [reflexivity|]. split; [reflexivity|].
      split; [intros [Hx|Hx]; contradiction|].
      split; [auto|]. intros Hp; exfalso; apply Hp; reflexivity.
    - rewrite E; simpl.
      split; [reflexivity|]. split; [reflexivity|].
      split; [intros [Hx|Hx]; contradiction|].
      split; [auto|]. intros Hp; exfalso; apply Hp; reflexivity.
    - destruct E as (u & token & Hu & Htok & E); fold t in E.
      rewrite E; simpl.
      split; [reflexivity|]. split; [reflexivity|].
      split; [intros [Hx|Hx]; contradiction|].
      split; [intros Hx; exfalso; lia|].
      intros _; repeat (split; [assumption|]).
      exists u, token; reflexivity. }
  destruct Hmain as (H1 & H2 & H3 & H4 & H5).
  repeat (split; [assumption|]).
  unfold PostCard.save_click; destruct (PostCard.save_disabled s).
  - intros H; exfalso; apply H; reflexivity.
  - intros H; destruct (H5 H) as (Ha & Hb & Hc & _); auto.
Qed.

(** A signed-in owner saves ["  hello  "] over ["old"]: one PUT with
    ["hello"].  Saving blanks closes the editor, saving 5001 letters sends
    nothing. *)
Lemma edit_sends_only_valid_content_witness :
  (PostCard.puts (PostCard.handleEdit editing_card) <> PostCard.puts editing_card
   /\ PostCard.trim (PostCard.editContent editing_card) = js "hello"
   /\ exists u token,
        PostCard.effects (PostCard.handleEdit editing_card)
        = [PostCard.Put (PStr (js "A")) u (js "hello") token])
  /\ (PostCard.trim (PostCard.editContent blank_card) = []
      /\ PostCard.effects (PostCard.handleEdit blank_card) = []
      /\ PostCard.isEditing (PostCard.handleEdit blank_card) = false)
  /\ ((5000 < Z.of_nat (List.length
                          (PostCard.trim (PostCard.editContent long_card))))%Z
      /\ PostCard.puts (PostCard.handleEdit long_card) = []).
Proof.
  assert (H : PostCard.puts (PostCard.handleEdit editing_card)
              <> PostCard.puts editing_card)
    by (vm_compute; discriminate).
  assert (Hb : PostCard.trim (PostCard.editContent blank_card) = [])
    by (vm_compute; reflexivity).
  assert (Hl : (5000 < Z.of_nat (List.length
                  (PostCard.trim (PostCard.editContent long_card))))%Z)
    by (vm_compute; reflexivity).
  destruct (edit_sends_only_valid_content editing_card)
    as (_ & _ & _ & _ & Hput & _).
  destruct (Hput H) as (_ & _ & _ & u & token & E).
  destruct (edit_sends_only_valid_content blank_card) as (_ & _ & Hblank & _).
  destruct (Hblank (or_introl Hb)) as (Hbe & Hbi & _).
  destruct (edit_sends_only_valid_content long_card) as (_ & _ & _ & Hlong & _).
  destruct (Hlong Hl) as (Hle & _).
  split; [|split].
  - split; [exact H|]. split; [vm_compute; reflexivity|].
    exists u, token; exact E.
  - split; [exact Hb|]. split; [rewrite Hbe; reflexivity | exact Hbi].
  - split; [exact Hl | rewrite Hle; reflexivity].
Defined.

(** ** How the list updaters compose *)

Lemma created_cons_or_same : forall o l,
  Reconcile.created o l = l \/ Reconcile.created o l = o :: l.
Proof.
  intros o l; unfold Reconcile.created; destruct (existsb _ l); auto.
Qed.

Lemma deleted_filter_comm : forall x y l,
  Reconcile.deleted x (Reconcile.deleted y l)
  = Reconcile.deleted y (Reconcile.deleted x l).
Proof.
  intros x y l; unfold Reconcile.deleted; induction l as [|p l IH]; simpl;
    [reflexivity|].
  destruct (negb (id_is y p)) eqn:Ey; destruct (negb (id_is x p)) eqn:Ex;
    simpl; rewrite ?Ex, ?Ey; rewrite IH; reflexivity.
Qed.

Lemma deleted_idem : forall x l,
  Reconcile.deleted x (Reconcile.deleted x l) = Reconcile.deleted x l.
Proof.
  intros x l; unfold Reconcile.deleted; induction l as [|p l IH]; simpl;
    [reflexivity|].
  destruct (negb (id_is x p)) eqn:Ex; simpl; rewrite ?Ex, IH; reflexivity.
Qed.

Lemma mergePage_covers : forall newPosts prev q,
  In q newPosts -> In (_id q) (ids (Reconcile.mergePage newPosts prev)).
Proof.
  intros newPosts prev q Hq; unfold Reconcile.mergePage, ids at 1.
  rewrite map_app, in_app_iff.
  destruct (existsb (strict_eq (_id q)) (ids prev)) eqn:E.
  - left; apply has_id_iff; assumption.
  - right; apply in_map, filter_In; split; [assumption|].
    rewrite E; reflexivity.
Qed.

Lemma filter_none : forall (f : Post -> bool) l,
  (forall q, In q l -> f q = false) -> filter f l = [].
Proof.
  intros f l; induction l as [|p l IH]; intros H; simpl; [reflexivity|].
  rewrite (H p (or_introl eq_refl)); apply IH.
  intros q Hq; apply H; right; assumption.
Qed.


(** X1.  Of two [created] events for one identifier only the first
    changes the list: the second, whatever post it carries, leaves the
    list as the first left it. *)
Theorem created_first_wins :
  forall (o1 o2 : Post) (l : list Post),
    _id o1 = _id o2 ->
    Reconcile.created o2 (Reconcile.created o1 l) = Reconcile.created o1 l.
Proof.
  intros o1 o2 l E; apply created_present; rewrite <- E; apply created_has.
Qed.

Lemma created_first_wins_witness :
  _id postA = _id postA'
  /\ Reconcile.created postA' (Reconcile.created postA [postB]) = [postA; postB].
Proof.
  assert (E : _id postA = _id postA') by reflexivity.
  split; [exact E|].
  rewrite (created_first_wins postA postA' [postB] E); vm_compute; reflexivity.
Defined.

(** X2.  Of two [updated] events for one identifier the later one
    decides every entry with that identifier, and updates for different
    identifiers can be applied in either order. *)
Theorem updated_last_wins_and_commutes :
  forall (o1 o2 : Post) (l : list Post),
    (_id o1 = _id o2 ->
     Reconcile.updated o2 (Reconcile.updated o1 l) = Reconcile.updated o2 l)
    /\ (_id o1 <> _id o2 ->
        Reconcile.updated o2 (Reconcile.updated o1 l)
        = Reconcile.updated o1 (Reconcile.updated o2 l)).
Proof.
  intros o1 o2 l; unfold Reconcile.updated; rewrite !map_map; split;
    intros H; apply map_ext; intros p.
  - destruct (strict_eq (_id p) (_id o1)) eqn:E1.
    + apply strict_eq_true_iff in E1.
      rewrite E1, H, !strict_eq_refl; reflexivity.
    + reflexivity.
  - destruct (strict_eq (_id p) (_id o1)) eqn:E1;
      destruct (strict_eq (_id p) (_id o2)) eqn:E2;
      rewrite ?E1, ?E2; try reflexivity.
    + apply strict_eq_true_iff in E1, E2; congruence.
    + apply strict_eq_false_iff in H; rewrite H; reflexivity.
    + assert (H' : strict_eq (_id o2) (_id o1) = false)
        by (apply strict_eq_false_iff; congruence).
      rewrite H'; reflexivity.
Qed.

Lemma updated_last_wins_and_commutes_witness :
  _id postA = _id postA'
  /\ _id postA' <> _id postB
  /\ Reconcile.updated postA' (Reconcile.updated postA [postA; postB])
     = [postA'; postB]
  /\ Reconcile.updated postB (Reconcile.updated postA' [postA; postB])
     = Reconcile.updated postA' (Reconcile.updated postB [postA; postB]).
Proof.
  assert (E : _id postA = _id postA') by reflexivity.
  assert (N : _id postA' <> _id postB) by (vm_compute; discriminate).
  destruct (updated_last_wins_and_commutes postA postA' [postA; postB])
    as [H1 _].
  destruct (updated_last_wins_and_commutes postA' postB [postA; postB])
    as [_ H2].
  refine (conj E (conj N (conj _ (H2 N)))).
  rewrite (H1 E); vm_compute; reflexivity.
Defined.

(** X3.  Deleting is idempotent, two deletions can be applied in either
    order, and a deletion after the creation of the same post leaves what
    the deletion alone leaves. *)
Theorem deleted_idempotent_commutes_cancels :
  forall (x y : payload) (o : Post) (l : list Post),
    Reconcile.deleted x (Reconcile.deleted x l) = Reconcile.deleted x l
    /\ Reconcile.deleted x (Reconcile.deleted y l)
       = Reconcile.deleted y (Reconcile.deleted x l)
    /\ Reconcile.deleted (Prim (_id o)) (Reconcile.created o l)
       = Reconcile.deleted (Prim (_id o)) l.
Proof.
  intros x y o l.
  split; [apply deleted_idem|]. split; [apply deleted_filter_comm|].
  destruct (created_cons_or_same o l) as [E|E]; rewrite E; [reflexivity|].
  unfold Reconcile.deleted; simpl; rewrite strict_eq_refl; reflexivity.
Qed.

(** X4.  Events that arrive out of order are not repaired.  An update
    that comes before the creation of its post is lost: the list then
    shows the created post, where the other order shows the updated one.
    A deletion that comes before the creation leaves the post in the
    list. *)
Theorem out_of_order_events_are_kept_as_delivered :
  forall (o o' : Post) (l : list Post),
    (~ In (_id o) (ids l) -> _id o' = _id o ->
     Reconcile.created o (Reconcile.updated o' l) = o :: l
     /\ Reconcile.updated o' (Reconcile.created o l) = o' :: l)
    /\ Reconcile.created o (Reconcile.deleted (Prim (_id o)) l)
       = o :: Reconcile.deleted (Prim (_id o)) l.
Proof.
  intros o o' l; split.
  - intros Hn E.
    assert (Hn' : ~ In (_id o') (ids l)) by (rewrite E; assumption).
    rewrite (updated_absent o' l Hn'), (created_absent o l Hn); split;
      [reflexivity|].
    unfold Reconcile.updated; simpl.
    rewrite <- E, strict_eq_refl; f_equal.
    apply (updated_absent o' l Hn').
  - apply created_absent, deleted_removes.
Qed.

Lemma out_of_order_events_are_kept_as_delivered_witness :
  ~ In (_id postA) (ids [postB])
  /\ _id postA' = _id postA
  /\ Reconcile.created postA (Reconcile.updated postA' [postB]) = [postA; postB]
  /\ Reconcile.updated postA' (Reconcile.created postA [postB]) = [postA'; postB].
Proof.
  assert (Hn : ~ In (_id postA) (ids [postB])).
  { vm_compute; intros [H|[]]; discriminate. }
  assert (E : _id postA' = _id postA) by reflexivity.
  destruct (out_of_order_events_are_kept_as_delivered postA postA' [postB])
    as [H _].
  destruct (H Hn E) as [H1 H2].
  exact (conj Hn (conj E (conj H1 H2))).
Defined.

(** X5.  The page-advance merge keeps the list it was given as a prefix,
    adds at most as many posts as the page has, and adds nothing when the
    same page is merged a second time. *)
Theorem mergePage_prefix_and_idempotent :
  forall (newPosts prev : list Post),
    firstn (List.length prev) (Reconcile.mergePage newPosts prev) = prev
    /\ List.length (Reconcile.mergePage newPosts prev)
       <= List.length prev + List.length newPosts
    /\ Reconcile.mergePage newPosts (Reconcile.mergePage newPosts prev)
       = Reconcile.mergePage newPosts prev.
Proof.
  intros newPosts prev; split; [|split].
  - unfold Reconcile.mergePage.
    rewrite firstn_app, Nat.sub_diag, firstn_all; simpl; apply app_nil_r.
  - unfold Reconcile.mergePage; rewrite length_app.
    apply Nat.add_le_mono_l, filter_length_le.
  - unfold Reconcile.mergePage at 1.
    rewrite filter_none; [apply app_nil_r|].
    intros q Hq; apply negb_false_iff, has_id_iff, mergePage_covers; assumption.
Qed.

(** X6.  The merge compares the page with the list only, not with
    itself: an identifier that the list does not have gets as many entries
    as the page has posts with it. *)
Theorem mergePage_keeps_repeats_of_the_page :
  forall (newPosts prev : list Post) (i : prim),
    ~ In i (ids prev) ->
    occurrences i (Reconcile.mergePage newPosts prev) = occurrences i newPosts.
Proof.
  intros newPosts prev i Hn; unfold Reconcile.mergePage.
  rewrite occurrences_app, (@occurrences_zero i prev Hn); simpl.
  unfold occurrences; f_equal.
  induction newPosts as [|q l IH]; simpl; [reflexivity|].
  destruct (existsb (strict_eq (_id q)) (ids prev)) eqn:E; simpl.
  - destruct (strict_eq (_id q) i) eqn:Ei; [|exact IH].
    apply strict_eq_true_iff in Ei; apply has_id_iff in E; congruence.
  - destruct (strict_eq (_id q) i); rewrite IH; reflexivity.
Qed.

Lemma mergePage_keeps_repeats_of_the_page_witness :
  ~ In (_id postX) (ids [postA])
  /\ occurrences (_id postX)
       (Reconcile.mergePage [postX; postA; postX] [postA]) = 2.
Proof.
  assert (Hn : ~ In (_id postX) (ids [postA])).
  { vm_compute; intros [H|[]]; discriminate. }
  split; [exact Hn|].
  rewrite (@mergePage_keeps_repeats_of_the_page [postX; postA; postX]
             [postA] (_id postX) Hn).
  vm_compute; reflexivity.
Defined.

(** ** The feed screen from mount to unmount *)

Lemma consistent_setPosts : forall f s,
  Feed.consistent s -> Feed.consistent (Dashboard.setPosts f s).
Proof. intros f s H; exact H. Qed.

Lemma take_retry_some : forall l l',
  Feed.take_retry l = Some l' -> exists d, In (d, RetryFetch) l.
Proof.
  induction l as [|[d t] l IH]; intros l' H; simpl in H; [discriminate|].
  unfold Feed.is_retry in H; simpl in H; destruct t.
  - destruct (Feed.take_retry l) as [l0|]; [|discriminate].
    destruct (IH l0 eq_refl) as [d' Hd]; exists d'; right; assumption.
  - exists d; left; reflexivity.
Qed.

Ltac split_ifs :=
  repeat match goal with
         | |- context [if ?b then _ else _] => destruct b eqn:?
         end.

Ltac finish_consistent :=
  unfold Feed.consistent; simpl;
  repeat split; intros; simpl in *;
  try discriminate; try congruence; try lia; try tauto.

Lemma fetchPosts_consistent : forall pageNum shouldAppend s,
  Feed.consistent s -> Feed.consistent (Dashboard.fetchPosts pageNum shouldAppend s).
Proof.
  intros pageNum shouldAppend s H; unfold Dashboard.fetchPosts.
  destruct (Dashboard.fetchingRef s) eqn:Hf; [assumption|].
  destruct H as (H1 & H2 & H3 & H4); finish_consistent.
Qed.

Lemma step_consistent : forall e s,
  Feed.consistent s -> Feed.consistent (Feed.step e s).
Proof.
  intros e s H; destruct e as [p|b|r|err| | |d|i|]; simpl.
  - destruct (Dashboard.isMountedRef s); [|assumption].
    destruct (feed_listener_posts p s) as [l [E _]]; rewrite E.
    apply consistent_setPosts; assumption.
  - unfold Dashboard.intersect.
    destruct (Dashboard.observing s) eqn:Ho; [|assumption].
    destruct (_ && _ && _ && _) eqn:Hc; [|assumption].
    unfold Dashboard.page_effect; simpl.
    assert (H' : Feed.consistent
                   (Dashboard.setPage (fun prev => (prev + 1)%Z) s)).
    { destruct H as (H1 & H2 & H3 & H4); finish_consistent. }
    destruct (1 <? Dashboard.page s + 1)%Z; [|assumption].
    apply fetchPosts_consistent; assumption.
  - unfold Dashboard.fetchPosts_resolved.
    destruct (Dashboard.inflight s) as [[pageNum shouldAppend]|] eqn:Hi;
      [|assumption].
    destruct H as (H1 & H2 & H3 & H4).
    assert (Hf : Dashboard.fetchingRef s = true) by (apply H1; congruence).
    unfold Dashboard.fetchPosts_finally; simpl.
    destruct (Dashboard.isMountedRef s) eqn:Hm; simpl.
    + destruct (H4 eq_refl) as (H5 & H6 & H7).
      destruct (shouldAppend && (1 <? pageNum)%Z); simpl; rewrite ?Hm;
        finish_consistent;
        try (destruct H7 as [H8 _]; [assumption | congruence]).
    + rewrite ?Hm; finish_consistent.
  - unfold Dashboard.fetchPosts_rejected.
    destruct (Dashboard.inflight s) as [c|] eqn:Hi; [|assumption].
    destruct H as (H1 & H2 & H3 & H4).
    unfold Dashboard.fetchPosts_finally; simpl.
    destruct (Dashboard.isMountedRef s) eqn:Hm; simpl.
    + destruct (is_auth_error err); simpl; rewrite ?Hm; finish_consistent.
    + rewrite ?Hm; finish_consistent.
  - destruct (Feed.retry_clickable s); [|assumption].
    destruct H as (H1 & H2 & H3 & H4); unfold Dashboard.handleRetry.
    finish_consistent.
  - destruct (Feed.take_oldest_retry (Dashboard.timers s)) as [l|];
      [|assumption]; simpl.
    destruct H as (H1 & H2 & H3 & H4).
    destruct (Dashboard.isMountedRef s) eqn:Hm.
    + destruct (H4 eq_refl) as (H5 & H6 & H7).
      unfold Dashboard.retry_fire, Dashboard.fetchPosts; simpl.
      destruct (Dashboard.fetchingRef s) eqn:Hf;
        unfold Feed.consistent; simpl; rewrite ?Hm, ?Hf;
        repeat split; intros; simpl in *;
        try discriminate; try congruence; try lia; try tauto.
      destruct H7 as [H8 _]; [assumption | congruence].
    + unfold Feed.fetchPosts_detached; simpl.
      destruct (Dashboard.fetchingRef s) eqn:Hf;
        unfold Feed.consistent; simpl; rewrite ?Hm, ?Hf;
        repeat split; intros; simpl in *;
        try discriminate; try congruence; try lia; try tauto.
  - destruct (Dashboard.isMountedRef s); [|assumption].
    unfold DashboardCard.handlePostUpdated; destruct d as [o|].
    + apply consistent_setPosts; assumption.
    + destruct (Dashboard.posts s); [assumption|].
      destruct H as (H1 & H2 & H3 & H4); unfold Dashboard.unmount.
      finish_consistent.
  - destruct (Dashboard.isMountedRef s); [|assumption].
    apply consistent_setPosts; assumption.
  - destruct H as (H1 & H2 & H3 & H4); unfold Dashboard.unmount.
    finish_consistent.
Qed.

Lemma mounted_consistent : forall token, Feed.consistent (Feed.mounted token).
Proof.
  intros token; unfold Feed.mounted, Dashboard.fetchPosts; simpl.
  unfold Feed.consistent; simpl; repeat split; intros;
    try discriminate; try congruence; try lia.
Qed.

Lemma run_consistent : forall es s,
  Feed.consistent s -> Feed.consistent (Feed.run es s).
Proof.
  induction es as [|e es IH]; intros s H; simpl; [assumption|].
  apply IH, step_consistent; assumption.
Qed.

(** A step sends no request, or sends exactly one while [fetchingRef] is
    off. *)
Lemma step_requests : forall e s,
  Dashboard.requests (Feed.step e s) = Dashboard.requests s
  \/ (Dashboard.fetchingRef s = false
      /\ exists pageNum shouldAppend,
           Dashboard.requests (Feed.step e s)
           = Dashboard.mkRequest pageNum 10 (Dashboard.authToken s)
             :: Dashboard.requests s
           /\ Dashboard.inflight (Feed.step e s) = Some (pageNum, shouldAppend)).
Proof.
  intros e s; destruct e as [p|b|r|err| | |d|i|]; simpl.
  - destruct (Dashboard.isMountedRef s); [|auto].
    destruct (feed_listener_posts p s) as [l [E _]]; rewrite E; auto.
  - unfold Dashboard.intersect, Dashboard.page_effect, Dashboard.fetchPosts.
    simpl; split_ifs; auto.
    right; split; [reflexivity|]; do 2 eexists; split; reflexivity.
  - left; unfold Dashboard.fetchPosts_resolved, Dashboard.fetchPosts_finally.
    destruct (Dashboard.inflight s) as [[pageNum shouldAppend]|];
      simpl; split_ifs; reflexivity.
  - left; unfold Dashboard.fetchPosts_rejected, Dashboard.fetchPosts_finally.
    destruct (Dashboard.inflight s); simpl; split_ifs; reflexivity.
  - destruct (Feed.retry_clickable s); auto.
  - destruct (Feed.take_oldest_retry (Dashboard.timers s)); [|auto].
    unfold Dashboard.retry_fire, Dashboard.fetchPosts, Feed.fetchPosts_detached.
    simpl; split_ifs; auto;
      right; (split; [reflexivity|]); do 2 eexists; split; reflexivity.
  - destruct (Dashboard.isMountedRef s); [|auto].
    destruct d as [o|]; simpl; [auto|].
    destruct (Dashboard.posts s); auto.
  - destruct (Dashboard.isMountedRef s); auto.
  - auto.
Qed.

(** X7.  In every state the feed screen gets into after mounting,
    whatever the order of push events, visibility reports, responses,
    failures, retries, card callbacks and the unmount: the page number is
    at least 1; and while the screen is mounted, [loading] is on exactly
    when a request is awaited, and an error message is never there
    together with the loading state, with [hasMore] or with a visibility
    observer. *)
Theorem feed_screen_invariants :
  forall (token : option jsstr) (es : list Feed.event),
    let s := Feed.run es (Feed.mounted token) in
    (1 <= Dashboard.page s)%Z
    /\ (0 <= Dashboard.retryCount s)%Z
    /\ (Dashboard.isMountedRef s = true ->
        Dashboard.loading s = Dashboard.fetchingRef s
        /\ (Dashboard.loading s = true <-> Dashboard.inflight s <> None)
        /\ (truthy (Dashboard.error s) = true ->
            Dashboard.loading s = false
            /\ Dashboard.hasMore s = false
            /\ Dashboard.observing s = false)).
Proof.
  intros token es s.
  assert (H : Feed.consistent s)
    by (apply run_consistent, mounted_consistent).
  destruct H as (H1 & H2 & H3 & H4).
  split; [assumption|]. split; [assumption|].
  intros Hm; destruct (H4 Hm) as (H5 & H6 & H7).
  split; [assumption|]. split.
  - rewrite H5; split; [apply H6 | apply H1].
  - intros He; destruct (H7 He) as [H8 H9].
    repeat split; try assumption.
    unfold Dashboard.observing; rewrite H9; simpl.
    rewrite orb_true_r, andb_false_r; reflexivity.
Qed.

(** A feed that loads its first page, asks for page 2, gets a pushed
    post and then the failure of page 2. *)
Lemma feed_screen_invariants_witness :
  let es := [Feed.Response (Some page1); Feed.Observer true;
             Feed.Socket (PostCreated (Obj postD));
             Feed.Failure (mkError None (PStr (js "Network Error")))] in
  let s := Feed.run es (Feed.mounted (Some (js "token"))) in
  Dashboard.isMountedRef s = true
  /\ truthy (Dashboard.error s) = true
  /\ Dashboard.loading s = false
  /\ Dashboard.hasMore s = false.
Proof.
  intros es s.
  assert (Hm : Dashboard.isMountedRef s = true) by (vm_compute; reflexivity).
  assert (He : truthy (Dashboard.error s) = true) by (vm_compute; reflexivity).
  destruct (feed_screen_invariants (Some (js "token")) es) as (_ & _ & H).
  destruct (H Hm) as (_ & _ & H').
  destruct (H' He) as (Hl & Hh & _).
  exact (conj Hm (conj He (conj Hl Hh))).
Defined.

(** X8.  At most one fetch is in flight: in every state the screen gets
    into, a step sends no request or exactly one, with limit 10 and the
    token stored at that moment, and it sends one only when no other
    request is awaited. *)
Theorem at_most_one_fetch_in_flight :
  forall (token : option jsstr) (es : list Feed.event) (e : Feed.event),
    let s := Feed.run es (Feed.mounted token) in
    let s' := Feed.step e s in
    Dashboard.requests s' = Dashboard.requests s
    \/ (Dashboard.inflight s = None
        /\ exists pageNum shouldAppend,
             Dashboard.requests s'
             = Dashboard.mkRequest pageNum 10 (Dashboard.authToken s)
               :: Dashboard.requests s
             /\ Dashboard.inflight s' = Some (pageNum, shouldAppend)).
Proof.
  intros token es e s s'.
  assert (H : Feed.consistent s)
    by (apply run_consistent, mounted_consistent).
  destruct (step_requests e s) as [E|[Hf E]]; [left; exact E|].
  right; split; [|exact E].
  destruct H as (H1 & _).
  destruct (Dashboard.inflight s) eqn:Hi; [|reflexivity].
  assert (Dashboard.fetchingRef s = true) by (apply H1; discriminate).
  congruence.
Qed.

(** ** Retry *)

(** X9.  The retry delay is a capped exponential backoff: 1000 ms doubled
    with every retry so far, never above 10000 ms, never shrinking from
    one retry to the next; each retry counts one up and leaves one timer
    with that delay. *)
Theorem retry_delay_is_capped_backoff :
  forall (s : Dashboard.state),
    (0 <= Dashboard.retryCount s)%Z ->
    (1000 <= Dashboard.retry_delay s <= 10000)%Z
    /\ (Dashboard.retryCount s <= 3 ->
        Dashboard.retry_delay s = 1000 * 2 ^ Dashboard.retryCount s)%Z
    /\ (4 <= Dashboard.retryCount s -> Dashboard.retry_delay s = 10000)%Z
    /\ (Dashboard.retry_delay s
        <= Dashboard.retry_delay (Dashboard.handleRetry s))%Z
    /\ Dashboard.retryCount (Dashboard.handleRetry s)
       = (Dashboard.retryCount s + 1)%Z
    /\ Dashboard.timers (Dashboard.handleRetry s)
       = (Dashboard.retry_delay s, RetryFetch) :: Dashboard.timers s.
Proof.
  intros s H.
  unfold Dashboard.retry_delay, Dashboard.handleRetry, Dashboard.setTimeout,
    Dashboard.setRetryCount.
  cbn [Dashboard.retryCount Dashboard.timers].
  set (n := Dashboard.retryCount s) in *.
  assert (Hpos : (1 <= 2 ^ n)%Z) by (apply Z.lt_pred_le, Z.pow_pos_nonneg; lia).
  assert (Hmono : (2 ^ n <= 2 ^ (n + 1))%Z)
    by (apply Z.pow_le_mono_r; lia).
  split; [lia|]. split; [|split; [|split; [|split]]].
  - intros Hle.
    assert (Hb : (2 ^ n <= 2 ^ 3)%Z) by (apply Z.pow_le_mono_r; lia).
    change (2 ^ 3)%Z with 8%Z in Hb; lia.
  - intros Hge.
    assert (Hb : (2 ^ 4 <= 2 ^ n)%Z) by (apply Z.pow_le_mono_r; lia).
    change (2 ^ 4)%Z with 16%Z in Hb; lia.
  - lia.
  - reflexivity.
  - reflexivity.
Qed.

(** The third retry waits 4000 ms, the sixth 10000 ms. *)
Lemma retry_delay_is_capped_backoff_witness :
  let s2 := Dashboard.setRetryCount (fun _ => 2%Z) (feed_with []) in
  let s5 := Dashboard.setRetryCount (fun _ => 5%Z) (feed_with []) in
  (0 <= Dashboard.retryCount s2)%Z
  /\ (0 <= Dashboard.retryCount s5)%Z
  /\ Dashboard.retry_delay s2 = 4000%Z
  /\ Dashboard.retry_delay s5 = 10000%Z.
Proof.
  intros s2 s5.
  assert (H2 : (0 <= Dashboard.retryCount s2)%Z) by (vm_compute; discriminate).
  assert (H5 : (0 <= Dashboard.retryCount s5)%Z) by (vm_compute; discriminate).
  destruct (retry_delay_is_capped_backoff s2 H2) as (_ & E2 & _).
  destruct (retry_delay_is_capped_backoff s5 H5) as (_ & _ & E5 & _).
  refine (conj H2 (conj H5 (conj _ _))).
  - rewrite E2; vm_compute; [reflexivity | discriminate].
  - apply E5; vm_compute; discriminate.
Defined.

(** X10.  Retry starts over.  After a failed fetch, of the first page or
    of a later one, the retry timer asks for page 1 with the token that is
    stored then, and the answer replaces the whole list: posts of later
    pages and pushed posts that page 1 does not have are gone, the page
    number is 1 again, the error and the retry counter are cleared. *)
Theorem retry_reloads_the_first_page :
  forall (s : Dashboard.state) (c : Z * bool) (err : http_error)
         (res_posts : option (list Post)),
    Dashboard.isMountedRef s = true ->
    Dashboard.inflight s = Some c ->
    let s1 := Dashboard.fetchPosts_rejected err s in
    let s3 := Dashboard.retry_fire (Dashboard.handleRetry s1) in
    let s4 := Dashboard.fetchPosts_resolved res_posts s3 in
    Dashboard.requests s3
    = Dashboard.mkRequest 1 10 (Dashboard.authToken s1) :: Dashboard.requests s
    /\ Dashboard.inflight s3 = Some (1%Z, false)
    /\ Dashboard.posts s3 = Dashboard.posts s
    /\ Dashboard.posts s4 = posts_or_empty res_posts
    /\ Dashboard.page s4 = 1%Z
    /\ Dashboard.error s4 = PNull
    /\ Dashboard.retryCount s4 = 0%Z
    /\ Dashboard.loading s4 = false
    /\ Dashboard.hasMore s4
       = (10 <=? Z.of_nat (List.length (posts_or_empty res_posts)))%Z.
Proof.
  intros s c err res_posts Hm Hi s1 s3 s4.
  assert (E := fetchPosts_rejected_mounted err s Hm Hi); simpl in E.
  fold s1 in E.
  assert (E3 : s3
    = Dashboard.setInflight (Some (1%Z, false))
        (Dashboard.send (Dashboard.mkRequest 1 10 (Dashboard.authToken s1))
           (Dashboard.setError PNull
              (Dashboard.setLoading true
                 (Dashboard.setFetchingRef true
                    (Dashboard.setHasMore true
                       (Dashboard.setPage (fun _ => 1%Z)
                          (Dashboard.handleRetry s1)))))))).
  { subst s3; unfold Dashboard.retry_fire, Dashboard.fetchPosts.
    assert (Hf : Dashboard.fetchingRef s1 = false)
      by (rewrite E; destruct (is_auth_error err); reflexivity).
    simpl; rewrite Hf; reflexivity. }
  assert (Hm1 : Dashboard.isMountedRef s1 = true)
    by (rewrite E; destruct (is_auth_error err); exact Hm).
  assert (Hr : Dashboard.requests s1 = Dashboard.requests s)
    by (rewrite E; destruct (is_auth_error err); reflexivity).
  assert (Hp : Dashboard.posts s1 = Dashboard.posts s)
    by apply fetchPosts_rejected_posts.
  split; [rewrite E3; simpl; rewrite Hr; reflexivity|].
  split; [rewrite E3; reflexivity|].
  split; [rewrite E3; simpl; exact Hp|].
  subst s4; rewrite E3; unfold Dashboard.fetchPosts_resolved; simpl.
  rewrite Hm1; simpl; unfold Dashboard.fetchPosts_finally; simpl.
  rewrite Hm1; simpl; repeat split.
Qed.

(** Page 2 fails after D was pushed; the retry brings the feed back to
    the ten posts of page 1. *)
Lemma retry_reloads_the_first_page_witness :
  let s := Feed.run [Feed.Socket (PostCreated (Obj postD))]
             (feed_awaiting_page2 page1) in
  let err := mkError None (PStr (js "timeout of 15000ms exceeded")) in
  Dashboard.isMountedRef s = true
  /\ Dashboard.inflight s = Some (2%Z, true)
  /\ Dashboard.posts s = postD :: page1
  /\ Dashboard.posts
       (Dashboard.fetchPosts_resolved (Some page1)
          (Dashboard.retry_fire
             (Dashboard.handleRetry (Dashboard.fetchPosts_rejected err s))))
     = page1.
Proof.
  intros s err.
  assert (Hm : Dashboard.isMountedRef s = true) by (vm_compute; reflexivity).
  assert (Hi : Dashboard.inflight s = Some (2%Z, true))
    by (vm_compute; reflexivity).
  assert (Hp : Dashboard.posts s = postD :: page1) by (vm_compute; reflexivity).
  destruct (retry_reloads_the_first_page s err (Some page1) Hm Hi)
    as (_ & _ & _ & H & _).
  exact (conj Hm (conj Hi (conj Hp H))).
Defined.

(** X11.  After a failed page advance the feed keeps its posts and shows,
    below them, both the end-of-feed message and the inline error with
    its retry button: the failure has switched [hasMore] off. *)
Theorem failed_page_advance_shows_end_of_feed :
  forall (s : Dashboard.state) (c : Z * bool) (err : http_error),
    Dashboard.isMountedRef s = true ->
    Dashboard.inflight s = Some c ->
    Dashboard.posts s <> [] ->
    exists f : Dashboard.feed_view,
      Dashboard.render (Dashboard.fetchPosts_rejected err s) = Dashboard.Feed f
      /\ Dashboard.shown f = Dashboard.posts s
      /\ Dashboard.caught_up f = true
      /\ Dashboard.inline_retry f = true
      /\ Dashboard.inline_retry_disabled f = false
      /\ Dashboard.paging_spinner f = false
      /\ Dashboard.empty_state f = false.
Proof.
  intros s c err Hm Hi Hne.
  assert (E := fetchPosts_rejected_mounted err s Hm Hi); simpl in E.
  assert (Ht : truthy (or_else (or_else (error_data_message err) (message err))
                         (PStr (js "Failed to load posts"))) = true)
    by (apply or_else_truthy; reflexivity).
  rewrite E; unfold Dashboard.render.
  destruct (Dashboard.posts s) as [|p l] eqn:Hp; [congruence|].
  destruct (is_auth_error err); simpl; rewrite Hp, Ht; simpl;
    eexists; (split; [reflexivity|]); simpl; rewrite ?Hp; repeat split.
Qed.

Lemma failed_page_advance_shows_end_of_feed_witness :
  let s := feed_awaiting_page2 page1 in
  let err := mkError None (PStr (js "Network Error")) in
  Dashboard.isMountedRef s = true
  /\ Dashboard.inflight s = Some (2%Z, true)
  /\ Dashboard.posts s <> []
  /\ exists f,
       Dashboard.render (Dashboard.fetchPosts_rejected err s) = Dashboard.Feed f
       /\ Dashboard.caught_up f = true
       /\ Dashboard.inline_retry f = true.
Proof.
  intros s err.
  assert (Hm : Dashboard.isMountedRef s = true) by (vm_compute; reflexivity).
  assert (Hi : Dashboard.inflight s = Some (2%Z, true))
    by (vm_compute; reflexivity).
  assert (Hne : Dashboard.posts s <> []) by (vm_compute; discriminate).
  destruct (failed_page_advance_shows_end_of_feed s err Hm Hi Hne)
    as (f & Hf & _ & Hc & Hr & _).
  refine (conj Hm (conj Hi (conj Hne _))).
  exists f; auto.
Defined.

(** ** Saving an edit *)

Lemma save_disabled_after_reset : forall s b,
  PostCard.save_disabled
    (PostCard.setEditContent (PostCard.content_or_empty (PostCard.post s))
       (PostCard.setIsEditing b s)) = true.
Proof.
  intros s b; unfold PostCard.save_disabled, PostCard.content_or_empty,
    PostCard.is_content; simpl.
  destruct (content (PostCard.post s)) as [c|]; simpl.
  - assert (E : jsstr_eqb c c = true) by (apply jsstr_eqb_iff; reflexivity).
    rewrite E; apply orb_true_r.
  - rewrite orb_true_r; reflexivity.
Qed.

(** X12.  A second click on Save never sends a second request.  While the
    PUT is awaited the button is disabled; and a click that closed the
    editor, was refused for its length or failed before the request
    leaves a card on which the next click sends nothing either. *)
Theorem second_save_click_sends_nothing :
  forall (s : PostCard.state),
    PostCard.puts (PostCard.save_click (PostCard.save_click s))
    = PostCard.puts (PostCard.save_click s)
    /\ (PostCard.puts (PostCard.save_click s) <> PostCard.puts s ->
        PostCard.isSaving (PostCard.save_click s) = true
        /\ PostCard.save_disabled (PostCard.save_click s) = true
        /\ PostCard.save_click (PostCard.save_click s) = PostCard.save_click s).
Proof.
  intros s.
  assert (Hsent : PostCard.puts (PostCard.save_click s) <> PostCard.puts s ->
                  PostCard.isSaving (PostCard.save_click s) = true).
  { unfold PostCard.save_click.
    destruct (PostCard.save_disabled s); [intros H; exfalso; apply H; reflexivity|].
    unfold PostCard.handleEdit.
    destruct (_ || _); [intros H; exfalso; apply H; reflexivity|].
    destruct (5000 <? _)%Z; [intros H; exfalso; apply H; reflexivity|].
    cbv zeta; cbn [PostCard.authToken PostCard.currentUser PostCard.setIsSaving].
    destruct (PostCard.authToken s) as [[|c t]|]; simpl;
      try (intros H; exfalso; apply H; reflexivity).
    destruct (PostCard.currentUser s); simpl;
      [reflexivity | intros H; exfalso; apply H; reflexivity]. }
  assert (Hdis : forall x, PostCard.isSaving x = true ->
                           PostCard.save_click x = x).
  { intros x Hx; unfold PostCard.save_click, PostCard.save_disabled.
    rewrite Hx; reflexivity. }
  split.
  - set (x := PostCard.save_click s).
    assert (Ex : x = if PostCard.save_disabled s then s
                     else PostCard.handleEdit s) by reflexivity.
    clearbody x; unfold PostCard.handleEdit in Ex; cbv zeta in Ex.
    cbn [PostCard.authToken PostCard.currentUser PostCard.setIsSaving] in Ex.
    set (t := PostCard.trim (PostCard.editContent s)) in *.
    destruct (PostCard.save_disabled s) eqn:Hd.
    { subst x; unfold PostCard.save_click; rewrite Hd; reflexivity. }
    destruct (PostCard.is_empty_str t || PostCard.is_content t (PostCard.post s))
      eqn:H1.
    { subst x; unfold PostCard.save_click.
      rewrite save_disabled_after_reset; reflexivity. }
    assert (Hagain : forall y,
              PostCard.editContent y = PostCard.editContent s ->
              PostCard.post y = PostCard.post s ->
              PostCard.authToken y = PostCard.authToken s ->
              PostCard.currentUser y = PostCard.currentUser s ->
              (5000 <? Z.of_nat (List.length t))%Z = true
              \/ PostCard.authToken s = None
              \/ PostCard.authToken s = Some []
              \/ PostCard.currentUser s = None ->
              PostCard.puts (PostCard.save_click y) = PostCard.puts y).
    { intros y Hy1 Hy2 Hy3 Hy4 Hwhy; unfold PostCard.save_click.
      destruct (PostCard.save_disabled y); [reflexivity|].
      unfold PostCard.handleEdit; cbv zeta.
      cbn [PostCard.authToken PostCard.currentUser PostCard.setIsSaving].
      rewrite Hy1, Hy2, Hy3, Hy4; fold t; rewrite H1.
      destruct (5000 <? Z.of_nat (List.length t))%Z eqn:H2; [reflexivity|].
      destruct (PostCard.authToken s) as [[|c tok]|] eqn:Ht; try reflexivity.
      destruct (PostCard.currentUser s) eqn:Hu; [|reflexivity].
      destruct Hwhy as [H|[H|[H|H]]]; discriminate. }
    destruct (5000 <? Z.of_nat (List.length t))%Z eqn:H2.
    { subst x; apply Hagain; auto. }
    destruct (PostCard.authToken s) as [[|c tok]|] eqn:Ht.
    + subst x; apply Hagain; auto.
    + destruct (PostCard.currentUser s) eqn:Hu.
      * subst x; apply f_equal, Hdis; reflexivity.
      * subst x; apply Hagain; auto.
    + subst x; apply Hagain; auto.
  - intros H; assert (Hs := Hsent H).
    split; [exact Hs|]. split; [|apply Hdis; exact Hs].
    unfold PostCard.save_disabled; rewrite Hs; reflexivity.
Qed.

Lemma second_save_click_sends_nothing_witness :
  PostCard.puts (PostCard.save_click editing_card) <> PostCard.puts editing_card
  /\ List.length
       (PostCard.puts (PostCard.save_click (PostCard.save_click editing_card)))
     = 1.
Proof.
  assert (H : PostCard.puts (PostCard.save_click editing_card)
              <> PostCard.puts editing_card) by (vm_compute; discriminate).
  destruct (second_save_click_sends_nothing editing_card) as [E Hs].
  destruct (Hs H) as (_ & _ & E').
  split; [exact H|].
  rewrite E'; vm_compute; reflexivity.
Defined.



(** ** Deleting a post *)

Lemma handleDelete_cases : forall c s,
  let s' := CardMenu.handleDelete c s in
  (c = false /\ s' = s)
  \/ (c = true
      /\ exists msg,
           s' = CardMenu.setIsDeleting false
                  (CardMenu.emit (CardMenu.Alert msg)
                     (CardMenu.setIsDeleting true s)))
  \/ (c = true
      /\ exists u token,
           CardMenu.currentUser s = Some u
           /\ CardMenu.authToken s = Some token
           /\ token <> []
           /\ s' = CardMenu.setAwaited true
                     (CardMenu.emit
                        (CardMenu.Delete (_id (CardMenu.post s)) u token)
                        (CardMenu.setIsDeleting true s))).
Proof.
  intros c s s'; subst s'; unfold CardMenu.handleDelete.
  destruct c; simpl; [|left; auto].
  destruct (CardMenu.authToken s) as [[|ch token]|] eqn:Ht.
  - right; left; split; [reflexivity|]; eexists; reflexivity.
  - destruct (CardMenu.currentUser s) as [u|] eqn:Hu.
    + right; right; split; [reflexivity|].
      exists u, (ch :: token); repeat split; discriminate.
    + right; left; split; [reflexivity|]; eexists; reflexivity.
  - right; left; split; [reflexivity|]; eexists; reflexivity.
Qed.

(** X14.  [handleDelete] does nothing without the confirmation.  It sends
    a DELETE only when confirmed, with a non-empty stored token and a
    signed-in user, and that request names the card's post, the user and
    the token; [onPostDeleted] is not called before the server has
    answered.  While the card is deleting, the Delete entry is not
    offered, so a second click sends nothing.  When the DELETE is
    answered, [onPostDeleted] gets the post's identifier once; when it
    fails, the user is told, the card is offered again and the callback is
    not called. *)
Theorem delete_is_confirmed_and_sent_once :
  forall (s : CardMenu.state) (c : bool),
    let s' := CardMenu.handleDelete c s in
    CardMenu.post s' = CardMenu.post s
    /\ CardMenu.callbacks s' = CardMenu.callbacks s
    /\ (c = false -> s' = s)
    /\ (CardMenu.deletes s' <> CardMenu.deletes s ->
        c = true
        /\ CardMenu.isDeleting s' = true
        /\ (forall c2, CardMenu.delete_click c2 s' = s')
        /\ exists u token,
             CardMenu.currentUser s = Some u
             /\ CardMenu.authToken s = Some token
             /\ token <> []
             /\ CardMenu.effects s'
                = CardMenu.Delete (_id (CardMenu.post s)) u token
                  :: CardMenu.effects s
             /\ CardMenu.effects (CardMenu.handleDelete_resolved s')
                = CardMenu.OnPostDeleted (_id (CardMenu.post s))
                  :: CardMenu.effects s'
             /\ (forall err,
                   let s'' := CardMenu.handleDelete_rejected err s' in
                   CardMenu.isDeleting s'' = false
                   /\ CardMenu.callbacks s'' = CardMenu.callbacks s
                   /\ CardMenu.deletes s'' = CardMenu.deletes s'
                   /\ exists msg, truthy msg = true
                        /\ CardMenu.effects s''
                           = CardMenu.Alert msg :: CardMenu.effects s')).
Proof.
  intros s c s'.
  destruct (handleDelete_cases c s) as [[Hc E]|[[Hc [msg E]]|[Hc E]]];
    fold s' in E.
  - rewrite E.
    split; [reflexivity|]. split; [reflexivity|]. split; [reflexivity|].
    intros Hd; exfalso; apply Hd; reflexivity.
  - rewrite E; simpl.
    split; [reflexivity|]. split; [reflexivity|].
    split; [intros; congruence|].
    intros Hd; exfalso; apply Hd; reflexivity.
  - destruct E as (u & token & Hu & Ht & Hne & E).
    rewrite E; simpl.
    split; [reflexivity|]. split; [reflexivity|].
    split; [intros; congruence|].
    intros _; split; [assumption|]. split; [reflexivity|].
    split.
    { intros c2; unfold CardMenu.delete_click, CardMenu.delete_offered; simpl.
      rewrite andb_false_r; reflexivity. }
    exists u, token; repeat split; auto.
    eexists; split; [|reflexivity].
    apply or_else_truthy; reflexivity.
Qed.

(** A card of post A, shown to its signed-in author, with the menu open. *)
Lemma delete_is_confirmed_and_sent_once_witness :
  let s := CardMenu.mkState postA false true (Some (PStr (js "u1")))
             (Some (js "token")) false [] in
  CardMenu.deletes (CardMenu.delete_click true s) <> CardMenu.deletes s
  /\ CardMenu.delete_click true (CardMenu.delete_click true s)
     = CardMenu.delete_click true s
  /\ CardMenu.delete_click false s = s.
Proof.
  intros s.
  assert (E : CardMenu.delete_click true s = CardMenu.handleDelete true s)
    by (vm_compute; reflexivity).
  assert (E0 : CardMenu.delete_click false s = CardMenu.handleDelete false s)
    by (vm_compute; reflexivity).
  assert (H : CardMenu.deletes (CardMenu.handleDelete true s)
              <> CardMenu.deletes s) by (vm_compute; discriminate).
  destruct (delete_is_confirmed_and_sent_once s true) as (_ & _ & _ & Hd).
  destruct (Hd H) as (_ & _ & Hagain & _).
  destruct (delete_is_confirmed_and_sent_once s false) as (_ & _ & Hno & _).
  rewrite E, E0; refine (conj H (conj (Hagain true) (Hno eq_refl))).
Defined.

(** X15.  The round trip of a deletion.  The feed's own callback, called
    with the identifier of the deleted post, leaves in the screen's list
    no entry with that identifier and keeps every other entry, in order,
    changing nothing but the list; the [post:deleted] event for the same
    post, arriving later with the identifier bare or in an object,
    changes nothing more.  The profile's callback does the same to the
    profile's list, and there the later event that carries the post as
    an object changes nothing more. *)
Theorem delete_round_trip :
  forall (feed : Dashboard.state) (profile : Profile.state) (i : prim) (o : Post),
    truthy i = true ->
    _id o = i ->
    let feed' := DashboardCard.handlePostDeleted i feed in
    let profile' := ProfileCard.handlePostDeleted i profile in
    ~ In i (ids (Dashboard.posts feed'))
    /\ Dashboard.posts feed'
       = filter (fun p => negb (strict_eq (_id p) i)) (Dashboard.posts feed)
    /\ (forall p, In p (Dashboard.posts feed) -> _id p <> i ->
                  In p (Dashboard.posts feed'))
    /\ feed' = Dashboard.setPosts (fun _ => Dashboard.posts feed') feed
    /\ feed_listener (PostDeleted (Prim i)) feed' = Done feed'
    /\ feed_listener (PostDeleted (Obj o)) feed' = Done feed'
    /\ ~ In i (ids (Profile.posts profile'))
    /\ Profile.posts profile'
       = filter (fun p => negb (strict_eq (_id p) i)) (Profile.posts profile)
    /\ (forall p, In p (Profile.posts profile) -> _id p <> i ->
                  In p (Profile.posts profile'))
    /\ profile' = Profile.setPosts (fun _ => Profile.posts profile') profile
    /\ (forall u, profile_listener u (PostDeleted (Obj o)) profile'
                  = Done profile').
Proof.
  intros feed profile i o Ht Ho feed' profile'.
  assert (Hf : ~ In i (ids (Dashboard.posts feed'))) by apply deleted_removes.
  assert (Hp : ~ In i (ids (Profile.posts profile'))) by apply deleted_removes.
  split; [exact Hf|]. split; [reflexivity|].
  split; [intros p Hin Hne; apply deleted_keeps_others; assumption|].
  split; [reflexivity|].
  split.
  { simpl; rewrite (feed_deleted_wf (d := Prim i) feed' Ht (or_introl eq_refl)).
    f_equal; apply feed_setPosts_same, deleted_absent; exact Hf. }
  split.
  { simpl; rewrite (feed_deleted_wf (d := Obj o) (i := i) feed' Ht);
      [|right; exists o; auto].
    f_equal; apply feed_setPosts_same, deleted_absent; exact Hf. }
  split; [exact Hp|]. split; [reflexivity|].
  split; [intros p Hin Hne; apply deleted_keeps_others; assumption|].
  split; [reflexivity|].
  intros u; simpl; rewrite profile_deleted_object, Ho; f_equal.
  apply profile_setPosts_same, deleted_absent; exact Hp.
Qed.

(** B is deleted from a card of the feed [A,B,C] and from a card of the
    profile [A,B,C]. *)
Lemma delete_round_trip_witness :
  truthy (_id postB) = true
  /\ Dashboard.posts
       (DashboardCard.handlePostDeleted (_id postB) (feed_with [postA; postB; postC]))
     = [postA; postC]
  /\ Profile.posts
       (ProfileCard.handlePostDeleted (_id postB)
          (profile_with [postA; postB; postC]))
     = [postA; postC].
Proof.
  assert (Ht : truthy (_id postB) = true) by reflexivity.
  destruct (delete_round_trip (feed_with [postA; postB; postC])
              (profile_with [postA; postB; postC]) postB Ht eq_refl)
    as (_ & E & _ & _ & _ & _ & _ & E' & _).
  refine (conj Ht (conj _ _)).
  - rewrite E; vm_compute; reflexivity.
  - rewrite E'; vm_compute; reflexivity.
Defined.

(** X16.  Ownership is decided by [currentUser?.uid === post.user?.uid]:
    with nobody signed in, a post without author counts as the viewer's
    own and the menu is offered.  Neither Delete nor Save then reaches
    the server: both end in an alert. *)
Theorem signed_out_viewer_owns_authorless_posts :
  forall (s : CardMenu.state) (e : PostCard.state) (c : bool),
    CardMenu.currentUser s = None ->
    user (CardMenu.post s) = None ->
    PostCard.currentUser e = None ->
    CardMenu.isOwner s = true
    /\ CardMenu.deletes (CardMenu.handleDelete c s) = CardMenu.deletes s
    /\ CardMenu.awaitingDelete (CardMenu.handleDelete c s)
       = CardMenu.awaitingDelete s
    /\ PostCard.puts (PostCard.handleEdit e) = PostCard.puts e
    /\ PostCard.awaitingPut (PostCard.handleEdit e) = PostCard.awaitingPut e.
Proof.
  intros s e c Hu Hp He.
  split; [unfold CardMenu.isOwner, CardMenu.currentUser_uid, user_uid;
          rewrite Hu, Hp; reflexivity|].
  assert (Hd : CardMenu.deletes (CardMenu.handleDelete c s) = CardMenu.deletes s
               /\ CardMenu.awaitingDelete (CardMenu.handleDelete c s)
                  = CardMenu.awaitingDelete s).
  { unfold CardMenu.handleDelete; destruct c; simpl; [|split; reflexivity].
    rewrite Hu; destruct (CardMenu.authToken s) as [[|ch t]|]; split;
      reflexivity. }
  destruct Hd as [Hd1 Hd2].
  split; [exact Hd1|]. split; [exact Hd2|].
  unfold PostCard.handleEdit; cbv zeta.
  cbn [PostCard.authToken PostCard.currentUser PostCard.setIsSaving].
  rewrite He.
  destruct (_ || _); [split; reflexivity|].
  destruct (5000 <? _)%Z; [split; reflexivity|].
  destruct (PostCard.authToken e) as [[|ch t]|]; split; reflexivity.
Qed.

(** A post without author, seen by a visitor who is not signed in. *)
Lemma signed_out_viewer_owns_authorless_posts_witness :
  let p := mkPost (PStr (js "Z")) None (Some (js "z")) in
  let s := CardMenu.mkState p false true None (Some (js "token")) false [] in
  let e := PostCard.mkState p true (js "new") false None (Some (js "token"))
             false [] in
  CardMenu.currentUser s = None
  /\ user (CardMenu.post s) = None
  /\ PostCard.currentUser e = None
  /\ CardMenu.delete_offered s = true
  /\ CardMenu.deletes (CardMenu.delete_click true s) = [].
Proof.
  intros p s e.
  destruct (@signed_out_viewer_owns_authorless_posts s e true
              eq_refl eq_refl eq_refl) as (Ho & Hd & _).
  assert (Hoff : CardMenu.delete_offered s = true)
    by (unfold CardMenu.delete_offered; rewrite Ho; reflexivity).
  refine (conj eq_refl (conj eq_refl (conj eq_refl (conj Hoff _)))).
  unfold CardMenu.delete_click; rewrite Hoff, Hd; reflexivity.
Defined.

(** ** Creating a post *)

Lemma submit_cases : forall s m,
  (m = None /\ PostForm.blank (PostForm.content s) = true
   /\ PostForm.submit m s
      = PostForm.emit (PostForm.Alert (js "Please add text or upload media")) s)
  \/ ((PostForm.blank (PostForm.content s) = false \/ m <> None)
      /\ PostForm.currentUser s = None
      /\ PostForm.submit m s
         = PostForm.emit (PostForm.Alert (js "Please log in first.")) s)
  \/ ((PostForm.blank (PostForm.content s) = false \/ m <> None)
      /\ exists u body,
           PostForm.currentUser s = Some u
           /\ PostForm.submit m s
              = PostForm.emit (PostForm.PostRequest body (PostForm.authToken s)) s
           /\ PostForm.userId body = u
           /\ PostForm.pd_content body = PostCard.trim (PostForm.content s)
           /\ match m with
              | None =>
                  PostForm.mediaType body = js "text"
                  /\ PostForm.imageUrl body = PNull
                  /\ PostForm.videoUrl body = PNull
              | Some (PostForm.mkMedia url PostForm.Image) =>
                  PostForm.mediaType body = js "image"
                  /\ PostForm.imageUrl body = url
                  /\ PostForm.videoUrl body = PNull
              | Some (PostForm.mkMedia url PostForm.Video) =>
                  PostForm.mediaType body = js "video"
                  /\ PostForm.imageUrl body = PNull
                  /\ PostForm.videoUrl body = url
              end).
Proof.
  intros s m; unfold PostForm.submit.
  destruct (PostForm.blank (PostForm.content s)) eqn:Hb.
  - destruct m as [[url r]|].
    + destruct (PostForm.currentUser s) as [u|] eqn:Hu.
      * right; right; split; [right; discriminate|].
        destruct r; exists u; eexists;
          (split; [reflexivity|]); (split; [reflexivity|]); repeat split.
      * right; left; split; [right; discriminate | auto].
    + left; auto.
  - assert (Hor : false = false \/ m <> None) by auto.
    destruct (PostForm.currentUser s) as [u|] eqn:Hu.
    + right; right; split; [exact Hor|].
      destruct m as [[url [|]]|]; exists u; eexists;
        (split; [reflexivity|]); (split; [reflexivity|]); repeat split.
    + right; left; split; [exact Hor|]; split; [reflexivity|].
      destruct m as [[url r]|]; reflexivity.
Qed.

(** X17.  The form sends a POST exactly when there is text that is not
    blank or an uploaded medium, and a user is signed in; a stored token
    is not required.  The body carries the trimmed text and the user;
    its media type is "text" without a medium and the medium's type with
    one, and of the two URL fields only the one of that type is set. *)
Theorem submit_sends_only_valid_posts :
  forall (s : PostForm.state) (m : option PostForm.media),
    let s' := PostForm.submit m s in
    (PostForm.posts_sent s' <> PostForm.posts_sent s
     <-> (PostForm.blank (PostForm.content s) = false \/ m <> None)
         /\ PostForm.currentUser s <> None)
    /\ (PostForm.posts_sent s' <> PostForm.posts_sent s ->
        exists u body,
          PostForm.currentUser s = Some u
          /\ PostForm.effects s'
             = PostForm.PostRequest body (PostForm.authToken s)
               :: PostForm.effects s
          /\ PostForm.userId body = u
          /\ PostForm.pd_content body = PostCard.trim (PostForm.content s)
          /\ match m with
             | None =>
                 PostForm.mediaType body = js "text"
                 /\ PostForm.imageUrl body = PNull
                 /\ PostForm.videoUrl body = PNull
             | Some (PostForm.mkMedia url PostForm.Image) =>
                 PostForm.mediaType body = js "image"
                 /\ PostForm.imageUrl body = url
                 /\ PostForm.videoUrl body = PNull
             | Some (PostForm.mkMedia url PostForm.Video) =>
                 PostForm.mediaType body = js "video"
                 /\ PostForm.imageUrl body = PNull
                 /\ PostForm.videoUrl body = url
             end).
Proof.
  intros s m s'; subst s'.
  assert (Hcons : forall (e : PostForm.effect) (l : list PostForm.effect),
                    e :: l <> l).
  { intros e l H; apply (f_equal (@List.length _)) in H; simpl in H; lia. }
  destruct (submit_cases s m)
    as [(Hm & Hb & E)|[(Hor & Hu & E)|(Hor & u & body & Hu & E & Hbody)]];
    rewrite E; unfold PostForm.posts_sent; simpl.
  - split; [split|].
    + intros H; exfalso; apply H; reflexivity.
    + intros [[H|H] _]; congruence.
    + intros H; exfalso; apply H; reflexivity.
  - split; [split|].
    + intros H; exfalso; apply H; reflexivity.
    + intros [_ H]; congruence.
    + intros H; exfalso; apply H; reflexivity.
  - split; [split|].
    + intros _; split; [exact Hor | congruence].
    + intros _; apply Hcons.
    + intros _; exists u, body; split; [exact Hu|].
      split; [reflexivity | exact Hbody].
Qed.

Lemma submit_sends_only_valid_posts_witness :
  let s := PostForm.mkState (js " hi ") None [] false (Some (PStr (js "u1")))
             None false [] in
  PostForm.posts_sent (PostForm.submit None s) <> PostForm.posts_sent s
  /\ exists body,
       PostForm.effects (PostForm.submit None s)
       = [PostForm.PostRequest body None]
       /\ PostForm.pd_content body = js "hi".
Proof.
  intros s.
  assert (H : PostForm.posts_sent (PostForm.submit None s)
              <> PostForm.posts_sent s) by (vm_compute; discriminate).
  destruct (submit_sends_only_valid_posts s None) as [_ Hbody].
  destruct (Hbody H) as (u & body & _ & E & _ & Hc & _).
  split; [exact H|].
  exists body; split; [exact E|].
  rewrite Hc; vm_compute; reflexivity.
Defined.

(** X18.  A failed upload does not stop the submission.  The user is
    told that the upload failed and [uploading] ends; then, with text
    that is not blank and a signed-in user, the post is sent as a text
    post without any media URL, and with blank text the form asks for
    text or media and sends nothing. *)
Theorem failed_upload_sends_text_only :
  forall (s : PostForm.state),
    let s' := PostForm.upload_rejected s in
    PostForm.uploading s' = false
    /\ (PostForm.blank (PostForm.content s) = true ->
        PostForm.effects s'
        = PostForm.Alert (js "Please add text or upload media")
          :: PostForm.Alert (js "Upload failed. Please try again.")
          :: PostForm.effects s)
    /\ (PostForm.blank (PostForm.content s) = false ->
        forall u, PostForm.currentUser s = Some u ->
        PostForm.effects s'
        = PostForm.PostRequest
            (PostForm.mkPostData u (PostCard.trim (PostForm.content s))
               (js "text") PNull PNull)
            (PostForm.authToken s)
          :: PostForm.Alert (js "Upload failed. Please try again.")
          :: PostForm.effects s).
Proof.
  intros s s'; subst s'; unfold PostForm.upload_rejected, PostForm.submit.
  simpl; split; [|split].
  - destruct (PostForm.blank (PostForm.content s)); [reflexivity|].
    destruct (PostForm.currentUser s); reflexivity.
  - intros Hb; rewrite Hb; reflexivity.
  - intros Hb u Hu; rewrite Hb, Hu; reflexivity.
Qed.

(** A picture and a caption; the upload fails. *)
Lemma failed_upload_sends_text_only_witness :
  let s := PostForm.mkState (js "my cat") (Some (PostForm.mkFile (js "image/png")))
             (js "blob:1") true (Some (PStr (js "u1"))) (Some (js "token"))
             false [PostForm.Upload PostForm.Image
                      (PostForm.mkFile (js "image/png"))] in
  PostForm.blank (PostForm.content s) = false
  /\ PostForm.currentUser s = Some (PStr (js "u1"))
  /\ List.length (PostForm.posts_sent (PostForm.upload_rejected s)) = 1.
Proof.
  intros s.
  assert (Hb : PostForm.blank (PostForm.content s) = false)
    by (vm_compute; reflexivity).
  destruct (failed_upload_sends_text_only s) as (_ & _ & H).
  assert (E := H Hb (PStr (js "u1")) eq_refl).
  refine (conj Hb (conj eq_refl _)).
  unfold PostForm.posts_sent; rewrite E; reflexivity.
Defined.

(** X19.  The submit button is disabled during an upload but not while
    the POST is awaited: a second click on a text post sends the same
    body again.  When the POST is answered the form is emptied and the
    button disabled; when it fails the text and the file are kept. *)
Theorem pending_post_can_be_sent_twice :
  forall (s : PostForm.state) (u : prim),
    PostForm.file s = None ->
    PostForm.blank (PostForm.content s) = false ->
    PostForm.uploading s = false ->
    PostForm.currentUser s = Some u ->
    let body := PostForm.mkPostData u (PostCard.trim (PostForm.content s))
                  (js "text") PNull PNull in
    let s1 := PostForm.submit_click s in
    PostForm.effects s1
    = PostForm.PostRequest body (PostForm.authToken s) :: PostForm.effects s
    /\ PostForm.effects (PostForm.submit_click s1)
       = PostForm.PostRequest body (PostForm.authToken s)
         :: PostForm.PostRequest body (PostForm.authToken s)
         :: PostForm.effects s
    /\ PostForm.content (PostForm.post_resolved s1) = []
    /\ PostForm.file (PostForm.post_resolved s1) = None
    /\ PostForm.submit_click (PostForm.post_resolved s1)
       = PostForm.post_resolved s1
    /\ PostForm.content (PostForm.post_rejected s1) = PostForm.content s
    /\ PostForm.file (PostForm.post_rejected s1) = PostForm.file s.
Proof.
  intros s u Hf Hb Hup Hu body s1.
  assert (E1 : s1 = PostForm.emit
                      (PostForm.PostRequest body (PostForm.authToken s)) s).
  { subst s1; unfold PostForm.submit_click, PostForm.submit_disabled.
    rewrite Hup, Hb; simpl.
    unfold PostForm.handleSubmit, PostForm.submit; rewrite Hf, Hb, Hu.
    reflexivity. }
  split; [rewrite E1; reflexivity|].
  split.
  { rewrite E1; unfold PostForm.submit_click, PostForm.submit_disabled; simpl.
    rewrite Hup, Hb; simpl.
    unfold PostForm.handleSubmit, PostForm.submit; simpl.
    rewrite Hf, Hb, Hu; reflexivity. }
  assert (Hempty : forall x,
            PostForm.submit_click
              (PostForm.setPreview [] (PostForm.setFile None
                 (PostForm.setContent [] x)))
            = PostForm.setPreview [] (PostForm.setFile None
                 (PostForm.setContent [] x))).
  { intros x; unfold PostForm.submit_click, PostForm.submit_disabled; simpl.
    rewrite orb_true_r; reflexivity. }
  unfold PostForm.post_resolved; simpl.
  destruct (PostForm.onPostCreated s1); simpl; repeat split;
    try (rewrite E1; reflexivity).
  - unfold PostForm.submit_click, PostForm.submit_disabled; simpl.
    rewrite orb_true_r; reflexivity.
  - apply Hempty.
Qed.

Lemma pending_post_can_be_sent_twice_witness :
  let s := PostForm.mkState (js "hello") None [] false (Some (PStr (js "u1")))
             (Some (js "token")) false [] in
  PostForm.file s = None
  /\ PostForm.blank (PostForm.content s) = false
  /\ PostForm.uploading s = false
  /\ PostForm.currentUser s = Some (PStr (js "u1"))
  /\ List.length
       (PostForm.posts_sent (PostForm.submit_click (PostForm.submit_click s)))
     = 2.
Proof.
  intros s.
  assert (Hb : PostForm.blank (PostForm.content s) = false)
    by (vm_compute; reflexivity).
  destruct (@pending_post_can_be_sent_twice s (PStr (js "u1"))
              eq_refl Hb eq_refl eq_refl) as (_ & E & _).
  refine (conj eq_refl (conj Hb (conj eq_refl (conj eq_refl _)))).
  unfold PostForm.posts_sent; rewrite E; reflexivity.
Defined.

(** ** The profile screen *)

Lemma profile_listener_authors : forall u e t,
  Forall (fun p => user_uid p = PStr (Profile.p_uid u)) (Profile.posts t) ->
  Forall (fun p => user_uid p = PStr (Profile.p_uid u))
    (Profile.posts (match profile_listener u e t with
                    | Done t' => t'
                    | TypeError => t
                    end)).
Proof.
  intros u e t H; destruct e as [d|d|d]; simpl.
  - unfold Profile.handlePostCreated.
    destruct (Profile.get_user_uid d) as [w|] eqn:Hw; [|assumption].
    destruct (strict_eq w (PStr (Profile.p_uid u))) eqn:E; [|assumption].
    destruct d as [v|o]; [assumption|]; simpl.
    apply strict_eq_true_iff in E; simpl in Hw; inversion Hw; subst w.
    destruct (created_cons_or_same o (Profile.posts t)) as [E'|E']; rewrite E';
      [assumption | constructor; assumption].
  - unfold Profile.handlePostUpdated.
    destruct (Profile.get_user_uid d) as [w|] eqn:Hw; [|assumption].
    destruct (strict_eq w (PStr (Profile.p_uid u))) eqn:E; [|assumption].
    destruct d as [v|o]; [assumption|]; simpl.
    apply strict_eq_true_iff in E; simpl in Hw; inversion Hw; subst w.
    unfold Reconcile.updated; apply Forall_map.
    apply (Forall_impl _ (P := fun p => user_uid p = PStr (Profile.p_uid u)));
      [|assumption].
    intros p Hp; destruct (strict_eq (_id p) (_id o)); assumption.
  - unfold Profile.handlePostDeleted.
    destruct (get_id d) as [i|]; [|assumption]; simpl.
    unfold Reconcile.deleted; apply Forall_forall; intros p Hp.
    apply filter_In in Hp; destruct Hp as [Hp _].
    apply (proj1 (Forall_forall _ _) H p Hp).
Qed.

(** X20.  The push listeners of the profile screen keep the list the
    user's own: when every listed post is by the profile's user, it is so
    after any sequence of push events, whoever wrote the posts they
    carry and whatever their payloads are. *)
Theorem profile_list_stays_the_users :
  forall (u : Profile.ProfileUser) (es : list push) (t : Profile.state),
    Forall (fun p => user_uid p = PStr (Profile.p_uid u)) (Profile.posts t) ->
    Forall (fun p => user_uid p = PStr (Profile.p_uid u))
      (Profile.posts (profile_deliver u es t)).
Proof.
  intros u es; induction es as [|e es IH]; intros t H; simpl; [assumption|].
  apply IH, profile_listener_authors; assumption.
Qed.

Lemma profile_list_stays_the_users_witness :
  let es := [PostCreated (Obj postX); PostCreated (Obj postD);
             PostUpdated (Obj postX); PostDeleted (Prim PNull);
             PostUpdated (Obj postA')] in
  Forall (fun p => user_uid p = PStr (Profile.p_uid user1))
    (Profile.posts (profile_with [postA; postB]))
  /\ Profile.posts (profile_deliver user1 es (profile_with [postA; postB]))
     = [postD; postA'; postB]
  /\ Forall (fun p => user_uid p = PStr (Profile.p_uid user1))
       (Profile.posts (profile_deliver user1 es (profile_with [postA; postB]))).
Proof.
  intros es.
  assert (H : Forall (fun p => user_uid p = PStr (Profile.p_uid user1))
                (Profile.posts (profile_with [postA; postB]))).
  { vm_compute; repeat constructor. }
  refine (conj H (conj _ (profile_list_stays_the_users user1 es _ H))).
  vm_compute; reflexivity.
Defined.

(** X21.  Every way [fetchProfile] can go on a mounted screen ends the
    loading state.  Without a stored token no request is made and the
    error screen says so, without a logout.  With one, a failed
    [GET /users/me] gives the error screen with no user set; an answer
    without user gives the error screen; an answer with a user and then
    the posts gives the profile with those posts; and when the posts
    request fails after the user has arrived, the error screen is shown.
    The push listeners are registered from the moment the user is set,
    also under the error screen, and only when [VITE_API_URL] gives a
    socket; before that none is registered. *)
Theorem fetchProfile_outcomes :
  forall (VITE_API_URL token : option jsstr),
    let s0 := Profile.fetchProfile (Profile.init token) in
    let has_socket :=
      match Env.profile_socket VITE_API_URL with
      | Some _ => true
      | None => false
      end in
    (Profile.no_token token = true ->
     Profile.loading s0 = false
     /\ Profile.awaiting s0 = None
     /\ Profile.authToken s0 = token
     /\ Profile.timers s0 = []
     /\ ProfileView.render s0
        = ProfileView.ErrorView (PStr (js "No authentication token found"))
     /\ ProfileView.listening VITE_API_URL s0 = false)
    /\ (Profile.no_token token = false ->
        Profile.awaiting s0 = Some Profile.AwaitUser
        /\ ProfileView.render s0 = ProfileView.Loading
        /\ ProfileView.listening VITE_API_URL s0 = false
        /\ (forall err,
              let s1 := Profile.fetchProfile_rejected err s0 in
              Profile.loading s1 = false
              /\ Profile.awaiting s1 = None
              /\ Profile.user s1 = None
              /\ Profile.posts s1 = []
              /\ Profile.error s1
                 = or_else (or_else (error_data_message err) (message err))
                     (PStr (js "Failed to load profile"))
              /\ ProfileView.render s1 = ProfileView.ErrorView (Profile.error s1)
              /\ ProfileView.listening VITE_API_URL s1 = false)
        /\ (let s1 := Profile.fetchProfile_user None s0 in
            Profile.loading s1 = false
            /\ Profile.awaiting s1 = None
            /\ ProfileView.render s1
               = ProfileView.ErrorView (PStr (js "User data not found"))
            /\ Profile.authToken s1 = token
            /\ ProfileView.listening VITE_API_URL s1 = false)
        /\ forall u,
             let s1 := Profile.fetchProfile_user (Some u) s0 in
             Profile.awaiting s1 = Some Profile.AwaitPosts
             /\ ProfileView.render s1 = ProfileView.Loading
             /\ ProfileView.listening VITE_API_URL s1 = has_socket
             /\ (forall res_posts,
                   let s2 := Profile.fetchProfile_posts res_posts s1 in
                   Profile.loading s2 = false
                   /\ Profile.awaiting s2 = None
                   /\ ProfileView.render s2
                      = ProfileView.Main u (posts_or_empty res_posts)
                   /\ ProfileView.listening VITE_API_URL s2 = has_socket)
             /\ (forall err,
                   let s2 := Profile.fetchProfile_rejected err s1 in
                   Profile.loading s2 = false
                   /\ Profile.awaiting s2 = None
                   /\ Profile.user s2 = Some u
                   /\ ProfileView.render s2 = ProfileView.ErrorView (Profile.error s2)
                   /\ ProfileView.listening VITE_API_URL s2 = has_socket)).
Proof.
  intros v token s0 has_socket; subst s0 has_socket.
  unfold Profile.fetchProfile, ProfileView.listening; simpl; split.
  - intros Ht; rewrite Ht; simpl; repeat split.
  - intros Ht; rewrite Ht; simpl.
    split; [reflexivity|]. split; [reflexivity|]. split; [reflexivity|].
    split.
    { intros err.
      unfold Profile.fetchProfile_rejected, Profile.fetchProfile_catch,
        Profile.fetchProfile_finally; simpl.
      assert (Hmsg : truthy (or_else (or_else (error_data_message err) (message err))
                               (PStr (js "Failed to load profile"))) = true)
        by (apply or_else_truthy; reflexivity).
      unfold ProfileView.render.
      destruct (is_auth_error err); simpl; rewrite Hmsg; repeat split. }
    split; [repeat split|].
    intros u.
    split; [reflexivity|]. split; [reflexivity|].
    split; [destruct (Env.profile_socket v); reflexivity|].
    split.
    { intros res_posts; simpl.
      split; [reflexivity|]. split; [reflexivity|]. split; [reflexivity|].
      destruct (Env.profile_socket v); reflexivity. }
    intros err.
    unfold Profile.fetchProfile_rejected, Profile.fetchProfile_catch,
      Profile.fetchProfile_finally; simpl.
    assert (Hmsg : truthy (or_else (or_else (error_data_message err) (message err))
                             (PStr (js "Failed to load profile"))) = true)
      by (apply or_else_truthy; reflexivity).
    unfold ProfileView.render.
    destruct (is_auth_error err); simpl; rewrite Hmsg;
      destruct (Env.profile_socket v); repeat split.
Qed.

(** Without a token; with one and a server that cannot be reached; with
    one and both answers, with and without [VITE_API_URL]. *)
Lemma fetchProfile_outcomes_witness :
  let url := Some (js "https://api.example") in
  let err := mkError None (PStr (js "Network Error")) in
  let s0 := Profile.fetchProfile (Profile.init (Some (js "token"))) in
  Profile.no_token None = true
  /\ Profile.no_token (Some (js "token")) = false
  /\ ProfileView.render (Profile.fetchProfile (Profile.init None))
     = ProfileView.ErrorView (PStr (js "No authentication token found"))
  /\ Profile.loading (Profile.fetchProfile_rejected err s0) = false
  /\ ProfileView.render (Profile.fetchProfile_rejected err s0)
     = ProfileView.ErrorView (PStr (js "Network Error"))
  /\ ProfileView.render (profile_with [postA])
     = ProfileView.Main user1 [postA]
  /\ ProfileView.listening url (profile_with [postA]) = true
  /\ ProfileView.listening None (profile_with [postA]) = false.
Proof.
  intros url err s0.
  destruct (fetchProfile_outcomes url None) as [H0 _].
  destruct (H0 eq_refl) as (_ & _ & _ & _ & Hr & _).
  destruct (fetchProfile_outcomes url (Some (js "token"))) as [_ H1].
  destruct (H1 eq_refl) as (_ & _ & _ & Hrej & _ & Hu).
  destruct (Hrej err) as (Hl & _ & _ & _ & He & Hv & _).
  destruct (Hu user1) as (_ & _ & _ & Hp & _).
  destruct (Hp (Some [postA])) as (_ & _ & Hm & Hs).
  destruct (fetchProfile_outcomes None (Some (js "token"))) as [_ H2].
  destruct (H2 eq_refl) as (_ & _ & _ & _ & _ & Hu').
  destruct (Hu' user1) as (_ & _ & _ & Hp' & _).
  destruct (Hp' (Some [postA])) as (_ & _ & _ & Hs').
  refine (conj eq_refl (conj eq_refl (conj Hr (conj Hl (conj _
            (conj Hm (conj Hs Hs'))))))).
  fold s0 in Hv, He; rewrite Hv, He; vm_compute; reflexivity.
Defined.

(** ** Where the servers are *)

(** X22.  A missing [VITE_API_URL] is handled in three different ways.
    The REST base address never falls back: it is the variable followed
    by ["/api"], and ["undefined/api"] when the variable is absent.  The
    feed's socket falls back to the built-in server, and the profile's
    socket is not opened at all. *)
Theorem missing_api_url_is_handled_three_ways :
  forall (v : option jsstr),
    Env.axios_baseURL v = PStr (Env.interpolate v ++ js "/api")
    /\ Env.axios_baseURL None = PStr (js "undefined/api")
    /\ Env.dashboard_socket None = PStr Env.fallback
    /\ Env.dashboard_socket (Some []) = PStr Env.fallback
    /\ Env.profile_socket None = None
    /\ Env.profile_socket (Some []) = None
    /\ (forall c s, Env.dashboard_socket (Some (c :: s)) = PStr (c :: s)
                    /\ Env.profile_socket (Some (c :: s)) = Some (PStr (c :: s))).
Proof.
  intros v; split.
  - unfold Env.axios_baseURL, or_else; simpl.
    destruct (Env.interpolate v ++ js "/api") as [|c l] eqn:E; [|reflexivity].
    apply app_eq_nil in E; destruct E as [_ E]; discriminate.
  - repeat split.
Qed.

(** ** More on the card and the feed listeners *)

(** X23.  A save that fails keeps the draft.  Whether the PUT is refused
    by the server or the request is never made for want of a token, the
    editor stays open with the text as typed, the saving state ends, the
    user gets a message that is not empty, and [onPostUpdated] is not
    called. *)
Theorem failed_save_keeps_the_draft :
  forall (s : PostCard.state) (err : http_error),
    (PostCard.awaitingPut s = true ->
     let s' := PostCard.handleEdit_rejected err s in
     PostCard.isEditing s' = PostCard.isEditing s
     /\ PostCard.editContent s' = PostCard.editContent s
     /\ PostCard.isSaving s' = false
     /\ PostCard.awaitingPut s' = false
     /\ PostCard.updates s' = PostCard.updates s
     /\ exists msg, truthy msg = true
          /\ PostCard.effects s' = PostCard.Alert msg :: PostCard.effects s)
    /\ (let t := PostCard.trim (PostCard.editContent s) in
        t <> [] -> content (PostCard.post s) <> Some t ->
        (Z.of_nat (List.length t) <= 5000)%Z ->
        PostCard.authToken s = None \/ PostCard.authToken s = Some [] ->
        let s' := PostCard.handleEdit s in
        PostCard.isEditing s' = PostCard.isEditing s
        /\ PostCard.editContent s' = PostCard.editContent s
        /\ PostCard.isSaving s' = false
        /\ PostCard.effects s'
           = PostCard.Alert (PStr (js "Authentication required"))
             :: PostCard.effects s).
Proof.
  intros s err; split.
  - intros Ha s'; subst s'; unfold PostCard.handleEdit_rejected; rewrite Ha.
    unfold PostCard.handleEdit_catch; simpl; repeat split.
    eexists; split; [|reflexivity].
    apply or_else_truthy; reflexivity.
  - intros t Hne Hnc Hlen Htok s'; subst s'; unfold PostCard.handleEdit.
    fold t.
    assert (H1 : PostCard.is_empty_str t = false).
    { destruct (PostCard.is_empty_str t) eqn:E; [|reflexivity].
      apply is_empty_str_iff in E; contradiction. }
    assert (H2 : PostCard.is_content t (PostCard.post s) = false).
    { destruct (PostCard.is_content t (PostCard.post s)) eqn:E; [|reflexivity].
      apply is_content_iff in E; contradiction. }
    assert (H3 : (5000 <? Z.of_nat (List.length t))%Z = false)
      by (apply Z.ltb_ge; assumption).
    rewrite H1, H2, H3; simpl.
    destruct Htok as [Htok|Htok]; rewrite Htok; repeat split.
Qed.

(** The owner saves without a stored token; and a PUT that was sent is
    refused. *)
Lemma failed_save_keeps_the_draft_witness :
  let s := PostCard.mkState (post_of "A" "u1" "old") true (js "  hello  ") false
             (Some (PStr (js "u1"))) None false [] in
  let err := mkError (Some (mkResponse (PNum 500) PUndefined))
               (PStr (js "Request failed with status code 500")) in
  PostCard.awaitingPut (PostCard.handleEdit editing_card) = true
  /\ PostCard.editContent
       (PostCard.handleEdit_rejected err (PostCard.handleEdit editing_card))
     = js "  hello  "
  /\ PostCard.authToken s = None
  /\ PostCard.editContent (PostCard.handleEdit s) = js "  hello  "
  /\ PostCard.isEditing (PostCard.handleEdit s) = true.
Proof.
  intros s err.
  assert (Ha : PostCard.awaitingPut (PostCard.handleEdit editing_card) = true)
    by (vm_compute; reflexivity).
  destruct (failed_save_keeps_the_draft (PostCard.handleEdit editing_card) err)
    as [H1 _].
  destruct (H1 Ha) as (_ & Hc & _).
  destruct (failed_save_keeps_the_draft s err) as [_ H2].
  assert (Hne : PostCard.trim (PostCard.editContent s) <> [])
    by (vm_compute; discriminate).
  assert (Hnc : content (PostCard.post s)
                <> Some (PostCard.trim (PostCard.editContent s)))
    by (vm_compute; discriminate).
  assert (Hl : (Z.of_nat (List.length (PostCard.trim (PostCard.editContent s)))
                <= 5000)%Z) by (vm_compute; discriminate).
  destruct (H2 Hne Hnc Hl (or_introl eq_refl)) as (Hi & Hc' & _).
  refine (conj Ha (conj _ (conj eq_refl (conj Hc' Hi)))).
  rewrite Hc; vm_compute; reflexivity.
Defined.

(** X24.  Push events touch the list and nothing else: whatever events
    are delivered to the feed screen, in whatever order and with whatever
    payloads, they send no request, set no timer, and leave the page
    number, the loading and end-of-feed flags, the error and the stored
    token as they were. *)
Theorem push_events_touch_only_the_list :
  forall (es : list push) (s : Dashboard.state),
    let s' := feed_deliver es s in
    Dashboard.requests s' = Dashboard.requests s
    /\ Dashboard.timers s' = Dashboard.timers s
    /\ Dashboard.page s' = Dashboard.page s
    /\ Dashboard.loading s' = Dashboard.loading s
    /\ Dashboard.hasMore s' = Dashboard.hasMore s
    /\ Dashboard.initialLoad s' = Dashboard.initialLoad s
    /\ Dashboard.error s' = Dashboard.error s
    /\ Dashboard.authToken s' = Dashboard.authToken s
    /\ Dashboard.inflight s' = Dashboard.inflight s
    /\ Dashboard.fetchingRef s' = Dashboard.fetchingRef s.
Proof.
  intros es s s'; subst s'; rewrite feed_deliver_frame; repeat split.
Qed.

(** X25.  On the feed screen a [post:deleted] event may carry the
    identifier bare or inside an object: both forms lead to the same
    state, whose list is the old one without the entries that have the
    identifier, the others in their order; nothing but the list changes,
    and nothing at all when no entry has the identifier.  The profile
    screen does the same to its list for the object form. *)
Theorem feed_deleted_accepts_both_forms :
  forall (s : Dashboard.state) (t : Profile.state) (i : prim) (o : Post),
    truthy i = true ->
    _id o = i ->
    exists (s1 : Dashboard.state) (t1 : Profile.state),
      feed_listener (PostDeleted (Prim i)) s = Done s1
      /\ feed_listener (PostDeleted (Obj o)) s = Done s1
      /\ Dashboard.posts s1
         = filter (fun p => negb (strict_eq (_id p) i)) (Dashboard.posts s)
      /\ ~ In i (ids (Dashboard.posts s1))
      /\ (forall p, In p (Dashboard.posts s1)
                    <-> In p (Dashboard.posts s) /\ _id p <> i)
      /\ s1 = Dashboard.setPosts (fun _ => Dashboard.posts s1) s
      /\ (~ In i (ids (Dashboard.posts s)) -> s1 = s)
      /\ (forall u, profile_listener u (PostDeleted (Obj o)) t = Done t1)
      /\ Profile.posts t1
         = filter (fun p => negb (strict_eq (_id p) i)) (Profile.posts t)
      /\ t1 = Profile.setPosts (fun _ => Profile.posts t1) t.
Proof.
  intros s t i o Ht Ho.
  exists (Dashboard.setPosts (Reconcile.deleted (Prim i)) s),
         (Profile.setPosts (Reconcile.deleted (Prim i)) t).
  split; [simpl; apply (feed_deleted_wf (d := Prim i) s Ht (or_introl eq_refl))|].
  split.
  { simpl; apply (feed_deleted_wf (d := Obj o) (i := i) s Ht).
    right; exists o; auto. }
  split; [reflexivity|].
  split; [apply (deleted_removes i (Dashboard.posts s))|].
  split.
  { intros p; simpl; unfold Reconcile.deleted; simpl.
    rewrite filter_In, negb_true_iff, strict_eq_false_iff; tauto. }
  split; [reflexivity|].
  split; [intros Hn; apply feed_setPosts_same, deleted_absent; exact Hn|].
  split; [intros u; simpl; rewrite profile_deleted_object, Ho; reflexivity|].
  split; reflexivity.
Qed.

(** B leaves the feed [A,B] whichever way its identifier arrives, and
    the profile [A,B] when it arrives in an object. *)
Lemma feed_deleted_accepts_both_forms_witness :
  truthy (_id postB) = true
  /\ (exists s1,
        feed_listener (PostDeleted (Prim (_id postB))) (feed_with [postA; postB])
        = Done s1
        /\ feed_listener (PostDeleted (Obj postB)) (feed_with [postA; postB])
           = Done s1
        /\ Dashboard.posts s1 = [postA])
  /\ (exists t1,
        profile_listener user1 (PostDeleted (Obj postB))
          (profile_with [postA; postB]) = Done t1
        /\ Profile.posts t1 = [postA]).
Proof.
  assert (Ht : truthy (_id postB) = true) by reflexivity.
  destruct (feed_deleted_accepts_both_forms (feed_with [postA; postB])
              (profile_with [postA; postB]) postB Ht eq_refl)
    as (s1 & t1 & E1 & E2 & Hl & _ & _ & _ & _ & E3 & Hl' & _).
  refine (conj Ht (conj _ _)).
  - exists s1; refine (conj E1 (conj E2 _)).
    rewrite Hl; vm_compute; reflexivity.
  - exists t1; refine (conj (E3 user1) _).
    rewrite Hl'; vm_compute; reflexivity.
Defined.

(** X26.  The feed listeners look at the payload before they read from
    it: for no payload does the body of a listener throw, so the
    [catch] around it is never entered, and a payload that is [null],
    [undefined], another scalar where a post is expected, or an object
    without [_id] leaves the state as it was. *)
Theorem feed_listeners_check_before_reading :
  forall (d : payload) (s : Dashboard.state),
    Dashboard.handlePostCreated_body d s <> TypeError
    /\ Dashboard.handlePostUpdated_body d s <> TypeError
    /\ Dashboard.handlePostDeleted_body d s <> TypeError
    /\ (malformed d = true ->
        feed_listener (PostCreated d) s = Done s
        /\ feed_listener (PostUpdated d) s = Done s
        /\ feed_listener (PostDeleted d) s = Done s)
    /\ (forall v, d = Prim v ->
        feed_listener (PostCreated d) s = Done s
        /\ feed_listener (PostUpdated d) s = Done s).
Proof.
  intros d s.
  split; [unfold Dashboard.handlePostCreated_body;
          destruct d as [[| |b|n|x]|o]; simpl; split_ifs; discriminate|].
  split; [unfold Dashboard.handlePostUpdated_body;
          destruct d as [[| |b|n|x]|o]; simpl; split_ifs; discriminate|].
  split; [unfold Dashboard.handlePostDeleted_body;
          split_ifs; discriminate|].
  split.
  - intros Hm; repeat split;
      [apply (feed_listeners_drop_malformed (PostCreated d))
      |apply (feed_listeners_drop_malformed (PostUpdated d))
      |apply (feed_listeners_drop_malformed (PostDeleted d))]; exact Hm.
  - intros v ->; split; simpl;
      unfold Dashboard.handlePostCreated, Dashboard.handlePostCreated_body,
        Dashboard.handlePostUpdated, Dashboard.handlePostUpdated_body;
      destruct v as [| |b|n|x]; simpl; split_ifs; reflexivity.
Qed.

Lemma feed_listeners_check_before_reading_witness :
  malformed (Obj post_without_id) = true
  /\ feed_listener (PostCreated (Obj post_without_id)) (feed_with [postA])
     = Done (feed_with [postA])
  /\ feed_listener (PostDeleted (Prim PNull)) (feed_with [postA])
     = Done (feed_with [postA]).
Proof.
  destruct (feed_listeners_check_before_reading (Obj post_without_id)
              (feed_with [postA])) as (_ & _ & _ & H & _).
  destruct (H eq_refl) as (H1 & _).
  destruct (feed_listeners_check_before_reading (Prim PNull)
              (feed_with [postA])) as (_ & _ & _ & H' & _).
  destruct (H' eq_refl) as (_ & _ & H3).
  exact (conj eq_refl (conj H1 H3)).
Defined.

(** X27.  A screen that was unmounted takes no result: a response or a
    failure that reaches it afterwards, a 401 included, changes neither
    the list nor any flag, removes no token and sets no timer; it does
    not reset [fetchingRef] either. *)
Theorem unmounted_screen_takes_no_result :
  forall (s : Dashboard.state) (res_posts : option (list Post))
         (err : http_error),
    let u := Dashboard.unmount s in
    let keeps (x : Dashboard.state) :=
      Dashboard.posts x = Dashboard.posts s
      /\ Dashboard.page x = Dashboard.page s
      /\ Dashboard.loading x = Dashboard.loading s
      /\ Dashboard.hasMore x = Dashboard.hasMore s
      /\ Dashboard.initialLoad x = Dashboard.initialLoad s
      /\ Dashboard.error x = Dashboard.error s
      /\ Dashboard.retryCount x = Dashboard.retryCount s
      /\ Dashboard.fetchingRef x = Dashboard.fetchingRef s
      /\ Dashboard.authToken x = Dashboard.authToken s
      /\ Dashboard.timers x = Dashboard.timers s
      /\ Dashboard.requests x = Dashboard.requests s in
    keeps (Dashboard.fetchPosts_resolved res_posts u)
    /\ keeps (Dashboard.fetchPosts_rejected err u)
    /\ Dashboard.observing u = false
    /\ (forall b, Dashboard.intersect b u = u).
Proof.
  intros s res_posts err u keeps; subst u keeps; simpl.
  destruct (torn_down_screen_applies_nothing s res_posts err) as [E [E'|E']].
  - rewrite <- E, E'; repeat split.
  - rewrite <- E, E'; repeat split.
Qed.
